(** * interactsh HTTP server: a shallow embedding of [pkg/server]

    The development follows the Go sources [pkg/server/server.go] and
    [pkg/server/http_server.go].  Go [string]s and [[]byte] are byte
    sequences and are represented by [string] (a list of 8-bit [ascii]
    characters); Go [int] is represented by [Z]; a run-time panic is an
    explicit outcome of the embedding. *)

From Stdlib Require Import ZArith Lia Ascii String.
From stdpp Require Import base tactics option list gmap strings.

Local Open Scope Z_scope.

(** ** Byte strings: the fragment of Go's [strings] package that the
       server uses *)

Module GoStrings.

(** [len(s)] *)
Definition len (s : string) : Z := Z.of_nat (String.length s).

(** [s[a:b]]: Go panics unless [0 <= a <= b <= len(s)]. *)
Definition slice (s : string) (a b : Z) : option string :=
  if (0 <=? a) && (a <=? b) && (b <=? len s)
  then Some (String.substring (Z.to_nat a) (Z.to_nat (b - a)) s)
  else None.

(** [s[:n]] on a slice of strings, [parts[:n]]. *)
Definition slice_to {A} (l : list A) (n : Z) : option (list A) :=
  if (0 <=? n) && (n <=? Z.of_nat (length l))
  then Some (take (Z.to_nat n) l)
  else None.

(** [strings.HasPrefix] *)
Definition HasPrefix (s pre : string) : bool := String.prefix pre s.

(** [strings.HasSuffix] *)
Fixpoint HasSuffix (s suf : string) : bool :=
  String.eqb s suf ||
  match s with
  | EmptyString => false
  | String _ t => HasSuffix t suf
  end.

(** [strings.TrimPrefix] *)
Fixpoint TrimPrefix_aux (s pre : string) : option string :=
  match pre, s with
  | EmptyString, _ => Some s
  | String p pre', String c s' =>
      if Ascii.eqb p c then TrimPrefix_aux s' pre' else None
  | String _ _, EmptyString => None
  end.

Definition TrimPrefix (s pre : string) : string :=
  match TrimPrefix_aux s pre with
  | Some r => r
  | None => s
  end.

(** [strings.Index]: the first byte offset of [sub] in [s], or [-1]. *)
Fixpoint Index (s sub : string) : Z :=
  if String.prefix sub s then 0
  else match s with
       | EmptyString => -1
       | String _ t => let r := Index t sub in if r <? 0 then -1 else r + 1
       end.

(** [strings.LastIndex]: the last byte offset of [sub] in [s], or [-1]. *)
Fixpoint LastIndex (s sub : string) : Z :=
  match s with
  | EmptyString => if String.prefix sub s then 0 else -1
  | String _ t =>
      let r := LastIndex t sub in
      if 0 <=? r then r + 1
      else if String.prefix sub s then 0 else -1
  end.

(** [strings.Contains] for a one-byte needle. *)
Fixpoint ContainsByte (c : ascii) (s : string) : bool :=
  match s with
  | EmptyString => false
  | String d t => Ascii.eqb d c || ContainsByte c t
  end.

(** [strings.Split(s, sep)] for a one-byte separator: always at least one
    field, empty fields are kept. *)
Fixpoint Split (s : string) (sep : ascii) : list string :=
  match s with
  | EmptyString => [EmptyString]
  | String c t =>
      if Ascii.eqb c sep then EmptyString :: Split t sep
      else match Split t sep with
           | h :: r => String c h :: r
           | [] => [String c EmptyString]
           end
  end.

(** [strings.SplitN(s, sep, 2)] for a one-byte separator: the text before
    the first separator and everything after it, or the whole string when
    there is no separator. *)
Fixpoint SplitN2 (s : string) (sep : ascii) : list string :=
  match s with
  | EmptyString => [EmptyString]
  | String c t =>
      if Ascii.eqb c sep then [EmptyString; t]
      else match SplitN2 t sep with
           | h :: r => String c h :: r
           | [] => [String c EmptyString]
           end
  end.

(** [strings.Join] *)
Definition Join (parts : list string) (sep : string) : string :=
  String.concat sep parts.

(** [strings.ToLower] as it acts on ASCII text: the letters A-Z are mapped
    to a-z.  Go also case-maps letters outside ASCII through the Unicode
    tables (U+0130 to [i], U+212A to [k]); those bytes are left unchanged
    here.  The two agree on every string of ASCII characters, and on the
    prefix and suffix tests against [/b64_body:], [/s/], [.json] and [.xml],
    which hold no letter that a letter outside ASCII is mapped to.  Where a
    property compares the request host with a configured domain it assumes
    both ASCII. *)
Definition lower_byte (c : ascii) : ascii :=
  let n := N_of_ascii c in
  if ((65 <=? n) && (n <=? 90))%N then ascii_of_N (n + 32) else c.

Fixpoint ToLower (s : string) : string :=
  match s with
  | EmptyString => EmptyString
  | String c t => String (lower_byte c) (ToLower t)
  end.

(** [strings.EqualFold] as it acts on ASCII text.  Go folds letters
    outside ASCII too (U+017F with [s]); the two agree when both strings
    are ASCII.  Where a property depends on the comparison of the path with
    [/robots.txt] it assumes an ASCII path. *)
Definition EqualFold (s t : string) : bool :=
  String.eqb (ToLower s) (ToLower t).

(** [strings.FieldsFunc]: maximal runs of bytes that do not satisfy [f];
    empty fields are dropped. *)
Fixpoint FieldsFunc_from (f : ascii -> bool) (cur : string) (s : string)
  : list string :=
  let flush := if String.eqb cur EmptyString then [] else [cur] in
  match s with
  | EmptyString => flush
  | String c t =>
      if f c then flush ++ FieldsFunc_from f EmptyString t
      else FieldsFunc_from f (cur +:+ String c EmptyString) t
  end.

Definition FieldsFunc (f : ascii -> bool) (s : string) : list string :=
  FieldsFunc_from f EmptyString s.

End GoStrings.

(** ** [github.com/projectdiscovery/utils/strings] *)

Module stringsutil.
Import GoStrings.

(** [HasPrefixI]: case-insensitive [HasPrefix]. *)
Definition HasPrefixI (s pre : string) : bool :=
  HasPrefix (ToLower s) (ToLower pre).

(** [HasSuffixI]: case-insensitive [HasSuffix]. *)
Definition HasSuffixI (s suf : string) : bool :=
  HasSuffix (ToLower s) (ToLower suf).

(** [SplitAny(s, seps)]: [strings.FieldsFunc] with the separator test
    "the character occurs in [seps]". *)
Definition SplitAny (s seps : string) : list string :=
  FieldsFunc (fun c => ContainsByte c seps) s.

(** [SlideWithLength(s, l)]: every window [s[i:i+l]], left to right; a
    string shorter than [l] is sent whole.  The producer slices
    [s[i:i+l]], which panics for a negative [l] on a non-empty string. *)
Fixpoint windows (s : string) (l : nat) : list string :=
  match s with
  | EmptyString => []
  | String _ t =>
      if (l <=? String.length s)%nat
      then String.substring 0 l s :: windows t l
      else []
  end.

Definition SlideWithLength (s : string) (l : Z) : option (list string) :=
  if len s <? l then Some [s]
  else if (l <? 0) && (0 <? len s) then None
  else Some (windows s (Z.to_nat l)).

End stringsutil.

Import GoStrings stringsutil.

(** ** Bytes, machine integers and [strconv.Atoi] *)

(** The value of a byte. *)
Definition byte_val (c : ascii) : Z := Z.of_N (N_of_ascii c).

(** Go's conversion [byte(x)] of an unsigned value: the low eight bits. *)
Definition byte_of (x : Z) : ascii := ascii_of_N (Z.to_N (x mod 256)).

(** A 64-bit two's-complement [int]: arithmetic wraps around. *)
Definition wrap64 (z : Z) : Z := (z + 2 ^ 63) mod 2 ^ 64 - 2 ^ 63.

Module strconv.

Inductive NumError := ErrSyntax | ErrRange.

Definition digit (c : ascii) : option Z :=
  let n := byte_val c in
  if (48 <=? n) && (n <=? 57) then Some (n - 48) else None.

Fixpoint digits (acc : Z) (s : string) : option Z :=
  match s with
  | EmptyString => Some acc
  | String c t =>
      match digit c with
      | Some d => digits (acc * 10 + d) t
      | None => None
      end
  end.

(** [strconv.Atoi]: an optional sign and decimal digits.  A syntax error
    yields [0]; a value outside the [int] range yields the nearest bound
    together with [ErrRange]. *)
Definition Atoi (s : string) : Z * option NumError :=
  match s with
  | EmptyString => (0, Some ErrSyntax)
  | String c t =>
      let neg := Ascii.eqb c "-" in
      let body := if neg || Ascii.eqb c "+" then t else s in
      match body with
      | EmptyString => (0, Some ErrSyntax)
      | _ =>
          match digits 0 body with
          | None => (0, Some ErrSyntax)
          | Some n =>
              if neg then
                if n <=? 2 ^ 63 then (- n, None) else (- 2 ^ 63, Some ErrRange)
              else
                if n <? 2 ^ 63 then (n, None) else (2 ^ 63 - 1, Some ErrRange)
          end
      end
  end.

End strconv.

(** ** UTF-8: the conversions [[]rune(s)] and [string(runes)] *)

Module utf8.

Definition RuneError : Z := 65533.

Definition cont (b : Z) : bool := (128 <=? b) && (b <=? 191).

Definition rune2 (b0 b1 : Z) : Z :=
  Z.lor (Z.shiftl (Z.land b0 31) 6) (Z.land b1 63).

Definition rune3 (b0 b1 b2 : Z) : Z :=
  Z.lor (Z.lor (Z.shiftl (Z.land b0 15) 12) (Z.shiftl (Z.land b1 63) 6))
        (Z.land b2 63).

Definition rune4 (b0 b1 b2 b3 : Z) : Z :=
  Z.lor (Z.lor (Z.lor (Z.shiftl (Z.land b0 7) 18)
                      (Z.shiftl (Z.land b1 63) 12))
               (Z.shiftl (Z.land b2 63) 6))
        (Z.land b3 63).

(** [[]rune(s)]: a byte that does not start a well-formed sequence decodes
    to [RuneError] and consumes one byte. *)
Fixpoint runes (s : string) : list Z :=
  match s with
  | EmptyString => []
  | String c0 t =>
      let b0 := byte_val c0 in
      if b0 <? 128 then b0 :: runes t
      else if (194 <=? b0) && (b0 <=? 223) then
        match t with
        | String c1 t1 =>
            if cont (byte_val c1)
            then rune2 b0 (byte_val c1) :: runes t1 else RuneError :: runes t
        | _ => RuneError :: runes t
        end
      else if (224 <=? b0) && (b0 <=? 239) then
        let lo := if b0 =? 224 then 160 else 128 in
        let hi := if b0 =? 237 then 159 else 191 in
        match t with
        | String c1 (String c2 t2) =>
            if (lo <=? byte_val c1) && (byte_val c1 <=? hi)
               && cont (byte_val c2)
            then rune3 b0 (byte_val c1) (byte_val c2) :: runes t2 else RuneError :: runes t
        | _ => RuneError :: runes t
        end
      else if (240 <=? b0) && (b0 <=? 244) then
        let lo := if b0 =? 240 then 144 else 128 in
        let hi := if b0 =? 244 then 143 else 191 in
        match t with
        | String c1 (String c2 (String c3 t3)) =>
            if (lo <=? byte_val c1) && (byte_val c1 <=? hi)
               && cont (byte_val c2) && cont (byte_val c3)
            then rune4 b0 (byte_val c1) (byte_val c2) (byte_val c3) :: runes t3
            else RuneError :: runes t
        | _ => RuneError :: runes t
        end
      else RuneError :: runes t
  end.

Definition tail_byte (r : Z) (sh : Z) : ascii :=
  byte_of (Z.lor 128 (Z.land (Z.shiftr r sh) 63)).

(** The UTF-8 encoding of one rune; surrogates and values above
    [0x10FFFF] are encoded as [RuneError]. *)
Definition encode_rune (r : Z) : string :=
  let r3 (r : Z) :=
    String (byte_of (Z.lor 224 (Z.shiftr r 12)))
      (String (tail_byte r 6) (String (tail_byte r 0) EmptyString)) in
  if (0 <=? r) && (r <=? 127) then String (byte_of r) EmptyString
  else if (0 <=? r) && (r <=? 2047) then
    String (byte_of (Z.lor 192 (Z.shiftr r 6)))
      (String (tail_byte r 0) EmptyString)
  else if (r <? 0) || (1114111 <? r) || ((55296 <=? r) && (r <=? 57343))
  then r3 RuneError
  else if r <=? 65535 then r3 r
  else
    String (byte_of (Z.lor 240 (Z.shiftr r 18)))
      (String (tail_byte r 12)
         (String (tail_byte r 6) (String (tail_byte r 0) EmptyString))).

(** [string(runes)] *)
Fixpoint of_runes (rs : list Z) : string :=
  match rs with
  | [] => EmptyString
  | r :: rs' => encode_rune r +:+ of_runes rs'
  end.

End utf8.

(** ** [encoding/base64]: [StdEncoding] *)

Module base64.

Definition encodeStd : string :=
  "ABCDEFGHIJKLMNOPQRSTUVWXYZabcdefghijklmnopqrstuvwxyz0123456789+/".

(** [enc.encode[i]] *)
Definition encode_at (i : Z) : ascii :=
  match String.get (Z.to_nat i) encodeStd with
  | Some c => c
  | None => "="%char
  end.

Fixpoint index_of (c : ascii) (s : string) (i : Z) : Z :=
  match s with
  | EmptyString => 255
  | String d t => if Ascii.eqb d c then i else index_of c t (i + 1)
  end.

(** [enc.decodeMap[c]]: the six-bit value of an alphabet character and
    [0xff] for every other byte. *)
Definition decodeMap (c : ascii) : Z := index_of c encodeStd 0.

Definition padChar : ascii := "="%char.

Definition is_newline (c : ascii) : bool :=
  Ascii.eqb c "010"%char || Ascii.eqb c "013"%char.

Definition val24 (a b c : Z) : Z :=
  Z.lor (Z.lor (Z.shiftl a 16) (Z.shiftl b 8)) c.

Definition sextet (val sh : Z) : ascii :=
  encode_at (Z.land (Z.shiftr val sh) 63).

(** [StdEncoding.EncodeToString] *)
Fixpoint EncodeToString (src : string) : string :=
  match src with
  | EmptyString => EmptyString
  | String a EmptyString =>
      let val := Z.shiftl (byte_val a) 16 in
      String (sextet val 18) (String (sextet val 12)
        (String padChar (String padChar EmptyString)))
  | String a (String b EmptyString) =>
      let val := Z.lor (Z.shiftl (byte_val a) 16) (Z.shiftl (byte_val b) 8) in
      String (sextet val 18) (String (sextet val 12)
        (String (sextet val 6) (String padChar EmptyString)))
  | String a (String b (String c t)) =>
      let val := val24 (byte_val a) (byte_val b) (byte_val c) in
      String (sextet val 18) (String (sextet val 12)
        (String (sextet val 6) (String (sextet val 0) (EncodeToString t))))
  end.

Fixpoint skip_newlines (s : string) : string :=
  match s with
  | String c t => if is_newline c then skip_newlines t else s
  | EmptyString => EmptyString
  end.

(** The bytes of one quantum: [dlen] six-bit values give [dlen - 1]
    bytes. *)
Definition quantum_bytes (dbuf : list Z) (dlen : nat) : string :=
  let d (i : nat) := nth i dbuf 0 in
  let val :=
    Z.lor (Z.lor (Z.lor (Z.shiftl (d 0%nat) 18) (Z.shiftl (d 1%nat) 12))
                 (Z.shiftl (d 2%nat) 6)) (d 3%nat) in
  let b0 := byte_of (Z.shiftr val 16) in
  let b1 := byte_of (Z.shiftr val 8) in
  let b2 := byte_of val in
  match dlen with
  | 4%nat => String b0 (String b1 (String b2 EmptyString))
  | 3%nat => String b0 (String b1 EmptyString)
  | 2%nat => String b0 EmptyString
  | _ => EmptyString
  end.

(** After the padding of the last quantum only newlines may follow. *)
Definition finish (bytes rest : string) : string * bool :=
  (bytes, negb (String.eqb rest EmptyString)).

(** [StdEncoding.Decode], quantum by quantum: [j] six-bit values of the
    current quantum are in [dbuf].  The result is the bytes decoded before
    the first error and whether an error occurred. *)
Fixpoint decode_from (j : nat) (dbuf : list Z) (src : string)
  : string * bool :=
  match src with
  | EmptyString =>
      match j with O => (EmptyString, false) | _ => (EmptyString, true) end
  | String c t =>
      let out := decodeMap c in
      if negb (out =? 255) then
        match j with
        | 3%nat =>
            let '(bs, e) := decode_from 0 [] t in
            (quantum_bytes (dbuf ++ [out]) 4 +:+ bs, e)
        | _ => decode_from (S j) (dbuf ++ [out]) t
        end
      else if is_newline c then decode_from j dbuf t
      else if negb (Ascii.eqb c padChar) then (EmptyString, true)
      else
        match j with
        | 0%nat | 1%nat => (EmptyString, true)
        | 2%nat =>
            match skip_newlines t with
            | EmptyString => (EmptyString, true)
            | String c2 t2 =>
                if negb (Ascii.eqb c2 padChar) then (EmptyString, true)
                else finish (quantum_bytes dbuf 2) (skip_newlines t2)
            end
        | _ => finish (quantum_bytes dbuf 3) (skip_newlines t)
        end
  end.

(** [StdEncoding.DecodeString]: the decoded prefix and the error flag. *)
Definition DecodeString (s : string) : string * bool :=
  decode_from 0 [] s.

End base64.

(** [strings.ReplaceAll]: non-overlapping occurrences of [old], left to
    right ([skip] counts the bytes of a match still to be dropped). *)
Fixpoint ReplaceAll_from (skip : nat) (s old new : string) : string :=
  match s with
  | EmptyString => EmptyString
  | String c t =>
      match skip with
      | S k => ReplaceAll_from k t old new
      | O =>
          if negb (String.eqb old EmptyString) && String.prefix old s
          then new +:+ ReplaceAll_from (String.length old - 1) t old new
          else String c (ReplaceAll_from 0 t old new)
      end
  end.

Definition ReplaceAll (s old new : string) : string :=
  ReplaceAll_from 0 s old new.

Fixpoint forallb_string (f : ascii -> bool) (s : string) : bool :=
  match s with
  | EmptyString => true
  | String c t => f c && forallb_string f t
  end.

(** Characters that a string literal cannot hold. *)
Definition dquote : string := String "034"%char EmptyString.
Definition newline : string := String "010"%char EmptyString.
Definition tab : string := String "009"%char EmptyString.

(** ** [net/http]: headers, query values and the response recorder *)

Abbreviation Header := (gmap string (list string)).

Module http.

Definition StatusOK : Z := 200.
Definition StatusNoContent : Z := 204.
Definition StatusBadRequest : Z := 400.
Definition StatusUnauthorized : Z := 401.
Definition StatusNotFound : Z := 404.
Definition StatusMethodNotAllowed : Z := 405.
Definition StatusTooManyRequests : Z := 429.

Definition MethodPost : string := "POST".
Definition MethodOptions : string := "OPTIONS".

Definition is_alnum (c : ascii) : bool :=
  let n := byte_val c in
  ((48 <=? n) && (n <=? 57)) || ((65 <=? n) && (n <=? 90))
  || ((97 <=? n) && (n <=? 122)).

(** The token characters of a header field name. *)
Definition validHeaderFieldByte (c : ascii) : bool :=
  is_alnum c || ContainsByte c "!#$%&'*+-.^_`|~".

(** First letter and every letter after a dash in upper case, the others in
    lower case. *)
Fixpoint canon_case (upper : bool) (s : string) : string :=
  match s with
  | EmptyString => EmptyString
  | String c t =>
      let n := byte_val c in
      let c' :=
        if upper && (97 <=? n) && (n <=? 122) then byte_of (n - 32)
        else if negb upper && (65 <=? n) && (n <=? 90) then byte_of (n + 32)
        else c in
      String c' (canon_case (Ascii.eqb c' "-") t)
  end.

(** [textproto.CanonicalMIMEHeaderKey]: a key that holds a byte outside the
    token characters is returned unchanged. *)
Definition CanonicalMIMEHeaderKey (s : string) : string :=
  if forallb_string validHeaderFieldByte s then canon_case true s else s.

(** [h[k]] of a [map[string][]string]: [nil] for a missing key. *)
Definition values (h : Header) (k : string) : list string :=
  default [] (h !! k).

Definition first_value (vs : list string) : string :=
  match vs with
  | v :: _ => v
  | [] => EmptyString
  end.

(** [Header.Set], [Header.Add], [Header.Get] *)
Definition Header_Set (h : Header) (key value : string) : Header :=
  <[CanonicalMIMEHeaderKey key := [value]]> h.

Definition Header_Add (h : Header) (key value : string) : Header :=
  let k := CanonicalMIMEHeaderKey key in
  <[k := values h k ++ [value]]> h.

Definition Header_Get (h : Header) (key : string) : string :=
  first_value (values h (CanonicalMIMEHeaderKey key)).

(** [url.Values.Get]: the first value of the key, without
    canonicalisation. *)
Definition Values_Get (v : Header) (key : string) : string :=
  first_value (values v key).

(** [len(values)] of a [map] is positive *)
Definition nonempty (v : Header) : bool := bool_decide (v ≠ ∅).

End http.

Import http.

(** Run-time panics the handlers can raise. *)
Inductive panic :=
| SliceBoundsOutOfRange
| InvalidWriteHeaderCode (code : Z).

Inductive result (A : Type) :=
| Ok (a : A)
| Panicked (p : panic).
Arguments Ok {A} a.
Arguments Panicked {A} p.

Definition of_option {A} (o : option A) : result A :=
  match o with
  | Some a => Ok a
  | None => Panicked SliceBoundsOutOfRange
  end.

(** The calls a handler makes on its [http.ResponseWriter], in order. *)
Inductive Call :=
| CallHeaderSet (key value : string)
| CallHeaderAdd (key value : string)
| CallWriteHeader (code : Z)
| CallWrite (data : string).

(** [httptest.ResponseRecorder].  [calls] is a ghost field: the log of the
    calls received so far. *)
Record ResponseRecorder := mkRecorder {
  Code : Z;
  HeaderMap : Header;
  Body : string;
  wroteHeader : bool;
  snapHeader : option Header;
  calls : list Call
}.

(** [httptest.NewRecorder()] *)
Definition NewRecorder : ResponseRecorder :=
  {| Code := 200; HeaderMap := ∅; Body := EmptyString;
     wroteHeader := false; snapHeader := None; calls := [] |}.

(** [http.Response], as far as the server reads it. *)
Record Response := mkResponse {
  StatusCode : Z;
  RespHeader : Header;
  RespBody : string
}.

(** [rw.Result()]: the status, the headers as they were when the status was
    written, and the body. *)
Definition Result (rw : ResponseRecorder) : Response :=
  {| StatusCode := if Code rw =? 0 then 200 else Code rw;
     RespHeader := default (HeaderMap rw) (snapHeader rw);
     RespBody := Body rw |}.

Definition log_call (c : Call) (rw : ResponseRecorder) : ResponseRecorder :=
  {| Code := Code rw; HeaderMap := HeaderMap rw; Body := Body rw;
     wroteHeader := wroteHeader rw; snapHeader := snapHeader rw;
     calls := calls rw ++ [c] |}.

Definition set_header (f : Header -> Header) (rw : ResponseRecorder)
  : ResponseRecorder :=
  {| Code := Code rw; HeaderMap := f (HeaderMap rw); Body := Body rw;
     wroteHeader := wroteHeader rw; snapHeader := snapHeader rw;
     calls := calls rw |}.

(** [checkWriteHeaderCode]: only three-digit codes are accepted. *)
Definition checkWriteHeaderCode (code : Z) : bool :=
  negb ((code <? 100) || (999 <? code)).

(** [rw.WriteHeader(code)] without the log entry: ignored once the header is
    written, panics on an invalid code, otherwise records the code and
    snapshots the headers. *)
Definition rw_WriteHeader (code : Z) (rw : ResponseRecorder)
  : result ResponseRecorder :=
  if wroteHeader rw then Ok rw
  else if negb (checkWriteHeaderCode code)
  then Panicked (InvalidWriteHeaderCode code)
  else Ok {| Code := code; HeaderMap := HeaderMap rw; Body := Body rw;
             wroteHeader := true; snapHeader := Some (HeaderMap rw);
             calls := calls rw |}.

Definition append_body (data : string) (rw : ResponseRecorder)
  : ResponseRecorder :=
  {| Code := Code rw; HeaderMap := HeaderMap rw; Body := Body rw +:+ data;
     wroteHeader := wroteHeader rw; snapHeader := snapHeader rw;
     calls := calls rw |}.

(** ** The data model of [pkg/server] *)

(** [Options], the fields the HTTP server reads. *)
Record Options := mkOptions {
  Domains : list string;
  Auth : bool;
  Token : string;
  RootTLD : bool;
  OriginURL : string;
  ScanEverywhere : bool;
  CorrelationIdLength : Z;
  CorrelationIdNonceLength : Z;
  OriginIPHeader : string;
  Version : string;
  DynamicResp : bool;
  NoVersionHeader : bool;
  HeaderServer : string
}.

(** [Interaction]; [Timestamp] is in nanoseconds. *)
Record Interaction := mkInteraction {
  Protocol : string;
  UniqueID : string;
  FullId : string;
  RawRequest : string;
  RawResponse : string;
  RemoteAddress : string;
  Timestamp : Z
}.

Record PollResponse := mkPollResponse {
  Data : list string;
  Extra : list string;
  AESKey : string;
  TLDData : list string
}.

Record dynamicEndpoint := mkDynamicEndpoint {
  EndpointBody : string;
  ContentType : string;
  LastUpdated : Z
}.

(** The decoded JSON body of [POST /storerequest]. *)
Record storeReq := mkStoreReq {
  SReqBody : string;
  SReqContentType : string;
  SubURL : string
}.

(** The values the handlers hand to the JSON encoder. *)
Inductive JSONValue :=
| JSONMap (key value : string)
| JSONInteraction (i : Interaction)
| JSONPollResponse (r : PollResponse).

(** [*http.Request], as far as the handlers read it.  [URLString] is
    [r.URL.String()], [Query] is [r.URL.Query()], [RemoteHost] the host of
    [net.SplitHostPort(r.RemoteAddr)], [Dump] the text of
    [httputil.DumpRequest(r, true)] and [StoreBody] the result of decoding
    the body as a [storeReq] ([None] when decoding fails). *)
Record Request := mkRequest {
  Method : string;
  Host : string;
  Path : string;
  URLString : string;
  Query : Header;
  ReqHeader : Header;
  RemoteHost : string;
  Dump : string;
  StoreBody : option storeReq
}.

(** [storage.Storage], the operations the HTTP server calls; an error is
    its message. *)
Class Storage (S : Type) := {
  AddInteraction : string -> string -> S -> option string * S;
  AddInteractionWithId : string -> string -> S -> option string * S;
  GetInteractions :
    string -> string -> S -> (list string * string * option string) * S;
  GetInteractionsWithId : string -> S -> (list string * option string) * S
}.

(** ** time *)

Module time.

Definition Second : Z := 1000000000.
Definition Hour : Z := 3600 * Second.
Definition minDuration : Z := - 2 ^ 63.
Definition maxDuration : Z := 2 ^ 63 - 1.

(** [t.Sub(u)]: the difference, saturated to the range of [Duration]. *)
Definition Sub (t u : Z) : Z :=
  Z.max minDuration (Z.min maxDuration (t - u)).

(** [time.Duration(n) * time.Second] on 64-bit integers. *)
Definition Seconds (n : Z) : Z := wrap64 (n * Second).

End time.

(** ** server.go *)

Definition GetIdLength (options : Options) : Z :=
  wrap64 (CorrelationIdLength options + CorrelationIdNonceLength options).

(** ** http_server.go *)

Section Server.

Context {S : Type} `{!Storage S}.

(** Library functions whose results the server only passes on:
    [http.DetectContentType], the JSON encoder (the encoding of a value
    followed by a newline), [httputil.DumpResponse], and the matcher
    [options.isCorrelationID] of this package. *)
Variable DetectContentType : string -> string.
Variable jsonEncode : JSONValue -> string.
Variable DumpResponse : Response -> string.
Variable isCorrelationID : Options -> string -> bool.

(** What a handler can read and change: the response writer [W] it was
    given, the storage behind [options.Storage], the dynamic endpoints of
    the server, the [Http] counter of [options.Stats], and the clock. *)
Record State := mkState {
  W : ResponseRecorder;
  Store : S;
  dynamicEndpoints : gmap string dynamicEndpoint;
  StatsHttp : Z;
  Clock : Z
}.

Definition Handler (A : Type) : Type := State -> result A * State.

Definition ret {A} (a : A) : Handler A := fun st => (Ok a, st).

Definition bind {A B} (m : Handler A) (k : A -> Handler B) : Handler B :=
  fun st =>
    match m st with
    | (Ok a, st') => k a st'
    | (Panicked p, st') => (Panicked p, st')
    end.

Definition lift {A} (r : result A) : Handler A := fun st => (r, st).

Local Notation "x <- m ;; k" := (bind m (fun x => k))
  (at level 100, m at next level, right associativity).
Local Notation "m ;;; k" := (bind m (fun _ => k))
  (at level 100, right associativity).

Fixpoint forM {A} (l : list A) (f : A -> Handler unit) : Handler unit :=
  match l with
  | [] => ret tt
  | x :: l' => f x ;;; forM l' f
  end.

Definition when (b : bool) (m : Handler unit) : Handler unit :=
  if b then m else ret tt.

Definition set_W (rw : ResponseRecorder) (st : State) : State :=
  {| W := rw; Store := Store st; dynamicEndpoints := dynamicEndpoints st;
     StatsHttp := StatsHttp st; Clock := Clock st |}.

Definition set_Store (s : S) (st : State) : State :=
  {| W := W st; Store := s; dynamicEndpoints := dynamicEndpoints st;
     StatsHttp := StatsHttp st; Clock := Clock st |}.

Definition set_dynamicEndpoints (m : gmap string dynamicEndpoint)
  (st : State) : State :=
  {| W := W st; Store := Store st; dynamicEndpoints := m;
     StatsHttp := StatsHttp st; Clock := Clock st |}.

Definition set_StatsHttp (n : Z) (st : State) : State :=
  {| W := W st; Store := Store st; dynamicEndpoints := dynamicEndpoints st;
     StatsHttp := n; Clock := Clock st |}.

Definition set_Clock (t : Z) (st : State) : State :=
  {| W := W st; Store := Store st; dynamicEndpoints := dynamicEndpoints st;
     StatsHttp := StatsHttp st; Clock := t |}.

(** *** The response writer *)

(** [w.Header().Set(key, value)] *)
Definition w_Header_Set (key value : string) : Handler unit :=
  fun st =>
    (Ok tt, set_W (log_call (CallHeaderSet key value)
                     (set_header (fun h => Header_Set h key value) (W st))) st).

(** [w.Header().Add(key, value)] *)
Definition w_Header_Add (key value : string) : Handler unit :=
  fun st =>
    (Ok tt, set_W (log_call (CallHeaderAdd key value)
                     (set_header (fun h => Header_Add h key value) (W st))) st).

(** [w.WriteHeader(code)] *)
Definition w_WriteHeader (code : Z) : Handler unit :=
  fun st =>
    let rw := log_call (CallWriteHeader code) (W st) in
    match rw_WriteHeader code rw with
    | Ok rw' => (Ok tt, set_W rw' st)
    | Panicked p => (Panicked p, set_W rw st)
    end.

(** The recorder's [writeHeader(b, str)], run by the first [Write]: unless
    the handler chose a content type it is sniffed from the data, and the
    status 200 is written. *)
Definition rw_implicit_header (data : string) (rw : ResponseRecorder)
  : result ResponseRecorder :=
  if wroteHeader rw then Ok rw
  else
    let m := HeaderMap rw in
    let hasType := bool_decide (is_Some (m !! "Content-Type")) in
    let hasTE :=
      negb (String.eqb (Header_Get m "Transfer-Encoding") EmptyString) in
    let rw1 :=
      if negb hasType && negb hasTE
      then set_header
             (fun h => Header_Set h "Content-Type" (DetectContentType data)) rw
      else rw in
    rw_WriteHeader 200 rw1.

(** [w.Write(data)] *)
Definition w_Write (data : string) : Handler unit :=
  fun st =>
    let rw := log_call (CallWrite data) (W st) in
    match rw_implicit_header data rw with
    | Ok rw' => (Ok tt, set_W (append_body data rw') st)
    | Panicked p => (Panicked p, set_W rw st)
    end.

(** [time.Sleep(d)]: returns at once for [d <= 0]. *)
Definition Sleep (d : Z) : Handler unit :=
  fun st => (Ok tt, set_Clock (Clock st + Z.max 0 d) st).

(** [time.Now()] *)
Definition Now : Handler Z := fun st => (Ok (Clock st), st).

(** *** server.go: the token in a host name *)

(** The inner loop of [getURLIDComponent]: any matching window selects the
    part. *)
Definition scanPart (options : Options) (part : string)
  (chunks : list string) (randomID : string) : string :=
  fold_left
    (fun acc scanChunk =>
       if isCorrelationID options scanChunk then part else acc)
    chunks randomID.

Fixpoint scanParts (options : Options) (parts : list string)
  (randomID : string) : result string :=
  match parts with
  | [] => Ok randomID
  | part :: rest =>
      match SlideWithLength part (GetIdLength options) with
      | None => Panicked SliceBoundsOutOfRange
      | Some chunks =>
          scanParts options rest (scanPart options part chunks randomID)
      end
  end.

(** [getURLIDComponent]: the last two parts (the domain) are ignored. *)
Definition getURLIDComponent (options : Options) (URL : string)
  : result string :=
  let parts := Split URL "." in
  match slice_to parts (Z.of_nat (length parts) - 2) with
  | None => Panicked SliceBoundsOutOfRange
  | Some scanned => scanParts options scanned EmptyString
  end.

(** The loop of [URLReflection] on [[]rune]. *)
Definition reverse (s : string) : string :=
  utf8.of_runes (rev (utf8.runes s)).

Definition URLReflection (options : Options) (URL : string)
  : result string :=
  match getURLIDComponent options URL with
  | Ok randomID => Ok (reverse randomID)
  | Panicked p => Panicked p
  end.

(** *** JSON replies *)

Definition jsonBody (key value : string) (code : Z) : Handler unit :=
  w_Header_Set "Content-Type" "application/json; charset=utf-8" ;;;
  w_Header_Set "X-Content-Type-Options" "nosniff" ;;;
  w_WriteHeader code ;;;
  w_Write (jsonEncode (JSONMap key value)).

Definition jsonError (err : string) (code : Z) : Handler unit :=
  jsonBody "error" err code.

Definition jsonMsg (msg : string) (code : Z) : Handler unit :=
  jsonBody "message" msg code.

(** *** The dynamic response engine *)

(** [if headerParts := strings.SplitN(header, ":", 2); len(headerParts) == 2] *)
Definition addDynamicHeader (header : string) : Handler unit :=
  match SplitN2 header ":" with
  | [k; v] => w_Header_Add k v
  | _ => ret tt
  end.

(** The steps of [writeResponseFromDynamicRequest], one per [if] of the
    source. *)
Definition dynamicPathBody (req : Request) : Handler unit :=
  if HasPrefixI (Path req) "/b64_body:" then
    let firstindex := Index (Path req) "/b64_body:" in
    let lastIndex := LastIndex (Path req) "/" in
    segment <- lift (of_option (slice (Path req) (firstindex + 10) lastIndex)) ;;
    w_Write (fst (base64.DecodeString segment))
  else ret tt.

Definition dynamicHeaders (values : Header) : Handler unit :=
  forM (http.values values "header") addDynamicHeader.

Definition dynamicDelay (values : Header) : Handler unit :=
  let delay := Values_Get values "delay" in
  when (negb (String.eqb delay EmptyString))
    (Sleep (time.Seconds (fst (strconv.Atoi delay)))).

Definition dynamicStatus (values : Header) : Handler unit :=
  let status := Values_Get values "status" in
  when (negb (String.eqb status EmptyString))
    (w_WriteHeader (fst (strconv.Atoi status))).

Definition dynamicBody (values : Header) : Handler unit :=
  let body := Values_Get values "body" in
  when (negb (String.eqb body EmptyString)) (w_Write body).

Definition dynamicB64Body (values : Header) : Handler unit :=
  let b64_body := Values_Get values "b64_body" in
  when (negb (String.eqb b64_body EmptyString))
    (w_Write (fst (base64.DecodeString b64_body))).

Definition writeResponseFromDynamicRequest (req : Request) : Handler unit :=
  let values := Query req in
  dynamicPathBody req ;;;
  dynamicHeaders values ;;;
  dynamicDelay values ;;;
  dynamicStatus values ;;;
  dynamicBody values ;;;
  dynamicB64Body values.

(** *** Storage calls *)

Definition storage_AddInteraction (id blob : string)
  : Handler (option string) :=
  fun st =>
    let '(err, s) := AddInteraction id blob (Store st) in
    (Ok err, set_Store s st).

Definition storage_AddInteractionWithId (id blob : string)
  : Handler (option string) :=
  fun st =>
    let '(err, s) := AddInteractionWithId id blob (Store st) in
    (Ok err, set_Store s st).

Definition storage_GetInteractions (id secret : string)
  : Handler (list string * string * option string) :=
  fun st =>
    let '(r, s) := GetInteractions id secret (Store st) in
    (Ok r, set_Store s st).

Definition storage_GetInteractionsWithId (id : string)
  : Handler (list string * option string) :=
  fun st =>
    let '(r, s) := GetInteractionsWithId id (Store st) in
    (Ok r, set_Store s st).

(** *** The server *)

(** [HTTPServer]: [staticHandler] is the file server for [/s/], when a
    directory is configured. *)
Record HTTPServer := mkHTTPServer {
  options : Options;
  customBanner : string;
  staticHandler : option (Request -> Handler unit)
}.

Definition handleInteraction (h : HTTPServer)
  (uniqueID fullID reqString respString hostPort : string) : Handler unit :=
  correlationID <-
    lift (of_option (slice uniqueID 0 (CorrelationIdLength (options h)))) ;;
  now <- Now ;;
  let interaction :=
    {| Protocol := "http"; UniqueID := uniqueID; FullId := fullID;
       RawRequest := reqString; RawResponse := respString;
       RemoteAddress := hostPort; Timestamp := now |} in
  _ <- storage_AddInteraction correlationID
         (jsonEncode (JSONInteraction interaction)) ;;
  ret tt.

(** The windows of one chunk, normalised and matched. *)
Definition scanChunk (h : HTTPServer) (chunk : string) (fullID : string)
  (reqString respString host : string) : Handler unit :=
  parts <- lift (of_option (SlideWithLength chunk (GetIdLength (options h)))) ;;
  forM parts (fun part =>
    let normalizedPart := ToLower part in
    when (isCorrelationID (options h) normalizedPart)
      (handleInteraction h normalizedPart fullID reqString respString host)).

(** The root-TLD channel: one interaction per configured domain that is a
    suffix of the request host. *)
Definition storeRootTLD (h : HTTPServer) (r : Request)
  (reqString respString : string) : Handler unit :=
  when (RootTLD (options h))
    (forM (Domains (options h)) (fun domain =>
       when (RootTLD (options h) && HasSuffixI (Host r) domain)
         (now <- Now ;;
          let interaction :=
            {| Protocol := "http"; UniqueID := Host r; FullId := Host r;
               RawRequest := reqString; RawResponse := respString;
               RemoteAddress := RemoteHost r; Timestamp := now |} in
          _ <- storage_AddInteractionWithId domain
                 (jsonEncode (JSONInteraction interaction)) ;;
          ret tt))).

(** The two scanning modes of [logger]. *)
Definition scanEverywhere (h : HTTPServer) (reqString respString host : string)
  : Handler unit :=
  let chunks :=
    SplitAny reqString (newline +:+ tab +:+ dquote +:+ "'/") in
  forM chunks (fun chunk =>
    scanChunk h chunk chunk reqString respString host).

Definition scanURL (h : HTTPServer) (r : Request)
  (reqString respString host : string) : Handler unit :=
  let url := Host r +:+ URLString r in
  let parts := SplitAny url ("." +:+ newline +:+ tab +:+ "/") in
  forM (imap (fun i part => (i, part)) parts) (fun '(i, part) =>
    let fullID :=
      if Z.of_nat i + 1 <=? Z.of_nat (length parts)
      then Join (take (i + 1) parts) "."
      else part in
    scanChunk h part fullID reqString respString host).

(** [logger]: runs the wrapped handler on a fresh recorder, copies the
    recorded response to the real writer, then stores the interactions. *)
Definition logger (h : HTTPServer) (handler : Request -> Handler unit)
  (r : Request) : Handler unit :=
  fun st =>
    let reqString := Dump r in
    let w := W st in
    match handler r (set_W NewRecorder st) with
    | (Panicked p, st1) => (Panicked p, set_W w st1)
    | (Ok _, st1) =>
        let rec := W st1 in
        let respString := DumpResponse (Result rec) in
        let w1 := set_header (fun hm => HeaderMap rec ∪ hm) w in
        (w_WriteHeader (StatusCode (Result rec)) ;;;
         w_Write (Body rec) ;;;
         (let originIP := Header_Get (ReqHeader r) (OriginIPHeader (options h)) in
          let host :=
            if negb (String.eqb originIP EmptyString)
            then originIP else RemoteHost r in
          storeRootTLD h r reqString respString ;;;
          if ScanEverywhere (options h)
          then scanEverywhere h reqString respString host
          else scanURL h r reqString respString host))
          (set_W w1 st1)
    end.

Definition banner_head : string :=
  "<h1> Interactsh Server </h1>" +:+ newline +:+ newline +:+
  "<a href='https://github.com/projectdiscovery/interactsh'><b>Interactsh</b></a> is an open-source tool for detecting out-of-band interactions. It is a tool designed to detect vulnerabilities that cause external interactions.<br><br>"
  +:+ newline +:+ newline +:+
  "If you notice any interactions from <b>*.".

Definition banner_tail : string :=
  "</b> in your logs, it's possible that someone (internal security engineers, pen-testers, bug-bounty hunters) has been testing your application.<br><br>"
  +:+ newline +:+ newline +:+
  "You should investigate the sites where these interactions were generated from, and if a vulnerability exists, examine the root cause and take the necessary steps to mitigate the issue."
  +:+ newline.

(** [fmt.Sprintf(banner, domain)] *)
Definition banner (domain : string) : string :=
  banner_head +:+ domain +:+ banner_tail.

Definition extractServerDomain (h : HTTPServer) (req : Request) : string :=
  if negb (String.eqb (HeaderServer (options h)) EmptyString)
  then HeaderServer (options h)
  else
    match Domains (options h) with
    | [] => EmptyString
    | first :: _ =>
        match List.find (fun configuredDomain =>
                           HasSuffixI (Host req) configuredDomain)
                        (Domains (options h)) with
        | Some domain =>
            if String.eqb domain EmptyString then first else domain
        | None => first
        end
    end.

(** The [status], [delay] and [header] parameters applied before a static
    file is served; here a value that does not parse is skipped. *)
Definition applyDynamicToStatic (req : Request) : Handler unit :=
  let values := Query req in
  forM (http.values values "header") addDynamicHeader ;;;
  (let delay := Values_Get values "delay" in
   when (negb (String.eqb delay EmptyString))
     (match strconv.Atoi delay with
      | (parsed, None) => Sleep (time.Seconds parsed)
      | _ => ret tt
      end)) ;;;
  (let status := Values_Get values "status" in
   when (negb (String.eqb status EmptyString))
     (match strconv.Atoi status with
      | (parsed, None) => w_WriteHeader parsed
      | _ => ret tt
      end)).

(** The branches of [defaultHandler] after the static files, in the order
    of the source. *)
Definition defaultResponse (h : HTTPServer) (req : Request)
  (domain reflection : string) : Handler unit :=
  if String.eqb (Path req) "/" && String.eqb reflection EmptyString then
    if negb (String.eqb (customBanner h) EmptyString)
    then w_Write (ReplaceAll (customBanner h) "{DOMAIN}" domain)
    else w_Write (banner domain)
  else if EqualFold (Path req) "/robots.txt" then
    w_Write ("User-agent: *" +:+ newline +:+ "Disallow: / # " +:+ reflection)
  else if HasSuffixI (Path req) ".json" then
    w_Write ("{" +:+ dquote +:+ "data" +:+ dquote +:+ ":" +:+ dquote
             +:+ reflection +:+ dquote +:+ "}") ;;;
    w_Header_Set "Content-Type" "application/json"
  else if HasSuffixI (Path req) ".xml" then
    w_Write ("<data>" +:+ reflection +:+ "</data>") ;;;
    w_Header_Set "Content-Type" "application/xml"
  else if DynamicResp (options h)
          && (nonempty (Query req) || HasPrefixI (Path req) "/b64_body:")
  then writeResponseFromDynamicRequest req
  else w_Write ("<html><head></head><body>" +:+ reflection +:+ "</body></html>").

(** [stringsutil.HasPrefixI(req.URL.Path, "/s/") && h.staticHandler != nil] *)
Definition staticBranch (h : HTTPServer) (req : Request)
  : option (Request -> Handler unit) :=
  if HasPrefixI (Path req) "/s/" then staticHandler h else None.

(** [defaultHandler], the handler of the data plane. *)
Definition defaultHandler (h : HTTPServer) (req : Request) : Handler unit :=
  (fun st => (Ok tt, set_StatsHttp ((StatsHttp st + 1) mod 2 ^ 64) st)) ;;;
  let domain := extractServerDomain h req in
  w_Header_Set "Server" domain ;;;
  when (negb (NoVersionHeader (options h)))
    (w_Header_Set "X-Interactsh-Version" (Version (options h))) ;;;
  reflection <- lift (URLReflection (options h) (Host req)) ;;
  match staticBranch h req with
  | Some static =>
      when (DynamicResp (options h) && nonempty (Query req))
        (applyDynamicToStatic req) ;;;
      static req
  | None => defaultResponse h req domain reflection
  end.

(** *** The control plane *)

(** The loop of [pollHandler] over the configured domains. *)
Fixpoint drainDomains (domains : list string) (tlddata : list string)
  : Handler (list string) :=
  match domains with
  | [] => ret tlddata
  | domain :: rest =>
      r <- storage_GetInteractionsWithId domain ;;
      drainDomains rest (tlddata ++ fst r)
  end.

Definition pollHandler (h : HTTPServer) (req : Request) : Handler unit :=
  let ID := Values_Get (Query req) "id" in
  if String.eqb ID EmptyString
  then jsonError "no id specified for poll" StatusBadRequest
  else
    let secret := Values_Get (Query req) "secret" in
    if String.eqb secret EmptyString
    then jsonError "no secret specified for poll" StatusBadRequest
    else
      r <- storage_GetInteractions ID secret ;;
      let '(data, aesKey, err) := r in
      match err with
      | Some e =>
          jsonError ("could not get interactions: " +:+ e) StatusBadRequest
      | None =>
          tlddata <-
            (if RootTLD (options h)
             then drainDomains (Domains (options h)) []
             else ret []) ;;
          extradata <-
            (if negb (String.eqb (Token (options h)) EmptyString)
             then r' <- storage_GetInteractionsWithId (Token (options h)) ;;
                  ret (fst r')
             else ret []) ;;
          w_Write (jsonEncode (JSONPollResponse
                     {| Data := data; Extra := extradata; AESKey := aesKey;
                        TLDData := tlddata |}))
      end.

Definition corsHeaders (h : HTTPServer) : Handler unit :=
  w_Header_Set "Access-Control-Allow-Origin" (OriginURL (options h)) ;;;
  w_Header_Set "Access-Control-Allow-Credentials" "true" ;;;
  w_Header_Set "Access-Control-Allow-Headers" "Content-Type, Authorization".

Definition corsMiddleware (h : HTTPServer) (next : Request -> Handler unit)
  (req : Request) : Handler unit :=
  if String.eqb (Method req) MethodOptions
  then corsHeaders h ;;; w_WriteHeader StatusNoContent
  else corsHeaders h ;;; next req.

Definition checkToken (h : HTTPServer) (req : Request) : bool :=
  negb (Auth (options h))
  || (Auth (options h)
      && String.eqb (Token (options h))
                    (Header_Get (ReqHeader req) "Authorization")).

Definition authMiddleware (h : HTTPServer) (next : Request -> Handler unit)
  (req : Request) : Handler unit :=
  if negb (checkToken h req)
  then w_WriteHeader StatusUnauthorized
  else next req.

(** *** The dynamic endpoint registry *)

Definition storeHandler (h : HTTPServer) (req : Request) : Handler unit :=
  if negb (String.eqb (Method req) MethodPost)
  then jsonError "method not allowed" StatusMethodNotAllowed
  else
    match StoreBody req with
    | None => jsonError "invalid request" StatusBadRequest
    | Some sreq =>
        if String.eqb (SubURL sreq) EmptyString
        then jsonError "invalid request" StatusBadRequest
        else
          fun st =>
            let now := Clock st in
            let tooSoon :=
              match dynamicEndpoints st !! SubURL sreq with
              | Some de => time.Sub now (LastUpdated de) <? 24 * time.Hour
              | None => false
              end in
            if tooSoon
            then jsonError "suburl can only be updated every 24 hours"
                   StatusTooManyRequests st
            else
              jsonMsg "endpoint registered" StatusOK
                (set_dynamicEndpoints
                   (<[SubURL sreq :=
                        {| EndpointBody := SReqBody sreq;
                           ContentType := SReqContentType sreq;
                           LastUpdated := now |}]> (dynamicEndpoints st))
                   st)
    end.

Definition apidocsHandler (h : HTTPServer) (req : Request) : Handler unit :=
  let path := TrimPrefix (Path req) "/apidocs/" in
  if String.eqb path EmptyString
  then jsonError "no suburl provided" StatusNotFound
  else
    fun st =>
      match dynamicEndpoints st !! path with
      | None => jsonError "not found" StatusNotFound st
      | Some de =>
          (when (negb (String.eqb (ContentType de) EmptyString))
             (w_Header_Set "Content-Type" (ContentType de)) ;;;
           w_WriteHeader StatusOK ;;;
           w_Write (EndpointBody de)) st
      end.

(** The routes of [NewHTTPServer] that the properties below are about. *)
Definition route_storerequest (h : HTTPServer) : Request -> Handler unit :=
  corsMiddleware h (authMiddleware h (storeHandler h)).

Definition route_apidocs (h : HTTPServer) : Request -> Handler unit :=
  corsMiddleware h (apidocsHandler h).

Definition route_default (h : HTTPServer) : Request -> Handler unit :=
  logger h (corsMiddleware h (defaultHandler h)).

Definition route_poll (h : HTTPServer) : Request -> Handler unit :=
  corsMiddleware h (authMiddleware h (pollHandler h)).

(** Serving one request: the handler gets a fresh response writer; the
    reply is what that writer recorded. *)
Definition serve (handler : Handler unit) (st : State) : result unit * State :=
  handler (set_W NewRecorder st).

Definition reply (handler : Handler unit) (st : State) : Response :=
  Result (W (snd (serve handler st))).

End Server.

Arguments State S : clear implicits.
Arguments Handler S A : clear implicits.
Arguments HTTPServer S : clear implicits.

(** ** Parts of the repository outside the files above *)

Definition is_lower_alnum (c : ascii) : bool :=
  let n := byte_val c in
  ((48 <=? n) && (n <=? 57)) || ((97 <=? n) && (n <=? 122)).

(** Modelled from the spec: [isCorrelationID] (section 4.1) is true when
    the string has exact length [L_ID + L_N], consists of lowercase
    alphanumerics and was produced by the allocator; [allocated] stands for
    the allocator's answer. *)
Definition isCorrelationID_spec (allocated : string -> bool)
  (options : Options) (s : string) : bool :=
  (len s =? GetIdLength options) && forallb_string is_lower_alnum s
  && allocated s.

(** [settings.CorrelationIdLengthDefault] and
    [settings.CorrelationIdNonceLengthDefault], as the spec lists them. *)
Definition CorrelationIdLengthDefault : Z := 20.
Definition CorrelationIdNonceLengthDefault : Z := 13.

(** Modelled from the spec: the storage contract of section 4.2, as an
    in-memory mapping with a bounded ring buffer per client.  [encrypt key
    blob] stands for the encryption of a blob under a client's AES key. *)
Record ClientRecord := mkClientRecord {
  secret_key : string;
  aes_key : string;
  wrapped_aes : string;
  pending : list string
}.

Record MemStore := mkMemStore {
  clients : gmap string ClientRecord;
  channels : gmap string (list string);
  capacity : nat
}.

Definition ring_push (cap : nat) (l : list string) (x : string)
  : list string :=
  let l' := l ++ [x] in drop (length l' - cap) l'.

Definition set_pending (c : ClientRecord) (l : list string) : ClientRecord :=
  {| secret_key := secret_key c; aes_key := aes_key c;
     wrapped_aes := wrapped_aes c; pending := l |}.

Definition set_clients (m : gmap string ClientRecord) (s : MemStore)
  : MemStore :=
  {| clients := m; channels := channels s; capacity := capacity s |}.

Definition set_channels (m : gmap string (list string)) (s : MemStore)
  : MemStore :=
  {| clients := clients s; channels := m; capacity := capacity s |}.

Definition mem_AddInteraction (encrypt : string -> string -> string)
  (id blob : string) (s : MemStore) : option string * MemStore :=
  match clients s !! id with
  | Some c =>
      (None,
       set_clients
         (<[id := set_pending c
                    (ring_push (capacity s) (pending c)
                       (encrypt (aes_key c) blob))]> (clients s)) s)
  | None => (None, s)
  end.

Definition mem_AddInteractionWithId (id blob : string) (s : MemStore)
  : option string * MemStore :=
  (None,
   set_channels
     (<[id := ring_push (capacity s) (default [] (channels s !! id)) blob]>
        (channels s)) s).

Definition mem_GetInteractions (id secret : string) (s : MemStore)
  : (list string * string * option string) * MemStore :=
  match clients s !! id with
  | None => (([], EmptyString, Some "not_found"), s)
  | Some c =>
      if String.eqb secret (secret_key c)
      then ((pending c, wrapped_aes c, None),
            set_clients (<[id := set_pending c []]> (clients s)) s)
      else (([], EmptyString, Some "wrong_secret"), s)
  end.

Definition mem_GetInteractionsWithId (id : string) (s : MemStore)
  : (list string * option string) * MemStore :=
  ((default [] (channels s !! id), None),
   set_channels (delete id (channels s)) s).

Definition MemStorage (encrypt : string -> string -> string)
  : Storage MemStore :=
  {| AddInteraction := mem_AddInteraction encrypt;
     AddInteractionWithId := mem_AddInteractionWithId;
     GetInteractions := mem_GetInteractions;
     GetInteractionsWithId := mem_GetInteractionsWithId |}.

(** ** Concrete stand-ins for the library functions, used to run the
       handlers on examples *)

(** Every body is sniffed as plain text. *)
Definition sniffPlain (_ : string) : string := "text/plain; charset=utf-8".

Definition quoted (s : string) : string := dquote +:+ s +:+ dquote.

Definition showList (l : list string) : string :=
  "[" +:+ String.concat "," (quoted <$> l) +:+ "]".

(** A JSON rendering without escaping, one value per line. *)
Definition showJSON (v : JSONValue) : string :=
  match v with
  | JSONMap key value =>
      "{" +:+ quoted key +:+ ":" +:+ quoted value +:+ "}" +:+ newline
  | JSONInteraction i =>
      "{" +:+ quoted "protocol" +:+ ":" +:+ quoted (Protocol i)
      +:+ "," +:+ quoted "unique-id" +:+ ":" +:+ quoted (UniqueID i)
      +:+ "," +:+ quoted "full-id" +:+ ":" +:+ quoted (FullId i)
      +:+ "," +:+ quoted "remote-address" +:+ ":" +:+ quoted (RemoteAddress i)
      +:+ "}" +:+ newline
  | JSONPollResponse r =>
      "{" +:+ quoted "data" +:+ ":" +:+ showList (Data r)
      +:+ "," +:+ quoted "extra" +:+ ":" +:+ showList (Extra r)
      +:+ "," +:+ quoted "aes_key" +:+ ":" +:+ quoted (AESKey r)
      +:+ (match TLDData r with
           | [] => EmptyString
           | l => "," +:+ quoted "tlddata" +:+ ":" +:+ showList l
           end)
      +:+ "}" +:+ newline
  end.

Definition showResponse (r : Response) : string := RespBody r.

Definition initialState {S : Type} (store : S) (clock : Z) : State S :=
  {| W := NewRecorder; Store := store; dynamicEndpoints := ∅;
     StatsHttp := 0; Clock := clock |}.

(** A [GET] request for [host] and [path] with the parsed query [query]. *)
Definition GET (host path : string) (query : Header) : Request :=
  {| Method := "GET"; Host := host; Path := path; URLString := path;
     Query := query; ReqHeader := ∅; RemoteHost := "192.0.2.1";
     Dump := "GET " +:+ path +:+ " HTTP/1.1" +:+ newline
             +:+ "Host: " +:+ host +:+ newline;
     StoreBody := None |}.

(** A [POST /storerequest] whose body decodes to [body]. *)
Definition POST_store (body : option storeReq) : Request :=
  {| Method := "POST"; Host := "oast.example.com"; Path := "/storerequest";
     URLString := "/storerequest"; Query := ∅; ReqHeader := ∅;
     RemoteHost := "192.0.2.1"; Dump := "POST /storerequest HTTP/1.1";
     StoreBody := body |}.

Definition defaultOptions : Options :=
  {| Domains := ["interactsh.com"]; Auth := false; Token := EmptyString;
     RootTLD := false; OriginURL := "*"; ScanEverywhere := false;
     CorrelationIdLength := CorrelationIdLengthDefault;
     CorrelationIdNonceLength := CorrelationIdNonceLengthDefault;
     OriginIPHeader := EmptyString; Version := "1.0.0";
     DynamicResp := true; NoVersionHeader := false;
     HeaderServer := EmptyString |}.

Definition emptyStore : MemStore :=
  {| clients := ∅; channels := ∅; capacity := 5000 |}.

(** The stand-in for AES: the blob tagged with the key. *)
Definition tagWithKey (key blob : string) : string := key +:+ ":" +:+ blob.

Definition testServer : HTTPServer MemStore :=
  {| options := defaultOptions; customBanner := EmptyString;
     staticHandler := None |}.

(** The matcher of the spec with every well-formed token allocated. *)
Definition anyAllocated : Options -> string -> bool :=
  isCorrelationID_spec (fun _ => true).

(** One window of a part matches. *)
Definition partMatches (isCorrelationID : Options -> string -> bool)
  (options : Options) (part : string) : bool :=
  match SlideWithLength part (GetIdLength options) with
  | Some chunks => existsb (isCorrelationID options) chunks
  | None => false
  end.

Definition is_ascii (s : string) : bool :=
  forallb_string (fun c => byte_val c <? 128) s.

(** The host of [TestGetURLIDComponent]. *)
Definition testURL : string :=
  "c6rj61aciaeutn2ae680cg5.ugboyyyyyn.interactsh.com".

(** A well-formed token (20 + 13 characters) and the matcher of the spec
    with exactly this token allocated. *)
Definition testToken : string := "c6rj61aciaeutn2ae680cg5ugboyyyyyn".

Definition onlyTestToken : Options -> string -> bool :=
  isCorrelationID_spec (fun s => String.eqb s testToken).

(** A host whose first label is the token, and one whose first label holds
    the token after one more character. *)
Definition tokenHost : string := testToken +:+ ".interactsh.com".
Definition paddedHost : string := "x" +:+ testToken +:+ ".interactsh.com".

(** The entry a successful store writes. *)
Definition storedEndpoint (sreq : storeReq) (now : Z) : dynamicEndpoint :=
  {| EndpointBody := SReqBody sreq; ContentType := SReqContentType sreq;
     LastUpdated := now |}.


(** The request of [TestApidocsDynamicEndpoint], and a state one hour
    after it was stored. *)
Definition helloFoo : storeReq :=
  {| SReqBody := "hello"; SReqContentType := "text/plain"; SubURL := "foo" |}.

Definition stateWithFoo : State MemStore :=
  {| W := NewRecorder; Store := emptyStore;
     dynamicEndpoints := {[ "foo" := storedEndpoint helloFoo 0 ]};
     StatsHttp := 0; Clock := time.Hour |}.

(** ** Vocabulary for the properties of the dynamic response engine *)

(** A well-formed [header] parameter, split at its first colon. *)
Definition headerPair (header : string) : option (string * string) :=
  match SplitN2 header ":" with
  | [k; v] => Some (k, v)
  | _ => None
  end.

Definition headerCalls (headers : list string) : list Call :=
  (fun kv => CallHeaderAdd (fst kv) (snd kv)) <$> omap headerPair headers.

Definition addHeaderMap (headers : list string) (hm : Header) : Header :=
  fold_left (fun hm kv => Header_Add hm (fst kv) (snd kv))
    (omap headerPair headers) hm.

(** The order the spec asks for: headers (0), then the status (1), then the
    body (2). *)
Definition rank (c : Call) : nat :=
  match c with
  | CallHeaderSet _ _ | CallHeaderAdd _ _ => 0
  | CallWriteHeader _ => 1
  | CallWrite _ => 2
  end.

Fixpoint nondecreasing (l : list nat) : bool :=
  match l with
  | a :: (b :: _) as t => (a <=? b)%nat && nondecreasing t
  | _ => true
  end.

Definition headers_status_body (cs : list Call) : bool :=
  nondecreasing (rank <$> cs).

(** The [status] parameter is absent or a three-digit code. *)
Definition statusAccepted (q : Header) : bool :=
  String.eqb (Values_Get q "status") EmptyString
  || checkWriteHeaderCode (fst (strconv.Atoi (Values_Get q "status"))).

(** The header loop on a recorder: the well-formed entries are added in
    order, nothing else changes. *)
Definition afterHeaders (headers : list string) (rw : ResponseRecorder)
  : ResponseRecorder :=
  {| Code := Code rw; HeaderMap := addHeaderMap headers (HeaderMap rw);
     Body := Body rw; wroteHeader := wroteHeader rw;
     snapHeader := snapHeader rw;
     calls := calls rw ++ headerCalls headers |}.

Definition isHeaderCall (c : Call) : bool :=
  match c with
  | CallHeaderSet _ _ | CallHeaderAdd _ _ => true
  | _ => false
  end.

(** The requests of [TestWriteResponseFromDynamicRequest]. *)
Definition dynamicGET (query : Header) : Request :=
  GET "example.com" "/" query.

(** A handler only appends to the log of calls of its writer. *)
Definition extends_calls {S A : Type} (h : Handler S A) : Prop :=
  forall st, calls (W st) `prefix_of` calls (W (snd (h st))).

(** A request with the path prefix of the engine and the [status] and
    [header] parameters. *)
Definition prefixedGET : Request :=
  GET "example.com" "/b64_body:aGk=/"
    {[ "status" := ["404"]; "header" := ["K:V"] ]}.

(** ** Vocabulary for the properties of polling and scanning *)

(** The loop of [pollHandler] over the domains, on the storage alone. *)
Fixpoint drainStore {S : Type} `{!Storage S} (domains : list string)
  (tlddata : list string) (s : S) : list string * S :=
  match domains with
  | [] => (tlddata, s)
  | domain :: rest =>
      let '((interactions, _), s') := GetInteractionsWithId domain s in
      drainStore rest (tlddata ++ interactions) s'
  end.

(** The parts of the URL that url-only scanning looks at. *)
Definition urlParts (r : Request) : list string :=
  SplitAny (Host r +:+ URLString r) ("." +:+ newline +:+ tab +:+ "/").

(** The windows of a part, normalised, that the matcher accepts. *)
Definition partTokens (isCorrelationID : Options -> string -> bool)
  (options : Options) (part : string) : list string :=
  List.filter (isCorrelationID options)
    (ToLower <$> default [] (SlideWithLength part (GetIdLength options))).

(** The matches of url-only scanning in the order of the scan: the
    normalised token and the join of the parts up to its part. *)
Definition urlHits (isCorrelationID : Options -> string -> bool)
  (options : Options) (parts : list string) : list (string * string) :=
  mjoin (imap (fun i part =>
                 (fun token => (token, Join (take (i + 1) parts) "."))
                 <$> partTokens isCorrelationID options part)
              parts).

(** What [handleInteraction] hands to the storage for one match. *)
Definition httpInteraction (uniqueID fullID reqString respString host : string)
  (now : Z) : Interaction :=
  {| Protocol := "http"; UniqueID := uniqueID; FullId := fullID;
     RawRequest := reqString; RawResponse := respString;
     RemoteAddress := host; Timestamp := now |}.

(** The storage after the matches were appended, each under the first
    [CorrelationIdLength] characters of its token. *)
Definition storeHits {S : Type} `{!Storage S}
  (jsonEncode : JSONValue -> string) (options : Options)
  (reqString respString host : string) (now : Z)
  (hits : list (string * string)) (s : S) : S :=
  fold_left
    (fun s hit =>
       snd (AddInteraction
              (String.substring 0 (Z.to_nat (CorrelationIdLength options))
                 (fst hit))
              (jsonEncode (JSONInteraction
                 (httpInteraction (fst hit) (snd hit) reqString respString
                    host now)))
              s))
    hits s.

(** A configuration whose lengths are non-negative and fit an [int], and a
    matcher that accepts only strings of the token length. *)
Definition sane (isCorrelationID : Options -> string -> bool)
  (options : Options) : Prop :=
  0 <= CorrelationIdLength options
  /\ 0 <= CorrelationIdNonceLength options
  /\ CorrelationIdLength options + CorrelationIdNonceLength options < 2 ^ 63
  /\ forall s, isCorrelationID options s = true -> len s = GetIdLength options.

(** A store in which the client of [testToken] is registered. *)
Definition testClient : ClientRecord :=
  {| secret_key := "s3cret"; aes_key := "k"; wrapped_aes := "wrapped-k";
     pending := [] |}.

Definition registeredStore : MemStore :=
  {| clients := {[ "c6rj61aciaeutn2ae680" := testClient ]};
     channels := ∅; capacity := 5000 |}.

(** ** Vocabulary for the properties of the default handler *)

Fixpoint last_byte (s : string) : option ascii :=
  match s with
  | EmptyString => None
  | String c t =>
      match last_byte t with
      | Some d => Some d
      | None => Some c
      end
  end.

(** A step that returns and changes nothing but the storage. *)
Definition stores_only {S : Type} (m : Handler S unit) : Prop :=
  forall st, exists s', m st = (Ok tt, set_Store s' st).

(** The bodies of the [.json] and [.xml] replies. *)
Definition jsonReflection (reflection : string) : string :=
  "{" +:+ dquote +:+ "data" +:+ dquote +:+ ":" +:+ dquote
  +:+ reflection +:+ dquote +:+ "}".

Definition xmlReflection (reflection : string) : string :=
  "<data>" +:+ reflection +:+ "</data>".

(** ** Vocabulary for the properties of the middlewares *)

(** The headers of [corsMiddleware], set on the header map [hm]. *)
Definition corsHeaderMap (options : Options) (hm : Header) : Header :=
  Header_Set
    (Header_Set
       (Header_Set hm "Access-Control-Allow-Origin" (OriginURL options))
       "Access-Control-Allow-Credentials" "true")
    "Access-Control-Allow-Headers" "Content-Type, Authorization".

(** A preflight request, and a server that asks for the token ["t0ken"]. *)
Definition OPTIONS (host path : string) : Request :=
  {| Method := "OPTIONS"; Host := host; Path := path; URLString := path;
     Query := ∅; ReqHeader := ∅; RemoteHost := "192.0.2.1";
     Dump := "OPTIONS " +:+ path +:+ " HTTP/1.1" +:+ newline
             +:+ "Host: " +:+ host +:+ newline;
     StoreBody := None |}.

Definition authOptions : Options :=
  {| Domains := ["interactsh.com"]; Auth := true; Token := "t0ken";
     RootTLD := false; OriginURL := "https://app.interactsh.com";
     ScanEverywhere := false;
     CorrelationIdLength := CorrelationIdLengthDefault;
     CorrelationIdNonceLength := CorrelationIdNonceLengthDefault;
     OriginIPHeader := EmptyString; Version := "1.0.0";
     DynamicResp := true; NoVersionHeader := false;
     HeaderServer := EmptyString |}.

Definition authServer : HTTPServer MemStore :=
  {| options := authOptions; customBanner := EmptyString;
     staticHandler := None |}.

(** The request [r] with the header [Authorization: token]. *)
Definition withAuthorization (token : string) (r : Request) : Request :=
  {| Method := Method r; Host := Host r; Path := Path r;
     URLString := URLString r; Query := Query r;
     ReqHeader := Header_Set (ReqHeader r) "Authorization" token;
     RemoteHost := RemoteHost r; Dump := Dump r; StoreBody := StoreBody r |}.

(** ** Fixtures for the dynamic response engine *)

(** A request whose path carries a body and whose query has the [status],
    [body] and [header] parameters. *)
Definition prefixedQuery : Request :=
  GET "example.com" "/b64_body:aGk=/"
    {[ "status" := ["404"]; "body" := ["X"]; "header" := ["K:V"] ]}.

(** A request whose path carries a body and whose query asks for a status
    that is no status code. *)
Definition prefixedBadStatus : Request :=
  GET "example.com" "/b64_body:aGk=/"
    {[ "status" := ["7"]; "header" := ["K:V"]; "body" := ["!"] ]}.

(** ** Vocabulary for the replies of the default handler *)

(** The request host and the configured domains are ASCII text.  On such
    text [ToLower], and with it [HasSuffixI] of the host and a domain, is
    what Go computes. *)
Definition asciiNames (options : Options) (r : Request) : Prop :=
  is_ascii (Host r) = true
  /\ Forall (fun domain => is_ascii domain = true) (Domains options).

(** The headers that [corsMiddleware] and [defaultHandler] set before the
    body is chosen. *)
Definition defaultHeaderMap {S : Type} (h : HTTPServer S) (req : Request)
  : Header :=
  let hm := Header_Set (corsHeaderMap (options h) ∅) "Server"
              (extractServerDomain h req) in
  if NoVersionHeader (options h) then hm
  else Header_Set hm "X-Interactsh-Version" (Version (options h)).

(** A reply of the default route made of one write of [body]: the status
    200, the body, the [Server] and version headers, the content type
    sniffed from the body, and one more request counted. *)
Definition servedPage {S : Type} (DetectContentType : string -> string)
  (h : HTTPServer S) (req : Request) (st : State S)
  (out : result unit * State S) (body : string) : Prop :=
  let r := Result (W (snd out)) in
  fst out = Ok tt
  /\ StatusCode r = 200
  /\ RespBody r = body
  /\ RespHeader r
     = Header_Set (defaultHeaderMap h req) "Content-Type"
         (DetectContentType body)
  /\ Header_Get (RespHeader r) "Server" = extractServerDomain h req
  /\ Header_Get (RespHeader r) "X-Interactsh-Version"
     = (if NoVersionHeader (options h) then EmptyString
        else Version (options h))
  /\ Header_Get (RespHeader r) "Content-Type" = DetectContentType body
  /\ StatsHttp (snd out) = (StatsHttp st + 1) mod 2 ^ 64.

(** The default handler takes the last branch: the path and the query
    select neither a special page nor the dynamic response engine. *)
Definition plainRequest {S : Type} (h : HTTPServer S) (req : Request)
  (reflection : string) : Prop :=
  (Path req <> "/" \/ reflection <> EmptyString)
  /\ EqualFold (Path req) "/robots.txt" = false
  /\ HasSuffixI (Path req) ".json" = false
  /\ HasSuffixI (Path req) ".xml" = false
  /\ (DynamicResp (options h) = false
      \/ (Query req = ∅ /\ HasPrefixI (Path req) "/b64_body:" = false)).

(** A server with two domains, and one that names itself in [Server]. *)
Definition twoDomains : Options :=
  {| Domains := ["oast.pro"; "interactsh.com"]; Auth := false;
     Token := EmptyString; RootTLD := false; OriginURL := "*";
     ScanEverywhere := false;
     CorrelationIdLength := CorrelationIdLengthDefault;
     CorrelationIdNonceLength := CorrelationIdNonceLengthDefault;
     OriginIPHeader := EmptyString; Version := "1.0.0";
     DynamicResp := true; NoVersionHeader := false;
     HeaderServer := EmptyString |}.

Definition twoDomainServer : HTTPServer MemStore :=
  {| options := twoDomains; customBanner := EmptyString;
     staticHandler := None |}.

(** ** Vocabulary for what [logger] stores *)

(** The configured domains that are a suffix of the request host. *)
Definition matchingDomains (options : Options) (r : Request) : list string :=
  List.filter (fun domain => HasSuffixI (Host r) domain) (Domains options).

(** The storage after the root-TLD interaction of the request was appended
    under each of [domains]: the unique id and the full id are the request
    host, and the remote address is the host of [r.RemoteAddr]. *)
Definition storeRoot {S : Type} `{!Storage S}
  (jsonEncode : JSONValue -> string) (r : Request)
  (reqString respString : string) (now : Z) (domains : list string) (s : S)
  : S :=
  fold_left
    (fun s domain =>
       snd (AddInteractionWithId domain
              (jsonEncode (JSONInteraction
                 (httpInteraction (Host r) (Host r) reqString respString
                    (RemoteHost r) now)))
              s))
    domains s.

(** The matches of scanning everywhere, in the order of the scan: the
    normalised token and the chunk of the request dump that holds it. *)
Definition everywhereHits (isCorrelationID : Options -> string -> bool)
  (options : Options) (reqString : string) : list (string * string) :=
  mjoin ((fun chunk =>
            (fun token => (token, chunk))
            <$> partTokens isCorrelationID options chunk)
         <$> SplitAny reqString (newline +:+ tab +:+ dquote +:+ "'/")).

(** The remote address [logger] hands to [handleInteraction]: the value of
    the header named by [OriginIPHeader] when it is not empty, else the host
    of [r.RemoteAddr]. *)
Definition clientHost (options : Options) (r : Request) : string :=
  let originIP := Header_Get (ReqHeader r) (OriginIPHeader options) in
  if negb (String.eqb originIP EmptyString) then originIP else RemoteHost r.

(** The storage after [logger] recorded the request [r] that was answered
    with the dump [respString]. *)
Definition loggedStore {S : Type} `{!Storage S}
  (jsonEncode : JSONValue -> string)
  (isCorrelationID : Options -> string -> bool) (options : Options)
  (r : Request) (respString : string) (now : Z) (s : S) : S :=
  let s1 :=
    if RootTLD options
    then storeRoot jsonEncode r (Dump r) respString now
           (matchingDomains options r) s
    else s in
  storeHits jsonEncode options (Dump r) respString (clientHost options r) now
    (if ScanEverywhere options
     then everywhereHits isCorrelationID options (Dump r)
     else urlHits isCorrelationID options (urlParts r))
    s1.

(** A server behind a reverse proxy that records root-TLD interactions and
    scans the whole request, and a request that came through the proxy. *)
Definition proxiedOptions : Options :=
  {| Domains := ["interactsh.com"]; Auth := false; Token := EmptyString;
     RootTLD := true; OriginURL := "*"; ScanEverywhere := true;
     CorrelationIdLength := CorrelationIdLengthDefault;
     CorrelationIdNonceLength := CorrelationIdNonceLengthDefault;
     OriginIPHeader := "X-Real-Ip"; Version := "1.0.0";
     DynamicResp := true; NoVersionHeader := false;
     HeaderServer := EmptyString |}.

Definition proxiedServer : HTTPServer MemStore :=
  {| options := proxiedOptions; customBanner := EmptyString;
     staticHandler := None |}.

Definition proxiedGET : Request :=
  {| Method := "GET"; Host := "www.interactsh.com";
     Path := "/c6rj61aciaeutn2ae680cg5ugboyyyyyn"; 
     URLString := "/c6rj61aciaeutn2ae680cg5ugboyyyyyn"; Query := ∅;
     ReqHeader := {[ "X-Real-Ip" := ["198.51.100.7"] ]};
     RemoteHost := "10.0.0.1";
     Dump := "GET /c6rj61aciaeutn2ae680cg5ugboyyyyyn HTTP/1.1" +:+ newline
             +:+ "Host: www.interactsh.com" +:+ newline
             +:+ "X-Real-Ip: 198.51.100.7" +:+ newline;
     StoreBody := None |}.

(** ** The registration handlers of [http_server.go] *)

(** [RegisterRequest] and [DeregisterRequest], the decoded JSON bodies. *)
Record RegisterRequest := mkRegisterRequest {
  PublicKey : string;
  SecretKey : string;
  CorrelationID : string
}.

Record DeregisterRequest := mkDeregisterRequest {
  DeregisterCorrelationID : string;
  DeregisterSecretKey : string
}.

(** [storage.Storage], the operations of registration; an error is its
    message. *)
Class SessionStorage (S : Type) := {
  SetIDPublicKey : string -> string -> string -> S -> option string * S;
  RemoveID : string -> string -> S -> option string * S
}.

Section Sessions.

Context {S : Type} `{!SessionStorage S}.
Variable DetectContentType : string -> string.
Variable jsonEncode : JSONValue -> string.

Definition storage_SetIDPublicKey (correlationID secretKey publicKey : string)
  : Handler S (option string) :=
  fun st =>
    let '(err, s) := SetIDPublicKey correlationID secretKey publicKey
                       (Store st) in
    (Ok err, set_Store s st).

Definition storage_RemoveID (correlationID secretKey : string)
  : Handler S (option string) :=
  fun st =>
    let '(err, s) := RemoveID correlationID secretKey (Store st) in
    (Ok err, set_Store s st).

(** [registerHandler].  [decoded] is what the JSON decoder makes of the
    body, the error message or the request; [sessions] is the counter
    [options.Stats.Sessions], an [int64], and the result is its value when
    the handler returns. *)
Definition registerHandler (h : HTTPServer S)
  (decoded : string + RegisterRequest) (sessions : Z) : Handler S Z :=
  match decoded with
  | inl err =>
      bind (jsonError DetectContentType jsonEncode
              ("could not decode json body: " +:+ err) StatusBadRequest)
        (fun _ => ret sessions)
  | inr r =>
      let sessions := wrap64 (sessions + 1) in
      bind (storage_SetIDPublicKey (CorrelationID r) (SecretKey r)
              (PublicKey r))
        (fun err =>
           match err with
           | Some e =>
               bind (jsonError DetectContentType jsonEncode
                       ("could not set id and public key: " +:+ e)
                       StatusBadRequest)
                 (fun _ => ret sessions)
           | None =>
               bind (jsonMsg DetectContentType jsonEncode
                       "registration successful" StatusOK)
                 (fun _ => ret sessions)
           end)
  end.

(** [deregisterHandler], with the same conventions. *)
Definition deregisterHandler (h : HTTPServer S)
  (decoded : string + DeregisterRequest) (sessions : Z) : Handler S Z :=
  let sessions := wrap64 (sessions - 1) in
  match decoded with
  | inl err =>
      bind (jsonError DetectContentType jsonEncode
              ("could not decode json body: " +:+ err) StatusBadRequest)
        (fun _ => ret sessions)
  | inr r =>
      bind (storage_RemoveID (DeregisterCorrelationID r)
              (DeregisterSecretKey r))
        (fun err =>
           match err with
           | Some e =>
               bind (jsonError DetectContentType jsonEncode
                       ("could not remove id: " +:+ e) StatusBadRequest)
                 (fun _ => ret sessions)
           | None =>
               bind (jsonMsg DetectContentType jsonEncode
                       "deregistration successful" StatusOK)
                 (fun _ => ret sessions)
           end)
  end.

End Sessions.

(** Modelled from the spec: [set_id_public_key] and [remove_id] of the
    storage contract (section 4.2) on the in-memory store.  Registration
    fails with [duplicate] for an id that has an entry; removal is
    authenticated by the secret.  [keygen] stands for the generation of the
    AES key of an entry and [wrap] for its encryption under the public
    key. *)
Definition mem_SetIDPublicKey (keygen : string -> string)
  (wrap : string -> string -> string)
  (id secret publicKey : string) (s : MemStore) : option string * MemStore :=
  match clients s !! id with
  | Some _ => (Some "duplicate", s)
  | None =>
      (None,
       set_clients
         (<[id := {| secret_key := secret; aes_key := keygen id;
                     wrapped_aes := wrap publicKey (keygen id);
                     pending := [] |}]> (clients s)) s)
  end.

Definition mem_RemoveID (id secret : string) (s : MemStore)
  : option string * MemStore :=
  match clients s !! id with
  | None => (Some "not_found", s)
  | Some c =>
      if String.eqb secret (secret_key c)
      then (None, set_clients (delete id (clients s)) s)
      else (Some "wrong_secret", s)
  end.

Definition MemSessions : SessionStorage MemStore :=
  {| SetIDPublicKey := mem_SetIDPublicKey (fun _ => "k") tagWithKey;
     RemoveID := mem_RemoveID |}.

(** ** The static files of [NewHTTPServer] *)

(** The request [r] with the path [p]. *)
Definition set_Path (p : string) (r : Request) : Request :=
  {| Method := Method r; Host := Host r; Path := p; URLString := URLString r;
     Query := Query r; ReqHeader := ReqHeader r; RemoteHost := RemoteHost r;
     Dump := Dump r; StoreBody := StoreBody r |}.

Section StaticFiles.

Context {S : Type}.

(** [http.NotFound], whose reply the server only passes on, and
    [r.URL.RawPath], which [Request] does not carry. *)
Variable NotFound : Request -> Handler S unit.
Variable RawPath : Request -> string.

(** [disableDirectoryListing] *)
Definition disableDirectoryListing (next : Request -> Handler S unit)
  (r : Request) : Handler S unit :=
  if HasSuffix (Path r) "/" || String.eqb (Path r) EmptyString
  then NotFound r
  else next r.

(** [http.StripPrefix]: the wrapped handler gets the request with the
    trimmed path. *)
Definition StripPrefix (prefix : string) (h : Request -> Handler S unit)
  (r : Request) : Handler S unit :=
  if String.eqb prefix EmptyString then h r
  else
    let p := TrimPrefix (Path r) prefix in
    let rp := TrimPrefix (RawPath r) prefix in
    if (len p <? len (Path r))
       && (String.eqb (RawPath r) EmptyString || (len rp <? len (RawPath r)))
    then h (set_Path p r)
    else NotFound r.

(** The static handler that [NewHTTPServer] installs when a directory is
    configured; [fileServer] is [http.FileServer] on that directory. *)
Definition newStaticHandler (fileServer : Request -> Handler S unit)
  : Request -> Handler S unit :=
  StripPrefix "/s/" (disableDirectoryListing fileServer).

End StaticFiles.

(** Stand-ins to run the static handler: a file server that answers with
    the path it was asked for, and the reply of [http.NotFound]. *)
Definition echoFileServer {S : Type} (r : Request) : Handler S unit :=
  w_Write sniffPlain ("file:" +:+ Path r).

Definition notFoundPage {S : Type} (r : Request) : Handler S unit :=
  bind (w_WriteHeader StatusNotFound)
    (fun _ => w_Write sniffPlain ("404 page not found" +:+ newline)).

(** A request for a static file that asks for the status [teapot]. *)
Definition staticGET : Request :=
  GET "www.interactsh.com" "/s/logo.png"
    {[ "status" := ["teapot"]; "header" := ["Cache-Control:no-store"] ]}.

(** ** Vocabulary for requests that reach the dynamic response engine *)

(** The default handler hands the request to the dynamic response engine:
    dynamic responses are on, no special page is selected, and there is a
    query or the path prefix. *)
Definition dynamicRequest {S : Type} (h : HTTPServer S) (req : Request)
  (reflection : string) : Prop :=
  (Path req <> "/" \/ reflection <> EmptyString)
  /\ EqualFold (Path req) "/robots.txt" = false
  /\ HasSuffixI (Path req) ".json" = false
  /\ HasSuffixI (Path req) ".xml" = false
  /\ DynamicResp (options h) = true
  /\ (Query req <> ∅ \/ HasPrefixI (Path req) "/b64_body:" = true).

Example Split_host :
  Split "c6rj61aciaeutn2ae680cg5.ugboyyyyyn.interactsh.com" "."
  = ["c6rj61aciaeutn2ae680cg5"; "ugboyyyyyn"; "interactsh"; "com"].
Proof. reflexivity. Qed.

Example Split_empty : Split "" "." = [""].
Proof. reflexivity. Qed.

Example SplitAny_url :
  SplitAny "a..b/c.d" ("." +:+ "/") = ["a"; "b"; "c"; "d"].
Proof. reflexivity. Qed.

Example SlideWithLength_abcd :
  SlideWithLength "abcd" 2 = Some ["ab"; "bc"; "cd"].
Proof. reflexivity. Qed.

Example SlideWithLength_short : SlideWithLength "ab" 3 = Some ["ab"].
Proof. reflexivity. Qed.

Example SlideWithLength_zero : SlideWithLength "ab" 0 = Some [""; ""].
Proof. reflexivity. Qed.

Example LastIndex_slash : LastIndex "/b64_body:abc" "/" = 0.
Proof. reflexivity. Qed.

Example SplitN2_header : SplitN2 "Key:va:lue" ":" = ["Key"; "va:lue"].
Proof. reflexivity. Qed.

Example Atoi_404 : strconv.Atoi "404" = (404, None).
Proof. reflexivity. Qed.

Example Atoi_syntax : strconv.Atoi "1s" = (0, Some strconv.ErrSyntax).
Proof. reflexivity. Qed.

Example Atoi_range :
  strconv.Atoi "99999999999999999999"
  = (9223372036854775807, Some strconv.ErrRange).
Proof. reflexivity. Qed.

Example runes_ascii : utf8.runes "ab" = [97; 98].
Proof. reflexivity. Qed.

Example runes_two_byte : utf8.runes (String (byte_of 195) (String (byte_of 169) "")) = [233].
Proof. reflexivity. Qed.

Example of_runes_two_byte :
  utf8.of_runes [233] = String (byte_of 195) (String (byte_of 169) "").
Proof. reflexivity. Qed.

Example base64_encode_example :
  base64.EncodeToString "this is example body" = "dGhpcyBpcyBleGFtcGxlIGJvZHk=".
Proof. reflexivity. Qed.

Example base64_decode_example :
  base64.DecodeString "dGhpcyBpcyBleGFtcGxlIGJvZHk=" = ("this is example body", false).
Proof. reflexivity. Qed.

Example base64_decode_partial :
  base64.DecodeString "aGk=x" = ("hi", true).
Proof. reflexivity. Qed.

Example base64_decode_unpadded : base64.DecodeString "abc" = ("", true).
Proof. reflexivity. Qed.

(** * Properties *)

(** ** Byte strings *)

Lemma append_cons (c : ascii) (s t : string) :
  String c s +:+ t = String c (s +:+ t).
Proof. reflexivity. Qed.

Lemma append_empty_l (s : string) : EmptyString +:+ s = s.
Proof. reflexivity. Qed.

Lemma append_empty_r (s : string) : s +:+ EmptyString = s.
Proof. induction s as [|c s IH]; [done|]. by rewrite append_cons, IH. Qed.

Lemma append_assoc (a b c : string) : (a +:+ b) +:+ c = a +:+ (b +:+ c).
Proof.
  induction a as [|x a IH]; [done|]. by rewrite !append_cons, IH.
Qed.

Lemma length_append (a b : string) :
  String.length (a +:+ b) = (String.length a + String.length b)%nat.
Proof.
  induction a as [|x a IH]; [done|]. rewrite append_cons. simpl. by rewrite IH.
Qed.

Lemma prefix_append (p s : string) : String.prefix p (p +:+ s) = true.
Proof.
  induction p as [|c p IH]; [by destruct s|].
  rewrite append_cons. simpl. destruct (ascii_dec c c); [exact IH|congruence].
Qed.

Lemma ToLower_append (a b : string) :
  ToLower (a +:+ b) = ToLower a +:+ ToLower b.
Proof.
  induction a as [|c a IH]; [done|].
  rewrite append_cons. simpl. by rewrite IH.
Qed.

Lemma ContainsByte_append (c : ascii) (a b : string) :
  ContainsByte c (a +:+ b) = ContainsByte c a || ContainsByte c b.
Proof.
  induction a as [|x a IH]; [done|].
  rewrite append_cons. simpl. rewrite IH. by destruct (Ascii.eqb x c).
Qed.

Lemma prefix_single (c d : ascii) (s : string) :
  String.prefix (String c EmptyString) (String d s) = Ascii.eqb d c.
Proof.
  simpl. destruct (ascii_dec c d) as [->|Hne].
  - rewrite Ascii.eqb_refl. by destruct s.
  - symmetry. apply Ascii.eqb_neq. congruence.
Qed.

Lemma LastIndex_absent (c : ascii) (s : string) :
  ContainsByte c s = false -> LastIndex s (String c EmptyString) = -1.
Proof.
  induction s as [|d s IH]; [done|].
  intros [Hd Hs]%orb_false_iff.
  cbn [LastIndex]. rewrite (IH Hs), prefix_single, Hd. done.
Qed.

Lemma LastIndex_only_first (c : ascii) (s : string) :
  ContainsByte c s = false ->
  LastIndex (String c s) (String c EmptyString) = 0.
Proof.
  intros Hs. cbn [LastIndex].
  rewrite (LastIndex_absent _ _ Hs), prefix_single, Ascii.eqb_refl. done.
Qed.

Lemma Index_prefix (p s : string) : Index (p +:+ s) p = 0.
Proof.
  destruct (p +:+ s) eqn:E; cbn [Index]; rewrite <- E, prefix_append; done.
Qed.

Lemma Split_no_sep (sep : ascii) (s : string) :
  ContainsByte sep s = false -> Split s sep = [s].
Proof.
  induction s as [|c s IH]; [done|].
  intros [Hc Hs]%orb_false_iff. simpl. rewrite Hc, (IH Hs). done.
Qed.

Lemma Split_length (sep : ascii) (s : string) :
  (1 <= length (Split s sep))%nat.
Proof.
  induction s as [|c s IH]; simpl; [lia|].
  destruct (Ascii.eqb c sep); simpl; [lia|].
  destruct (Split s sep); simpl in *; lia.
Qed.

Lemma Split_with_sep (sep : ascii) (s : string) :
  ContainsByte sep s = true -> (2 <= length (Split s sep))%nat.
Proof.
  induction s as [|c s IH]; [done|].
  simpl. destruct (Ascii.eqb c sep) eqn:Hc; simpl.
  - intros _. pose proof (Split_length sep s). lia.
  - intros Hs. specialize (IH Hs).
    destruct (Split s sep); simpl in *; lia.
Qed.

(** ** C10: the [/b64_body:] path prefix *)

Lemma HasPrefixI_append (p s : string) : HasPrefixI (p +:+ s) p = true.
Proof.
  unfold HasPrefixI, HasPrefix. rewrite ToLower_append. apply prefix_append.
Qed.

Section DynamicEngine.

Context {S : Type}.
Variable DetectContentType : string -> string.

(** C10.  For a path ["/b64_body:" ++ segment] whose segment holds no
    further ['/'], the engine takes the path-prefix branch, computes the
    bounds [firstindex + 10 = 10] and [lastIndex = 0], and the slice
    [path[10:0]] panics: nothing is written. *)
Theorem b64_body_path_without_slash_panics
  (req : Request) (segment : string) (st : State S) :
  Path req = "/b64_body:" +:+ segment ->
  ContainsByte "/" segment = false ->
  HasPrefixI (Path req) "/b64_body:" = true
  /\ Index (Path req) "/b64_body:" + 10 = 10
  /\ LastIndex (Path req) "/" = 0
  /\ slice (Path req) (Index (Path req) "/b64_body:" + 10)
           (LastIndex (Path req) "/") = None
  /\ writeResponseFromDynamicRequest DetectContentType req st
     = (Panicked SliceBoundsOutOfRange, st).
Proof.
  intros Hpath Hseg.
  assert (Hpre : HasPrefixI (Path req) "/b64_body:" = true)
    by (rewrite Hpath; apply HasPrefixI_append).
  assert (Hidx : Index (Path req) "/b64_body:" = 0)
    by (rewrite Hpath; apply Index_prefix).
  assert (Hlast : LastIndex (Path req) "/" = 0).
  { rewrite Hpath.
    change ("/b64_body:" +:+ segment) with (String "/" ("b64_body:" +:+ segment)).
    apply LastIndex_only_first.
    rewrite ContainsByte_append, Hseg. reflexivity. }
  assert (Hslice : slice (Path req) (Index (Path req) "/b64_body:" + 10)
                     (LastIndex (Path req) "/") = None)
    by (rewrite Hidx, Hlast; reflexivity).
  repeat split; try done.
  - rewrite Hidx. reflexivity.
  - unfold writeResponseFromDynamicRequest, dynamicPathBody, bind, lift.
    rewrite Hpre, Hslice. reflexivity.
Qed.

End DynamicEngine.

Lemma b64_body_path_without_slash_panics_witness :
  writeResponseFromDynamicRequest sniffPlain
    (GET "a.oast.example.com" "/b64_body:abc" ∅) (initialState tt 0)
  = (Panicked SliceBoundsOutOfRange, initialState tt 0).
Proof.
  apply (b64_body_path_without_slash_panics sniffPlain
           (GET "a.oast.example.com" "/b64_body:abc" ∅) "abc"
           (initialState tt 0)); reflexivity.
Defined.

(** ** C9: [getURLIDComponent] on a host without a dot *)

Section Reflection.

Variable isCorrelationID : Options -> string -> bool.

Lemma getURLIDComponent_no_dot (o : Options) (URL : string) :
  ContainsByte "." URL = false ->
  getURLIDComponent isCorrelationID o URL = Panicked SliceBoundsOutOfRange.
Proof.
  intros H. unfold getURLIDComponent. rewrite (Split_no_sep _ _ H). reflexivity.
Qed.

Lemma SlideWithLength_total (s : string) (l : Z) :
  0 <= l -> exists chunks, SlideWithLength s l = Some chunks.
Proof.
  intros Hl. unfold SlideWithLength.
  destruct (len s <? l); [eauto|].
  destruct (l <? 0) eqn:E; [lia|]. simpl. eauto.
Qed.

Lemma scanParts_total (o : Options) (parts : list string) (r : string) :
  0 <= GetIdLength o ->
  exists r', scanParts isCorrelationID o parts r = Ok r'.
Proof.
  intros Hl. revert r. induction parts as [|p parts IH]; intros r; simpl.
  - eauto.
  - destruct (SlideWithLength_total p _ Hl) as [chunks ->]. apply IH.
Qed.

(** With at least one dot and a non-negative token length the function
    returns. *)
Lemma getURLIDComponent_with_dot (o : Options) (URL : string) :
  ContainsByte "." URL = true -> 0 <= GetIdLength o ->
  exists r, getURLIDComponent isCorrelationID o URL = Ok r.
Proof.
  intros H Hl. unfold getURLIDComponent, slice_to.
  pose proof (Split_with_sep _ _ H) as Hlen.
  set (n := Z.of_nat (length (Split URL "."))) in *.
  assert (E1 : (0 <=? n - 2) = true) by lia.
  assert (E2 : (n - 2 <=? n) = true) by lia.
  rewrite E1, E2. simpl.
  by apply scanParts_total.
Qed.

End Reflection.

Section DefaultHandlerPanics.

Context {S : Type} `{!Storage S}.
Variable DetectContentType : string -> string.
Variable jsonEncode : JSONValue -> string.
Variable DumpResponse : Response -> string.
Variable isCorrelationID : Options -> string -> bool.

(** C9.  On a request whose [Host] holds no ['.'] the dot-split has one
    part, the bound [len(parts)-2] is negative, [getURLIDComponent] panics,
    and so do [defaultHandler] and the route ["/"] that wraps it. *)
Theorem host_without_dot_panics
  (h : HTTPServer S) (req : Request) (st : State S) :
  ContainsByte "." (Host req) = false ->
  length (Split (Host req) ".") = 1%nat
  /\ slice_to (Split (Host req) ".")
       (Z.of_nat (length (Split (Host req) ".")) - 2) = None
  /\ getURLIDComponent isCorrelationID (options h) (Host req)
     = Panicked SliceBoundsOutOfRange
  /\ fst (defaultHandler DetectContentType isCorrelationID h req st)
     = Panicked SliceBoundsOutOfRange
  /\ (Method req <> MethodOptions ->
      fst (serve (route_default DetectContentType jsonEncode DumpResponse
                    isCorrelationID h req) st)
      = Panicked SliceBoundsOutOfRange).
Proof.
  intros H.
  pose proof (getURLIDComponent_no_dot isCorrelationID (options h) _ H) as Hp.
  assert (Hd : forall st',
    fst (defaultHandler DetectContentType isCorrelationID h req st')
    = Panicked SliceBoundsOutOfRange).
  { intros st'. unfold defaultHandler, bind, when, lift, URLReflection.
    rewrite Hp. simpl. by destruct (NoVersionHeader (options h)). }
  rewrite (Split_no_sep _ _ H). repeat split; try done.
  intros Hm. unfold serve, route_default, logger, corsMiddleware.
  apply String.eqb_neq in Hm. rewrite Hm.
  unfold bind at 1. simpl.
  match goal with |- context [defaultHandler _ _ _ _ ?s] =>
    specialize (Hd s); destruct (defaultHandler _ _ _ _ s) as [[[]|p] st1]
  end; simpl in *; congruence.
Qed.

End DefaultHandlerPanics.

Lemma host_without_dot_panics_witness :
  fst (serve (route_default (Storage0 := MemStorage tagWithKey)
                sniffPlain showJSON showResponse anyAllocated testServer
                (GET "localhost:8080" "/" ∅))
         (initialState emptyStore 0))
  = Panicked SliceBoundsOutOfRange.
Proof.
  apply (host_without_dot_panics (Storage0 := MemStorage tagWithKey)
           sniffPlain showJSON showResponse anyAllocated testServer
           (GET "localhost:8080" "/" ∅) (initialState emptyStore 0));
    [reflexivity | discriminate].
Defined.

(** ** The last matching part wins *)

Section LastMatch.

Variable isCorrelationID : Options -> string -> bool.

Lemma scanPart_spec (o : Options) (part : string) (chunks : list string)
  (acc : string) :
  scanPart isCorrelationID o part chunks acc
  = if existsb (isCorrelationID o) chunks then part else acc.
Proof.
  unfold scanPart. revert acc.
  induction chunks as [|c chunks IH]; intros acc; simpl; [done|].
  rewrite IH. destruct (isCorrelationID o c); simpl; [|done].
  by destruct (existsb _ chunks).
Qed.

Lemma scanParts_step (o : Options) (part : string) (rest : list string)
  (acc : string) :
  0 <= GetIdLength o ->
  scanParts isCorrelationID o (part :: rest) acc
  = scanParts isCorrelationID o rest
      (if partMatches isCorrelationID o part then part else acc).
Proof.
  intros Hl. simpl. unfold partMatches.
  destruct (SlideWithLength_total part _ Hl) as [chunks ->].
  by rewrite scanPart_spec.
Qed.

(** The result of the loop: the start value when no part matches, and
    otherwise a matching part after which no part matches. *)
Lemma scanParts_last_match (o : Options) (parts : list string) (acc : string) :
  0 <= GetIdLength o ->
  exists r, scanParts isCorrelationID o parts acc = Ok r
    /\ ((r = acc /\ Forall (fun p => partMatches isCorrelationID o p = false) parts)
        \/ (exists before after, parts = before ++ r :: after
              /\ partMatches isCorrelationID o r = true
              /\ Forall (fun p => partMatches isCorrelationID o p = false) after)).
Proof.
  intros Hl. revert acc.
  induction parts as [|p parts IH]; intros acc.
  - exists acc. split; [done|]. left. by split.
  - rewrite scanParts_step by done.
    destruct (partMatches isCorrelationID o p) eqn:Hp.
    + destruct (IH p) as (r & Hr & [[-> Hall]|(b & a & -> & Hm & Hall)]).
      * exists p. split; [done|]. right. exists [], parts. by repeat split.
      * exists r. split; [done|]. right. exists (p :: b), a. by repeat split.
    + destruct (IH acc) as (r & Hr & [[-> Hall]|(b & a & -> & Hm & Hall)]).
      * exists acc. split; [done|]. left. split; [done|]. by constructor.
      * exists r. split; [done|]. right. exists (p :: b), a. by repeat split.
Qed.

(** [getURLIDComponent]: among the dot-separated parts without the last
    two, the last part one of whose windows matches; the empty string when
    there is none. *)
Lemma getURLIDComponent_last_match (o : Options) (URL : string) :
  ContainsByte "." URL = true -> 0 <= GetIdLength o ->
  let parts := Split URL "." in
  let scanned := take (length parts - 2) parts in
  exists r, getURLIDComponent isCorrelationID o URL = Ok r
    /\ ((r = EmptyString
         /\ Forall (fun p => partMatches isCorrelationID o p = false) scanned)
        \/ (exists before after, scanned = before ++ r :: after
              /\ partMatches isCorrelationID o r = true
              /\ Forall (fun p => partMatches isCorrelationID o p = false) after)).
Proof.
  intros H Hl parts scanned. unfold getURLIDComponent, slice_to.
  pose proof (Split_with_sep _ _ H) as Hlen. fold parts in Hlen |- *.
  assert (E1 : (0 <=? Z.of_nat (length parts) - 2) = true) by lia.
  assert (E2 : (Z.of_nat (length parts) - 2 <=? Z.of_nat (length parts)) = true) by lia.
  rewrite E1, E2. simpl.
  replace (Z.to_nat (Z.of_nat (length parts) - 2)) with (length parts - 2)%nat by lia.
  by apply scanParts_last_match.
Qed.

Lemma scanParts_no_match (o : Options) (parts : list string) (acc : string) :
  0 <= GetIdLength o ->
  Forall (fun p => partMatches isCorrelationID o p = false) parts ->
  scanParts isCorrelationID o parts acc = Ok acc.
Proof.
  intros Hl Hall. induction Hall as [|p parts Hp _ IH]; [done|].
  rewrite scanParts_step by done. by rewrite Hp.
Qed.

(** The last match wins: when a scanned part has a matching window and no
    part after it has one, [getURLIDComponent] returns that part, whatever
    matched before it. *)
Theorem last_matching_part_wins (o : Options) (URL : string)
  (before after : list string) (r : string) :
  0 <= GetIdLength o ->
  take (length (Split URL ".") - 2) (Split URL ".") = before ++ r :: after ->
  partMatches isCorrelationID o r = true ->
  Forall (fun p => partMatches isCorrelationID o p = false) after ->
  getURLIDComponent isCorrelationID o URL = Ok r.
Proof.
  intros Hl Hscan Hm Hafter.
  assert (Hlen : (3 <= length (Split URL "."))%nat).
  { apply (f_equal length) in Hscan.
    rewrite length_take, length_app in Hscan. cbn [length] in Hscan. lia. }
  unfold getURLIDComponent, slice_to.
  assert (E1 : (0 <=? Z.of_nat (length (Split URL ".")) - 2) = true) by lia.
  assert (E2 : (Z.of_nat (length (Split URL ".")) - 2
                <=? Z.of_nat (length (Split URL "."))) = true) by lia.
  rewrite E1, E2. simpl.
  replace (Z.to_nat (Z.of_nat (length (Split URL ".")) - 2))
    with (length (Split URL ".") - 2)%nat by lia.
  rewrite Hscan. clear Hscan Hlen E1 E2. generalize EmptyString.
  induction before as [|p before IH]; intros acc.
  - cbn [app]. rewrite scanParts_step by done. rewrite Hm.
    by apply scanParts_no_match.
  - cbn [app]. rewrite scanParts_step by done. apply IH.
Qed.

End LastMatch.

Section TestURL.

Variable isCorrelationID : Options -> string -> bool.

(** The host of [TestGetURLIDComponent].  With the default lengths
    (20 + 13) its two scanned labels are shorter than a token, so each is
    offered to the matcher whole, and the matcher alone decides the result:
    the label ["ugboyyyyyn"] when the matcher accepts it, else the first
    label when the matcher accepts that one, else the empty string. *)
Lemma getURLIDComponent_testURL_result (o : Options) :
  CorrelationIdLength o = CorrelationIdLengthDefault ->
  CorrelationIdNonceLength o = CorrelationIdNonceLengthDefault ->
  getURLIDComponent isCorrelationID o testURL
  = Ok (if isCorrelationID o "ugboyyyyyn" then "ugboyyyyyn"
        else if isCorrelationID o "c6rj61aciaeutn2ae680cg5"
             then "c6rj61aciaeutn2ae680cg5"
             else EmptyString).
Proof.
  intros Hid Hn.
  assert (Hl : GetIdLength o = 33) by (unfold GetIdLength; rewrite Hid, Hn; reflexivity).
  unfold getURLIDComponent, testURL.
  change (slice_to _ _)
    with (Some ["c6rj61aciaeutn2ae680cg5"; "ugboyyyyyn"]).
  cbn [scanParts]. rewrite Hl.
  change (SlideWithLength "c6rj61aciaeutn2ae680cg5" 33)
    with (Some ["c6rj61aciaeutn2ae680cg5"]).
  change (SlideWithLength "ugboyyyyyn" 33) with (Some ["ugboyyyyyn"]).
  cbn [scanPart fold_left].
  by destruct (isCorrelationID o "c6rj61aciaeutn2ae680cg5"),
    (isCorrelationID o "ugboyyyyyn").
Qed.

End TestURL.

Lemma last_matching_part_wins_witness :
  getURLIDComponent onlyTestToken defaultOptions
    ("c6rj61aciaeutn2ae680cg5ugboyyyyyn.c6rj61aciaeutn2ae680cg5ugboyyyyyn.www.interactsh.com")
  = Ok testToken.
Proof.
  apply (last_matching_part_wins onlyTestToken defaultOptions _
           [testToken] ["www"] testToken);
    [discriminate | reflexivity | reflexivity |].
  repeat constructor.
Defined.

Lemma isCorrelationID_spec_length (allocated : string -> bool) (o : Options)
  (s : string) :
  isCorrelationID_spec allocated o s = true -> len s = GetIdLength o.
Proof.
  unfold isCorrelationID_spec. intros [[H _]%andb_true_iff _]%andb_true_iff. lia.
Qed.

(** ** C4: URL reflection *)

Lemma byte_val_bound (c : ascii) : 0 <= byte_val c < 256.
Proof.
  unfold byte_val. pose proof (N_ascii_bounded c). lia.
Qed.

Lemma byte_of_byte_val (c : ascii) : byte_of (byte_val c) = c.
Proof.
  unfold byte_of. pose proof (byte_val_bound c).
  rewrite Z.mod_small by lia. unfold byte_val.
  rewrite N2Z.id. apply ascii_N_embedding.
Qed.

Lemma is_ascii_list (s : string) :
  is_ascii s = forallb (fun c => byte_val c <? 128) (list_ascii_of_string s).
Proof.
  induction s as [|c s IH]; [done|]. simpl. by rewrite <- IH.
Qed.

Lemma runes_of_ascii (s : string) :
  is_ascii s = true ->
  utf8.runes s = map byte_val (list_ascii_of_string s).
Proof.
  induction s as [|c s IH]; [done|].
  intros [Hc Hs]%andb_true_iff. cbn [utf8.runes list_ascii_of_string map].
  rewrite Hc, (IH Hs). done.
Qed.

Lemma of_runes_ascii (l : list ascii) :
  forallb (fun c => byte_val c <? 128) l = true ->
  utf8.of_runes (map byte_val l) = string_of_list_ascii l.
Proof.
  induction l as [|c l IH]; [done|].
  intros [Hc Hl]%andb_true_iff. cbn [utf8.of_runes map string_of_list_ascii].
  rewrite (IH Hl). unfold utf8.encode_rune.
  pose proof (byte_val_bound c).
  assert (E : (0 <=? byte_val c) && (byte_val c <=? 127) = true) by lia.
  rewrite E, byte_of_byte_val. done.
Qed.

Lemma forallb_rev {A} (f : A -> bool) (l : list A) :
  forallb f (rev l) = forallb f l.
Proof.
  induction l as [|x l IH]; [done|].
  simpl. rewrite forallb_app, IH. simpl. destruct (f x), (forallb f l); done.
Qed.

(** On ASCII text the rune loop of [URLReflection] is the reversal of the
    characters. *)
Lemma reverse_ascii (s : string) :
  is_ascii s = true ->
  reverse s = string_of_list_ascii (rev (list_ascii_of_string s)).
Proof.
  intros H. unfold reverse. rewrite (runes_of_ascii _ H), <- map_rev.
  apply of_runes_ascii. rewrite forallb_rev. by rewrite <- is_ascii_list.
Qed.

Lemma reverse_is_ascii (s : string) :
  is_ascii s = true -> is_ascii (reverse s) = true.
Proof.
  intros H. rewrite (reverse_ascii _ H), is_ascii_list.
  rewrite list_ascii_of_string_of_list_ascii, forallb_rev.
  by rewrite <- is_ascii_list.
Qed.

Lemma reverse_involutive (s : string) :
  is_ascii s = true -> reverse (reverse s) = s.
Proof.
  intros H. rewrite (reverse_ascii _ (reverse_is_ascii _ H)).
  rewrite (reverse_ascii _ H), list_ascii_of_string_of_list_ascii.
  rewrite rev_involutive. apply string_of_list_ascii_of_string.
Qed.

Lemma lower_alnum_is_ascii (s : string) :
  forallb_string is_lower_alnum s = true -> is_ascii s = true.
Proof.
  unfold is_ascii. induction s as [|c s IH]; [done|].
  intros [Hc Hs]%andb_true_iff. cbn [forallb_string].
  rewrite (IH Hs), andb_true_r.
  unfold is_lower_alnum in Hc. lia.
Qed.

(** Every token of the spec is ASCII text. *)
Lemma token_is_ascii (allocated : string -> bool) (o : Options) (t : string) :
  isCorrelationID_spec allocated o t = true -> is_ascii t = true.
Proof.
  unfold isCorrelationID_spec.
  intros [[_ H]%andb_true_iff _]%andb_true_iff.
  by apply lower_alnum_is_ascii.
Qed.

Lemma substring_full (s : string) :
  String.substring 0 (String.length s) s = s.
Proof. induction s as [|c s IH]; [done|]. simpl. by rewrite IH. Qed.

Lemma windows_short (s : string) (l : nat) :
  (String.length s < l)%nat -> windows s l = [].
Proof.
  destruct s as [|c s]; [done|]. intros H. cbn [windows].
  destruct (Nat.leb_spec l (String.length (String c s))); [lia|done].
Qed.

(** A part of exactly the token length has one window, itself. *)
Lemma windows_exact (s : string) :
  s <> EmptyString -> windows s (String.length s) = [s].
Proof.
  destruct s as [|c s]; [done|]. intros _. cbn [windows].
  rewrite Nat.leb_refl, substring_full, windows_short; [done|simpl; lia].
Qed.

Lemma partMatches_exact (isCorrelationID : Options -> string -> bool)
  (o : Options) (part : string) :
  part <> EmptyString -> len part = GetIdLength o ->
  partMatches isCorrelationID o part = isCorrelationID o part.
Proof.
  intros Hne Hlen. unfold partMatches, SlideWithLength. rewrite <- Hlen.
  rewrite Z.ltb_irrefl.
  assert (E : (len part <? 0) = false)
    by (apply Z.ltb_ge; unfold len; apply Nat2Z.is_nonneg).
  rewrite E. simpl. unfold len. rewrite Nat2Z.id, windows_exact by done.
  simpl. by rewrite orb_false_r.
Qed.

Section ReflectionSpec.

Variable isCorrelationID : Options -> string -> bool.

(** C4, as the code has it.  [URLReflection] is the character-reverse of
    the component that [getURLIDComponent] selects: a whole dot-separated
    part of the URL in which a window matched, which is itself a token
    when it has the token length.  On ASCII text, hence on every token, the
    reversal is the reversal of the characters and an involution. *)
Theorem URLReflection_reverses_component (o : Options) (URL r : string) :
  0 <= GetIdLength o ->
  getURLIDComponent isCorrelationID o URL = Ok r ->
  URLReflection isCorrelationID o URL = Ok (reverse r)
  /\ (r <> EmptyString ->
      r ∈ take (length (Split URL ".") - 2) (Split URL ".")
      /\ partMatches isCorrelationID o r = true
      /\ (len r = GetIdLength o -> isCorrelationID o r = true))
  /\ (is_ascii r = true ->
      reverse r = string_of_list_ascii (rev (list_ascii_of_string r))
      /\ reverse (reverse r) = r).
Proof.
  intros Hl Hr. split; [|split].
  - unfold URLReflection. by rewrite Hr.
  - intros Hne.
    destruct (ContainsByte "." URL) eqn:Hdot.
    2:{ rewrite (getURLIDComponent_no_dot _ _ _ Hdot) in Hr. discriminate. }
    destruct (getURLIDComponent_last_match isCorrelationID o URL Hdot Hl)
      as (r' & Hr' & Hcase).
    rewrite Hr in Hr'. injection Hr' as <-.
    destruct Hcase as [[-> _]|(b & a & Hsc & Hm & _)]; [done|].
    split; [|split]; [|done|].
    + rewrite Hsc. set_solver.
    + intros Hlen. by rewrite <- (partMatches_exact _ _ _ Hne Hlen).
  - intros Ha. split; [by apply reverse_ascii | by apply reverse_involutive].
Qed.

End ReflectionSpec.

(** Reversal is an involution on every token of the spec. *)
Lemma reflection_involutive_on_tokens (allocated : string -> bool)
  (o : Options) (t : string) :
  isCorrelationID_spec allocated o t = true -> reverse (reverse t) = t.
Proof.
  intros H. apply reverse_involutive. by apply (token_is_ascii allocated o).
Qed.

Lemma URLReflection_reverses_component_witness :
  URLReflection onlyTestToken defaultOptions tokenHost
  = Ok (reverse testToken)
  /\ (testToken <> EmptyString ->
      testToken ∈ take (length (Split tokenHost ".") - 2) (Split tokenHost ".")
      /\ partMatches onlyTestToken defaultOptions testToken = true
      /\ (len testToken = GetIdLength defaultOptions ->
          onlyTestToken defaultOptions testToken = true))
  /\ (is_ascii testToken = true ->
      reverse testToken
      = string_of_list_ascii (rev (list_ascii_of_string testToken))
      /\ reverse (reverse testToken) = testToken).
Proof.
  apply (URLReflection_reverses_component onlyTestToken defaultOptions
           tokenHost testToken); [discriminate | reflexivity].
Defined.

(** C4 as the spec words it fails on a label that is longer than the
    token: the host ["x" ++ token ++ ".interactsh.com"] holds the token (the
    only string the matcher accepts), yet the reflection is the reverse of
    the whole 34-character label, not the reverse of the token. *)
Lemma URLReflection_is_not_reversed_token :
  onlyTestToken defaultOptions testToken = true
  /\ partMatches onlyTestToken defaultOptions ("x" +:+ testToken) = true
  /\ URLReflection onlyTestToken defaultOptions paddedHost
     = Ok "nyyyyyobgu5gc086ea2ntueaica16jr6cx"
  /\ reverse testToken = "nyyyyyobgu5gc086ea2ntueaica16jr6c"
  /\ URLReflection onlyTestToken defaultOptions paddedHost
     <> Ok (reverse testToken).
Proof. repeat split; [reflexivity .. | discriminate]. Qed.

(** ** C1: the dynamic endpoint registry *)

Lemma TrimPrefix_append (p s : string) : TrimPrefix (p +:+ s) p = s.
Proof.
  unfold TrimPrefix.
  assert (H : TrimPrefix_aux (p +:+ s) p = Some s).
  { induction p as [|c p IH]; [by destruct s|].
    rewrite append_cons. cbn [TrimPrefix_aux]. rewrite Ascii.eqb_refl. exact IH. }
  by rewrite H.
Qed.

Lemma Sub_lt_day (now last : Z) :
  (time.Sub now last <? 24 * time.Hour) = (now - last <? 24 * time.Hour).
Proof.
  unfold time.Sub, time.minDuration, time.maxDuration, time.Hour, time.Second.
  destruct (Z.ltb_spec (now - last) (24 * (3600 * 1000000000)));
    [apply Z.ltb_lt | apply Z.ltb_ge]; lia.
Qed.

Section Registry.

Context {S : Type}.
Variable DetectContentType : string -> string.
Variable jsonEncode : JSONValue -> string.

(** A JSON reply on a writer that has not written its header yet. *)
Lemma jsonBody_fresh (key value : string) (code : Z) (st : State S) :
  wroteHeader (W st) = false -> checkWriteHeaderCode code = true ->
  exists rw,
    jsonBody DetectContentType jsonEncode key value code st
    = (Ok tt, set_W rw st)
    /\ Code rw = code
    /\ Body rw = Body (W st) +:+ jsonEncode (JSONMap key value)
    /\ wroteHeader rw = true.
Proof.
  intros Hw Hc. unfold jsonBody, bind, w_Header_Set, w_WriteHeader, w_Write.
  cbn. unfold rw_WriteHeader. cbn. rewrite Hw, Hc. cbn.
  eexists. split; [reflexivity|]. by cbn.
Qed.

Lemma jsonBody_serve (key value : string) (code : Z) (st : State S) :
  checkWriteHeaderCode code = true ->
  let out := serve (jsonBody DetectContentType jsonEncode key value code) st in
  fst out = Ok tt
  /\ StatusCode (Result (W (snd out))) = code
  /\ RespBody (Result (W (snd out))) = jsonEncode (JSONMap key value)
  /\ dynamicEndpoints (snd out) = dynamicEndpoints st
  /\ Clock (snd out) = Clock st.
Proof.
  intros Hc. unfold serve.
  destruct (jsonBody_fresh key value code (set_W NewRecorder st) eq_refl Hc)
    as (rw & -> & Hcode & Hbody & _).
  cbn. rewrite Hcode, Hbody. repeat split; try done.
  unfold checkWriteHeaderCode in Hc.
  destruct (Z.eqb_spec code 0) as [E|E]; [|done].
  rewrite E in Hc. discriminate Hc.
Qed.

End Registry.

Section RegistryClaim.

Context {S : Type}.
Variable DetectContentType : string -> string.
Variable jsonEncode : JSONValue -> string.

Local Abbreviation storeHandler' := (storeHandler DetectContentType jsonEncode).
Local Abbreviation apidocsHandler' := (apidocsHandler DetectContentType jsonEncode).
Local Abbreviation jsonError' := (jsonError DetectContentType jsonEncode).
Local Abbreviation jsonMsg' := (jsonMsg DetectContentType jsonEncode).

Lemma storeHandler_serve (h : HTTPServer S) (req : Request) (st : State S) :
  Method req = MethodPost ->
  serve (storeHandler' h req) st =
  match StoreBody req with
  | None => serve (jsonError' "invalid request" StatusBadRequest) st
  | Some sreq =>
      if String.eqb (SubURL sreq) EmptyString
      then serve (jsonError' "invalid request" StatusBadRequest) st
      else
        match dynamicEndpoints st !! SubURL sreq with
        | Some de =>
            if Clock st - LastUpdated de <? 24 * time.Hour
            then serve (jsonError' "suburl can only be updated every 24 hours"
                          StatusTooManyRequests) st
            else serve (jsonMsg' "endpoint registered" StatusOK)
                   (set_dynamicEndpoints
                      (<[SubURL sreq := storedEndpoint sreq (Clock st)]>
                         (dynamicEndpoints st)) st)
        | None =>
            serve (jsonMsg' "endpoint registered" StatusOK)
              (set_dynamicEndpoints
                 (<[SubURL sreq := storedEndpoint sreq (Clock st)]>
                    (dynamicEndpoints st)) st)
        end
  end.
Proof.
  intros Hm. unfold serve, storeHandler. rewrite Hm. cbn [negb String.eqb].
  change (MethodPost =? MethodPost)%string with true. cbn [negb].
  destruct (StoreBody req) as [sreq|]; [|done].
  destruct (String.eqb (SubURL sreq) EmptyString); [done|].
  cbn [dynamicEndpoints set_W Clock].
  destruct (dynamicEndpoints st !! SubURL sreq) as [de|]; [|done].
  rewrite Sub_lt_day. by destruct (_ <? _).
Qed.

Lemma apidocsHandler_found (h : HTTPServer S) (get : Request) (st : State S)
  (suburl : string) (de : dynamicEndpoint) :
  Path get = "/apidocs/" +:+ suburl -> suburl <> EmptyString ->
  dynamicEndpoints st !! suburl = Some de ->
  StatusCode (reply (apidocsHandler' h get) st) = 200
  /\ RespBody (reply (apidocsHandler' h get) st) = EndpointBody de.
Proof.
  intros Hp Hne Hde. unfold reply, serve, apidocsHandler.
  rewrite Hp, TrimPrefix_append.
  apply String.eqb_neq in Hne. rewrite Hne.
  cbn [dynamicEndpoints set_W]. rewrite Hde.
  destruct (String.eqb (ContentType de) EmptyString); by cbn.
Qed.

(** C1.  [POST /storerequest]: 400 when the body does not decode or
    [suburl] is empty; 429 when an entry for the suburl exists and is
    younger than 24 hours, and then the stored body is still what
    [GET /apidocs/<suburl>] serves; otherwise 200 and the entry is written
    with the current time.  The outcome depends on the registry only
    through the entry of this suburl. *)
Theorem storerequest_cooldown (h : HTTPServer S) (req : Request)
  (st : State S) :
  Method req = MethodPost ->
  let out := snd (serve (storeHandler' h req) st) in
  let status := StatusCode (Result (W out)) in
  ((StoreBody req = None
    \/ (exists sreq, StoreBody req = Some sreq /\ SubURL sreq = EmptyString)) ->
   status = 400 /\ dynamicEndpoints out = dynamicEndpoints st)
  /\ (forall sreq,
        StoreBody req = Some sreq -> SubURL sreq <> EmptyString ->
        (forall de,
           dynamicEndpoints st !! SubURL sreq = Some de ->
           Clock st - LastUpdated de < 24 * time.Hour ->
           status = 429
           /\ dynamicEndpoints out = dynamicEndpoints st
           /\ (forall get,
                 Path get = "/apidocs/" +:+ SubURL sreq ->
                 StatusCode (reply (apidocsHandler' h get) out) = 200
                 /\ RespBody (reply (apidocsHandler' h get) out)
                    = EndpointBody de))
        /\ ((dynamicEndpoints st !! SubURL sreq = None
             \/ (exists de, dynamicEndpoints st !! SubURL sreq = Some de
                   /\ 24 * time.Hour <= Clock st - LastUpdated de)) ->
            status = 200
            /\ dynamicEndpoints out
               = <[SubURL sreq := storedEndpoint sreq (Clock st)]>
                   (dynamicEndpoints st))
        /\ (forall st2,
              dynamicEndpoints st2 !! SubURL sreq
              = dynamicEndpoints st !! SubURL sreq ->
              Clock st2 = Clock st ->
              StatusCode (Result (W (snd (serve (storeHandler' h req) st2))))
              = status)).
Proof.
  intros Hm out status. subst status out.
  rewrite (storeHandler_serve h req st Hm). unfold jsonError, jsonMsg.
  split.
  - intros [Hnone|(sreq & Hsome & Hempty)].
    + rewrite Hnone.
      by destruct (jsonBody_serve DetectContentType jsonEncode "error"
                     "invalid request" StatusBadRequest st eq_refl)
        as (_ & ? & _ & ? & _).
    + rewrite Hsome, Hempty. cbn [String.eqb].
      by destruct (jsonBody_serve DetectContentType jsonEncode "error"
                     "invalid request" StatusBadRequest st eq_refl)
        as (_ & ? & _ & ? & _).
  - intros sreq Hsome Hne. rewrite Hsome.
    pose proof Hne as Hneb. apply String.eqb_neq in Hneb. rewrite Hneb.
    split; [|split].
    + intros de Hde Hlt. rewrite Hde.
      assert (E : (Clock st - LastUpdated de <? 24 * time.Hour) = true) by lia.
      rewrite E.
      destruct (jsonBody_serve DetectContentType jsonEncode "error"
                  "suburl can only be updated every 24 hours"
                  StatusTooManyRequests st eq_refl)
        as (_ & Hs & _ & Hd & _).
      split; [done|]. split; [done|].
      intros get Hget. apply (apidocsHandler_found h get _ (SubURL sreq) de);
        [done|done|]. by rewrite Hd.
    + set (st' := set_dynamicEndpoints _ st).
      destruct (jsonBody_serve DetectContentType jsonEncode "message"
                  "endpoint registered" StatusOK st' eq_refl)
        as (_ & Hs & _ & Hd & _).
      intros [Hnone|(de & Hde & Hge)].
      * rewrite Hnone. by split.
      * rewrite Hde.
        assert (E : (Clock st - LastUpdated de <? 24 * time.Hour) = false) by lia.
        rewrite E. by split.
    + intros st2 Hsame Hclock.
      rewrite (storeHandler_serve h req st2 Hm), Hsome, Hneb, Hsame, Hclock.
      unfold jsonError, jsonMsg.
      destruct (dynamicEndpoints st !! SubURL sreq) as [de|].
      * destruct (_ <? _).
        -- destruct (jsonBody_serve DetectContentType jsonEncode "error"
                  "suburl can only be updated every 24 hours"
                  StatusTooManyRequests st eq_refl) as (_ & -> & _).
           by destruct (jsonBody_serve DetectContentType jsonEncode "error"
                  "suburl can only be updated every 24 hours"
                  StatusTooManyRequests st2 eq_refl) as (_ & -> & _).
        -- set (sa := set_dynamicEndpoints _ st).
           set (sb := set_dynamicEndpoints _ st2).
           destruct (jsonBody_serve DetectContentType jsonEncode "message"
                  "endpoint registered" StatusOK sa eq_refl) as (_ & -> & _).
           by destruct (jsonBody_serve DetectContentType jsonEncode "message"
                  "endpoint registered" StatusOK sb eq_refl) as (_ & -> & _).
      * set (sa := set_dynamicEndpoints _ st).
        set (sb := set_dynamicEndpoints _ st2).
        destruct (jsonBody_serve DetectContentType jsonEncode "message"
               "endpoint registered" StatusOK sa eq_refl) as (_ & -> & _).
        by destruct (jsonBody_serve DetectContentType jsonEncode "message"
               "endpoint registered" StatusOK sb eq_refl) as (_ & -> & _).
Qed.

End RegistryClaim.

Lemma storerequest_cooldown_witness :
  StatusCode (reply (storeHandler sniffPlain showJSON testServer
                       (POST_store (Some helloFoo))) stateWithFoo) = 429
  /\ RespBody
       (reply (apidocsHandler sniffPlain showJSON testServer
                 (GET "oast.example.com" "/apidocs/foo" ∅))
          (snd (serve (storeHandler sniffPlain showJSON testServer
                         (POST_store (Some helloFoo))) stateWithFoo)))
     = "hello".
Proof.
  destruct (storerequest_cooldown sniffPlain showJSON testServer
              (POST_store (Some helloFoo)) stateWithFoo eq_refl) as [_ H].
  destruct (H helloFoo eq_refl ltac:(discriminate)) as [H429 _].
  destruct (H429 (storedEndpoint helloFoo 0) eq_refl eq_refl)
    as (Hs & _ & Hget).
  split; [exact Hs|].
  exact (proj2 (Hget (GET "oast.example.com" "/apidocs/foo" ∅) eq_refl)).
Defined.

(** The scenario of [TestApidocsDynamicEndpoint] and of P4/P5: a store, a
    second store of the same suburl within the cool-down, a store of another
    suburl, and the reads. *)
Example apidocs_scenario :
  let store body := storeHandler sniffPlain showJSON testServer
                      (POST_store (Some body)) in
  let get path := apidocsHandler sniffPlain showJSON testServer
                    (GET "oast.example.com" path ∅) in
  let world := {| SReqBody := "world"; SReqContentType := "text/plain";
                  SubURL := "bar" |} in
  let st0 := initialState emptyStore 0 in
  let st1 := snd (serve (store helloFoo) st0) in
  let st2 := snd (serve (store helloFoo) st1) in
  let st3 := snd (serve (store world) st2) in
  StatusCode (reply (store helloFoo) st0) = 200
  /\ StatusCode (reply (get "/apidocs/foo") st1) = 200
  /\ RespBody (reply (get "/apidocs/foo") st1) = "hello"
  /\ Header_Get (RespHeader (reply (get "/apidocs/foo") st1)) "Content-Type"
     = "text/plain"
  /\ StatusCode (reply (store helloFoo) st1) = 429
  /\ RespBody (reply (get "/apidocs/foo") st2) = "hello"
  /\ StatusCode (reply (store world) st2) = 200
  /\ RespBody (reply (get "/apidocs/bar") st3) = "world"
  /\ StatusCode (reply (get "/apidocs/notfound") st3) = 404.
Proof. vm_compute. repeat split. Qed.

(** ** Base64: decoding inverts encoding *)

Lemma land_shiftl_small (a b k : Z) :
  0 <= k -> 0 <= b < 2 ^ k -> Z.land (Z.shiftl a k) b = 0.
Proof.
  intros Hk Hb. apply Z.bits_inj'. intros n Hn.
  rewrite Z.land_spec, Z.bits_0.
  destruct (Z.lt_ge_cases n k) as [Hlt|Hge].
  - by rewrite Z.shiftl_spec_low.
  - destruct (Z.eq_dec b 0) as [->|Hb0].
    + by rewrite Z.bits_0, andb_false_r.
    + rewrite (Z.bits_above_log2 b n), andb_false_r; [done|lia|].
      assert (Z.log2 b < k) by (apply Z.log2_lt_pow2; lia). lia.
Qed.

Lemma lor_shiftl_small (a b k : Z) :
  0 <= k -> 0 <= b < 2 ^ k -> Z.lor (Z.shiftl a k) b = a * 2 ^ k + b.
Proof.
  intros Hk Hb. rewrite <- Z.add_nocarry_lor by (by apply land_shiftl_small).
  by rewrite Z.shiftl_mul_pow2.
Qed.

Lemma land_63 (x : Z) : Z.land x 63 = x mod 64.
Proof. change 63 with (Z.ones 6). by rewrite Z.land_ones. Qed.

Lemma val24_value (a b c : Z) :
  0 <= a < 256 -> 0 <= b < 256 -> 0 <= c < 256 ->
  base64.val24 a b c = a * 65536 + b * 256 + c.
Proof.
  intros Ha Hb Hc. unfold base64.val24.
  rewrite (lor_shiftl_small a (Z.shiftl b 8) 16)
    by (rewrite ?Z.shiftl_mul_pow2 by lia; lia).
  rewrite (Z.shiftl_mul_pow2 b 8) by lia.
  replace (a * 2 ^ 16 + b * 2 ^ 8) with (Z.shiftl (a * 256 + b) 8)
    by (rewrite Z.shiftl_mul_pow2 by lia; lia).
  rewrite (lor_shiftl_small _ c 8) by lia. lia.
Qed.

(** Four six-bit values make the 24-bit value they were cut from. *)
Lemma sextets_value (v : Z) :
  0 <= v < 2 ^ 24 ->
  Z.lor (Z.lor (Z.lor (Z.shiftl (Z.land (Z.shiftr v 18) 63) 18)
                      (Z.shiftl (Z.land (Z.shiftr v 12) 63) 12))
               (Z.shiftl (Z.land (Z.shiftr v 6) 63) 6))
        (Z.land (Z.shiftr v 0) 63)
  = v.
Proof.
  intros Hv. rewrite !land_63, !Z.shiftr_div_pow2 by lia.
  change (2 ^ 0) with 1. rewrite Z.div_1_r.
  set (s0 := (v / 2 ^ 18) mod 64). set (s1 := (v / 2 ^ 12) mod 64).
  set (s2 := (v / 2 ^ 6) mod 64). set (s3 := v mod 64).
  assert (0 <= s0 < 64 /\ 0 <= s1 < 64 /\ 0 <= s2 < 64 /\ 0 <= s3 < 64)
    as (H0 & H1 & H2 & H3)
    by (subst s0 s1 s2 s3; repeat split; apply Z.mod_pos_bound; lia).
  rewrite (lor_shiftl_small s0 (Z.shiftl s1 12) 18)
    by (rewrite ?Z.shiftl_mul_pow2 by lia; lia).
  rewrite (Z.shiftl_mul_pow2 s1 12) by lia.
  replace (s0 * 2 ^ 18 + s1 * 2 ^ 12) with (Z.shiftl (s0 * 64 + s1) 12)
    by (rewrite Z.shiftl_mul_pow2 by lia; lia).
  rewrite (lor_shiftl_small _ (Z.shiftl s2 6) 12)
    by (rewrite ?Z.shiftl_mul_pow2 by lia; lia).
  rewrite (Z.shiftl_mul_pow2 s2 6) by lia.
  replace ((s0 * 64 + s1) * 2 ^ 12 + s2 * 2 ^ 6)
    with (Z.shiftl ((s0 * 64 + s1) * 64 + s2) 6)
    by (rewrite Z.shiftl_mul_pow2 by lia; lia).
  rewrite (lor_shiftl_small _ s3 6) by lia.
  subst s0 s1 s2 s3. change (2 ^ 6) with 64. change (2 ^ 12) with 4096.
  change (2 ^ 18) with 262144. change (2 ^ 24) with 16777216 in Hv.
  Z.div_mod_to_equations. lia.
Qed.

Lemma decodeMap_encode_at_nat (n : nat) :
  (n < 64)%nat ->
  base64.decodeMap (base64.encode_at (Z.of_nat n)) = Z.of_nat n.
Proof.
  intros Hn. do 64 (destruct n as [|n]; [reflexivity|]). lia.
Qed.

Lemma decodeMap_encode_at (i : Z) :
  0 <= i < 64 -> base64.decodeMap (base64.encode_at i) = i.
Proof.
  intros Hi. rewrite <- (Z2Nat.id i) by lia.
  apply decodeMap_encode_at_nat. lia.
Qed.

Lemma decodeMap_sextet (v sh : Z) :
  base64.decodeMap (base64.sextet v sh) = Z.land (Z.shiftr v sh) 63
  /\ 0 <= Z.land (Z.shiftr v sh) 63 < 64.
Proof.
  assert (H : 0 <= Z.land (Z.shiftr v sh) 63 < 64)
    by (rewrite land_63; apply Z.mod_pos_bound; lia).
  split; [|done]. unfold base64.sextet. by apply decodeMap_encode_at.
Qed.

(** One step of the decoder on an alphabet character. *)
Lemma decode_from_valid (j : nat) (dbuf : list Z) (c : ascii) (t : string)
  (v : Z) :
  base64.decodeMap c = v -> 0 <= v < 64 ->
  base64.decode_from j dbuf (String c t)
  = match j with
    | 3%nat =>
        let '(bs, e) := base64.decode_from 0 [] t in
        (base64.quantum_bytes (dbuf ++ [v]) 4 +:+ bs, e)
    | _ => base64.decode_from (S j) (dbuf ++ [v]) t
    end.
Proof.
  intros Hc Hv. cbn [base64.decode_from]. rewrite Hc.
  assert (E : (v =? 255) = false) by lia. rewrite E. reflexivity.
Qed.

Lemma byte_of_eq (x : Z) (c : ascii) : x mod 256 = byte_val c -> byte_of x = c.
Proof.
  intros H. rewrite <- (byte_of_byte_val c). unfold byte_of. rewrite H.
  pose proof (byte_val_bound c). by rewrite Z.mod_small.
Qed.

Lemma quantum_bytes_full (a b c : ascii) :
  let v := base64.val24 (byte_val a) (byte_val b) (byte_val c) in
  base64.quantum_bytes
    [Z.land (Z.shiftr v 18) 63; Z.land (Z.shiftr v 12) 63;
     Z.land (Z.shiftr v 6) 63; Z.land (Z.shiftr v 0) 63] 4
  = String a (String b (String c EmptyString)).
Proof.
  intros v. pose proof (byte_val_bound a). pose proof (byte_val_bound b).
  pose proof (byte_val_bound c).
  assert (Hv : v = byte_val a * 65536 + byte_val b * 256 + byte_val c)
    by (by apply val24_value).
  unfold base64.quantum_bytes. cbn [nth].
  rewrite !sextets_value by lia.
  rewrite !Z.shiftr_div_pow2 by lia.
  f_equal; [|f_equal; [|f_equal]]; apply byte_of_eq; rewrite Hv;
    change (2 ^ 16) with 65536; change (2 ^ 8) with 256;
    Z.div_mod_to_equations; lia.
Qed.

Lemma quantum_bytes_two (a b : ascii) :
  let v := Z.lor (Z.shiftl (byte_val a) 16) (Z.shiftl (byte_val b) 8) in
  base64.quantum_bytes
    [Z.land (Z.shiftr v 18) 63; Z.land (Z.shiftr v 12) 63;
     Z.land (Z.shiftr v 6) 63] 3
  = String a (String b EmptyString).
Proof.
  intros v. pose proof (byte_val_bound a). pose proof (byte_val_bound b).
  assert (Hv : v = byte_val a * 65536 + byte_val b * 256).
  { subst v. rewrite (lor_shiftl_small _ (Z.shiftl (byte_val b) 8) 16)
      by (rewrite ?Z.shiftl_mul_pow2 by lia; lia).
    rewrite Z.shiftl_mul_pow2 by lia. lia. }
  assert (Hz0 : Z.land (Z.shiftr v 0) 63 = 0).
  { rewrite land_63, Z.shiftr_div_pow2 by lia. rewrite Hv.
    change (2 ^ 0) with 1. Z.div_mod_to_equations. lia. }
  pose proof (sextets_value v ltac:(lia)) as Hs. rewrite Hz0 in Hs.
  unfold base64.quantum_bytes. cbn [nth]. rewrite !Hs.
  rewrite !Z.shiftr_div_pow2 by lia.
  f_equal; [|f_equal]; apply byte_of_eq; rewrite Hv;
    change (2 ^ 16) with 65536; change (2 ^ 8) with 256;
    Z.div_mod_to_equations; lia.
Qed.

Lemma quantum_bytes_one (a : ascii) :
  let v := Z.shiftl (byte_val a) 16 in
  base64.quantum_bytes
    [Z.land (Z.shiftr v 18) 63; Z.land (Z.shiftr v 12) 63] 2
  = String a EmptyString.
Proof.
  intros v. pose proof (byte_val_bound a).
  assert (Hv : v = byte_val a * 65536)
    by (subst v; rewrite Z.shiftl_mul_pow2 by lia; lia).
  assert (Hz6 : Z.shiftl (Z.land (Z.shiftr v 6) 63) 6 = 0).
  { rewrite land_63, Z.shiftr_div_pow2 by lia. rewrite Hv.
    replace ((byte_val a * 65536 / 2 ^ 6) mod 64) with 0; [done|].
    change (2 ^ 6) with 64. Z.div_mod_to_equations. lia. }
  assert (Hz0 : Z.land (Z.shiftr v 0) 63 = 0).
  { rewrite land_63, Z.shiftr_div_pow2 by lia. rewrite Hv.
    change (2 ^ 0) with 1. Z.div_mod_to_equations. lia. }
  pose proof (sextets_value v ltac:(lia)) as Hs. rewrite Hz0, Hz6 in Hs.
  unfold base64.quantum_bytes. cbn [nth].
  change (Z.shiftl 0 6) with 0. rewrite !Hs.
  rewrite !Z.shiftr_div_pow2 by lia.
  f_equal; apply byte_of_eq; rewrite Hv; change (2 ^ 16) with 65536;
    Z.div_mod_to_equations; lia.
Qed.

Lemma string_ind_triples (P : string -> Prop) :
  P EmptyString ->
  (forall a, P (String a EmptyString)) ->
  (forall a b, P (String a (String b EmptyString))) ->
  (forall a b c t, P t -> P (String a (String b (String c t)))) ->
  forall s, P s.
Proof.
  intros H0 H1 H2 H3 s.
  assert (H : P s /\ (forall a, P (String a s))
              /\ (forall a b, P (String a (String b s)))).
  { induction s as [|c s (IH0 & IH1 & IH2)]; [by repeat split|].
    split; [apply IH1|]. split; [intros a; apply IH2|].
    intros a b. by apply H3. }
  apply H.
Qed.

(** [DecodeString(EncodeToString(x))] is [x], without error. *)
Theorem base64_roundtrip (x : string) :
  base64.DecodeString (base64.EncodeToString x) = (x, false).
Proof.
  unfold base64.DecodeString.
  induction x as [|a|a b|a b c t IH] using string_ind_triples.
  - reflexivity.
  - cbn [base64.EncodeToString].
    set (v := Z.shiftl (byte_val a) 16).
    destruct (decodeMap_sextet v 18) as [E18 B18].
    destruct (decodeMap_sextet v 12) as [E12 B12].
    rewrite (decode_from_valid _ _ _ _ _ E18 B18).
    rewrite (decode_from_valid _ _ _ _ _ E12 B12).
    cbn -[base64.quantum_bytes Z.land Z.shiftr Z.shiftl Z.lor].
    subst v. by rewrite (quantum_bytes_one a).
  - cbn [base64.EncodeToString].
    set (v := Z.lor (Z.shiftl (byte_val a) 16) (Z.shiftl (byte_val b) 8)).
    destruct (decodeMap_sextet v 18) as [E18 B18].
    destruct (decodeMap_sextet v 12) as [E12 B12].
    destruct (decodeMap_sextet v 6) as [E6 B6].
    rewrite (decode_from_valid _ _ _ _ _ E18 B18).
    rewrite (decode_from_valid _ _ _ _ _ E12 B12).
    rewrite (decode_from_valid _ _ _ _ _ E6 B6).
    cbn -[base64.quantum_bytes Z.land Z.shiftr Z.shiftl Z.lor].
    subst v. by rewrite (quantum_bytes_two a b).
  - cbn [base64.EncodeToString].
    set (v := base64.val24 (byte_val a) (byte_val b) (byte_val c)).
    destruct (decodeMap_sextet v 18) as [E18 B18].
    destruct (decodeMap_sextet v 12) as [E12 B12].
    destruct (decodeMap_sextet v 6) as [E6 B6].
    destruct (decodeMap_sextet v 0) as [E0 B0].
    rewrite (decode_from_valid _ _ _ _ _ E18 B18).
    rewrite (decode_from_valid _ _ _ _ _ E12 B12).
    rewrite (decode_from_valid _ _ _ _ _ E6 B6).
    rewrite (decode_from_valid _ _ _ _ _ E0 B0).
    rewrite IH. cbn [app]. subst v. by rewrite (quantum_bytes_full a b c).
Qed.

(** ** Header parameters *)

Lemma SplitN2_no_sep (sep : ascii) (s : string) :
  ContainsByte sep s = false -> SplitN2 s sep = [s].
Proof.
  induction s as [|c s IH]; [done|].
  intros [Hc Hs]%orb_false_iff. cbn [SplitN2]. by rewrite Hc, (IH Hs).
Qed.

Lemma SplitN2_first_sep (sep : ascii) (k v : string) :
  ContainsByte sep k = false ->
  SplitN2 (k +:+ String sep v) sep = [k; v].
Proof.
  induction k as [|c k IH].
  - intros _. rewrite append_empty_l. cbn [SplitN2]. by rewrite Ascii.eqb_refl.
  - intros [Hc Hk]%orb_false_iff. rewrite append_cons. cbn [SplitN2].
    by rewrite Hc, (IH Hk).
Qed.

(** [K:V] is split at the first colon; an entry without a colon is not a
    pair. *)
Lemma headerPair_colon (k v : string) :
  ContainsByte ":" k = false -> headerPair (k +:+ ":" +:+ v) = Some (k, v).
Proof.
  intros Hk. unfold headerPair.
  change (":" +:+ v) with (String ":" v). by rewrite SplitN2_first_sep.
Qed.

Lemma headerPair_malformed (s : string) :
  ContainsByte ":" s = false -> headerPair s = None.
Proof. intros H. unfold headerPair. by rewrite SplitN2_no_sep. Qed.

Lemma values_Header_Add (hm : Header) (k v ck : string) :
  http.values (Header_Add hm k v) ck
  = http.values hm ck
    ++ (if decide (CanonicalMIMEHeaderKey k = ck) then [v] else []).
Proof.
  unfold http.values, Header_Add. case_decide as Hk.
  - subst ck. by rewrite lookup_insert_eq.
  - rewrite lookup_insert_ne by done. by rewrite app_nil_r.
Qed.

(** The values of a canonical key after the header loop: what was there,
    then the values of the well-formed entries with that key, in order. *)
Lemma values_addHeaderMap (headers : list string) (hm : Header) (ck : string) :
  http.values (addHeaderMap headers hm) ck
  = http.values hm ck
    ++ (snd <$> filter (fun kv => CanonicalMIMEHeaderKey (fst kv) = ck)
                  (omap headerPair headers)).
Proof.
  unfold addHeaderMap. generalize (omap headerPair headers) as pairs.
  intros pairs. revert hm.
  induction pairs as [|[k v] pairs IH]; intros hm; cbn [fold_left].
  - by rewrite filter_nil, app_nil_r.
  - rewrite IH, values_Header_Add. cbn [fst snd].
    rewrite filter_cons. cbn [fst]. case_decide; cbn.
    + by rewrite <- app_assoc.
    + by rewrite app_nil_r.
Qed.

Lemma addHeaderMap_keeps (headers : list string) (hm : Header) (ck : string) :
  is_Some (hm !! ck) -> is_Some (addHeaderMap headers hm !! ck).
Proof.
  unfold addHeaderMap. generalize (omap headerPair headers) as pairs.
  intros pairs. revert hm.
  induction pairs as [|[k v] pairs IH]; intros hm H; cbn [fold_left]; [done|].
  apply IH. unfold Header_Add. cbn [fst snd].
  destruct (decide (CanonicalMIMEHeaderKey k = ck)) as [->|Hne].
  - rewrite lookup_insert_eq. eauto.
  - by rewrite lookup_insert_ne.
Qed.

(** ** C2, C3: the dynamic response engine *)

(** Simplification that leaves maps, headers and parsers folded. *)
Ltac ecbn :=
  cbn -[lookup insert Header_Set Header_Get headerCalls addHeaderMap
        time.Seconds Z.max bool_decide base64.DecodeString strconv.Atoi
        checkWriteHeaderCode].

(** Unfolds the steps after the header loop and splits on which parameters
    are present. *)
Ltac engine_cases req :=
  unfold dynamicDelay, dynamicStatus, dynamicBody, dynamicB64Body,
    bind, when, Sleep, w_WriteHeader, w_Write, rw_WriteHeader,
    rw_implicit_header, afterHeaders;
  destruct (String.eqb (Values_Get (Query req) "delay") EmptyString) eqn:Hdelay,
    (String.eqb (Values_Get (Query req) "status") EmptyString) eqn:Hstatus,
    (String.eqb (Values_Get (Query req) "body") EmptyString) eqn:Hbody,
    (String.eqb (Values_Get (Query req) "b64_body") EmptyString) eqn:Hb64;
  ecbn.

(** Splits on the remaining tests of the recorder that the goal holds. *)
Ltac recorder_cases :=
  repeat match goal with
    | |- context [checkWriteHeaderCode ?c] =>
        destruct (checkWriteHeaderCode c) eqn:?; ecbn
    | |- context [bool_decide ?P] => destruct (bool_decide P) eqn:?; ecbn
    | |- context [String.eqb (Header_Get ?h ?k) ?x] =>
        destruct (String.eqb (Header_Get h k) x) eqn:?; ecbn
    end.

Section EngineClaims.

Context {S : Type}.
Variable DetectContentType : string -> string.

Local Abbreviation engine := (writeResponseFromDynamicRequest DetectContentType).

Lemma set_W_set_W (a b : ResponseRecorder) (st : State S) :
  set_W a (set_W b st) = set_W a st.
Proof. reflexivity. Qed.

Lemma set_W_id (st : State S) : set_W (W st) st = st.
Proof. by destruct st. Qed.

Lemma afterHeaders_nil (rw : ResponseRecorder) : afterHeaders [] rw = rw.
Proof.
  destruct rw. unfold afterHeaders, headerCalls, addHeaderMap. cbn.
  by rewrite app_nil_r.
Qed.

Lemma addDynamicHeader_headerPair (x : string) :
  addDynamicHeader (S := S) x
  = match headerPair x with
    | Some (k, v) => w_Header_Add k v
    | None => ret tt
    end.
Proof.
  unfold addDynamicHeader, headerPair.
  by destruct (SplitN2 x ":") as [|k [|v [|? ?]]].
Qed.

Lemma forM_addDynamicHeader (headers : list string) (st : State S) :
  forM headers addDynamicHeader st
  = (Ok tt, set_W (afterHeaders headers (W st)) st).
Proof.
  revert st. induction headers as [|x headers IH]; intros st.
  - cbn. by rewrite afterHeaders_nil, set_W_id.
  - cbn [forM]. unfold bind.
    assert (Hx : addDynamicHeader x st
                 = (Ok tt, set_W (afterHeaders [x] (W st)) st)).
    { rewrite addDynamicHeader_headerPair.
      unfold afterHeaders, headerCalls, addHeaderMap. cbn.
      destruct (headerPair x) as [[k v]|]; cbn; [reflexivity|].
      rewrite app_nil_r. by destruct st as [[] ? ? ? ?]. }
    rewrite Hx, IH. f_equal. rewrite set_W_set_W. f_equal.
    unfold afterHeaders, headerCalls, addHeaderMap. cbn.
    destruct (headerPair x) as [[k v]|]; cbn.
    + by rewrite <- app_assoc.
    + by rewrite app_nil_r.
Qed.


Lemma engine_no_prefix (req : Request) (st : State S) :
  HasPrefixI (Path req) "/b64_body:" = false ->
  engine req st
  = bind (dynamicDelay (Query req)) (fun _ =>
    bind (dynamicStatus (Query req)) (fun _ =>
    bind (dynamicBody DetectContentType (Query req)) (fun _ =>
    dynamicB64Body DetectContentType (Query req))))
      (set_W (afterHeaders (http.values (Query req) "header") (W st)) st).
Proof.
  intros Hp. unfold writeResponseFromDynamicRequest, dynamicPathBody.
  rewrite Hp. unfold bind at 1. cbn [ret].
  unfold bind at 1. unfold dynamicHeaders.
  rewrite forM_addDynamicHeader. reflexivity.
Qed.

Lemma engine_status (req : Request) (st : State S) (code : Z) :
  HasPrefixI (Path req) "/b64_body:" = false ->
  Values_Get (Query req) "status" <> EmptyString ->
  fst (strconv.Atoi (Values_Get (Query req) "status")) = code ->
  checkWriteHeaderCode code = true ->
  fst (serve (engine req) st) = Ok tt
  /\ StatusCode (reply (engine req) st) = code.
Proof.
  intros Hp Hne Hcode Hok. unfold reply, serve.
  rewrite (engine_no_prefix _ _ Hp).
  unfold dynamicDelay, dynamicStatus, dynamicBody, dynamicB64Body.
  apply String.eqb_neq in Hne. rewrite Hne, Hcode.
  unfold bind, when, Sleep, w_WriteHeader, w_Write, rw_WriteHeader,
    rw_implicit_header.
  assert (Hz : (code =? 0) = false)
    by (unfold checkWriteHeaderCode in Hok; lia).
  destruct (String.eqb (Values_Get (Query req) "delay") EmptyString),
    (String.eqb (Values_Get (Query req) "body") EmptyString),
    (String.eqb (Values_Get (Query req) "b64_body") EmptyString);
    cbn -[lookup insert Header_Set Header_Get checkWriteHeaderCode
          bool_decide];
    rewrite Hok;
    cbn -[lookup insert Header_Set Header_Get checkWriteHeaderCode
          bool_decide];
    rewrite ?Hz; done.
Qed.


Lemma DecodeString_empty : base64.DecodeString EmptyString = (EmptyString, false).
Proof. reflexivity. Qed.

(** With an accepted status the engine returns and the body is the [body]
    parameter followed by the decoded [b64_body] parameter. *)
Lemma engine_body (req : Request) (st : State S) :
  HasPrefixI (Path req) "/b64_body:" = false ->
  statusAccepted (Query req) = true ->
  fst (serve (engine req) st) = Ok tt
  /\ RespBody (reply (engine req) st)
     = Values_Get (Query req) "body"
       +:+ fst (base64.DecodeString (Values_Get (Query req) "b64_body")).
Proof.
  intros Hp Hok. unfold reply, serve. rewrite (engine_no_prefix _ _ Hp).
  unfold statusAccepted in Hok.
  engine_cases req; cbn [negb orb] in Hok; rewrite ?Hok; ecbn; recorder_cases;
    repeat match goal with
      | H : String.eqb ?x EmptyString = true |- _ =>
          apply String.eqb_eq in H; rewrite ?H
      end;
    rewrite ?DecodeString_empty; ecbn; rewrite ?append_empty_r; done.
Qed.

Lemma Header_Set_content_type_extends (hm : Header) (x k : string)
  (vs : list string) :
  bool_decide (is_Some (hm !! "Content-Type")) = false ->
  hm !! k = Some vs ->
  Header_Set hm "Content-Type" x !! k = Some vs.
Proof.
  intros Hno Hk. apply bool_decide_eq_false in Hno.
  unfold Header_Set.
  change (CanonicalMIMEHeaderKey "Content-Type") with "Content-Type".
  destruct (decide ("Content-Type" = k)) as [<-|Hne].
  - destruct Hno. eauto.
  - by rewrite lookup_insert_ne.
Qed.

(** The headers of the reply hold every header the loop added. *)
Lemma engine_headers (req : Request) (st : State S) (k : string)
  (vs : list string) :
  HasPrefixI (Path req) "/b64_body:" = false ->
  statusAccepted (Query req) = true ->
  addHeaderMap (http.values (Query req) "header") ∅ !! k = Some vs ->
  RespHeader (reply (engine req) st) !! k = Some vs.
Proof.
  intros Hp Hok Hk. unfold reply, serve. rewrite (engine_no_prefix _ _ Hp).
  unfold statusAccepted in Hok.
  engine_cases req; cbn [negb orb] in Hok; rewrite ?Hok; ecbn; recorder_cases;
    first [done | by apply Header_Set_content_type_extends].
Qed.

(** The clock moves by the [delay] parameter only. *)
Lemma engine_clock (req : Request) (st : State S) :
  HasPrefixI (Path req) "/b64_body:" = false ->
  Clock (snd (serve (engine req) st))
  = Clock st
    + (if String.eqb (Values_Get (Query req) "delay") EmptyString then 0
       else Z.max 0 (time.Seconds
                       (fst (strconv.Atoi (Values_Get (Query req) "delay"))))).
Proof.
  intros Hp. unfold serve. rewrite (engine_no_prefix _ _ Hp).
  engine_cases req; recorder_cases; lia.
Qed.

(** The calls of the engine on its writer: the header loop, then the
    status, then the two body parameters; a rejected status code ends the
    run. *)
Lemma engine_calls (req : Request) (st : State S) :
  HasPrefixI (Path req) "/b64_body:" = false ->
  let q := Query req in
  let status := Values_Get q "status" in
  let body := Values_Get q "body" in
  let b64 := Values_Get q "b64_body" in
  let code := fst (strconv.Atoi status) in
  calls (W (snd (serve (engine req) st)))
  = headerCalls (http.values q "header")
    ++ (if String.eqb status EmptyString then [] else [CallWriteHeader code])
    ++ (if negb (String.eqb status EmptyString)
           && negb (checkWriteHeaderCode code)
        then []
        else (if String.eqb body EmptyString then [] else [CallWrite body])
             ++ (if String.eqb b64 EmptyString then []
                 else [CallWrite (fst (base64.DecodeString b64))])).
Proof.
  intros Hp. cbv zeta. unfold serve. rewrite (engine_no_prefix _ _ Hp).
  engine_cases req; recorder_cases;
    rewrite <- ?app_assoc, ?app_nil_r; done.
Qed.


Lemma Atoi_error_value (s : string) (e : strconv.NumError) :
  snd (strconv.Atoi s) = Some e ->
  fst (strconv.Atoi s) = 0
  \/ fst (strconv.Atoi s) = 2 ^ 63 - 1
  \/ fst (strconv.Atoi s) = - 2 ^ 63.
Proof.
  unfold strconv.Atoi. destruct s as [|c t]; [by left|]. cbv zeta.
  generalize (if Ascii.eqb c "-" || Ascii.eqb c "+" then t else String c t).
  intros body. destruct body as [|d body]; [by left|].
  destruct (strconv.digits 0 _) as [n|]; [|by left].
  destruct (Ascii.eqb c "-").
  - destruct (n <=? 2 ^ 63); [discriminate|]. by right; right.
  - destruct (n <? 2 ^ 63); [discriminate|]. by right; left.
Qed.

(** A [delay] that does not parse makes the engine sleep for no time. *)
Lemma Atoi_error_no_sleep (s : string) (e : strconv.NumError) :
  snd (strconv.Atoi s) = Some e ->
  Z.max 0 (time.Seconds (fst (strconv.Atoi s))) = 0.
Proof.
  intros H. by destruct (Atoi_error_value s e H) as [-> | [-> | ->]].
Qed.

Lemma headerPair_Some_colon (e : string) (kv : string * string) :
  headerPair e = Some kv -> ContainsByte ":" e = true.
Proof.
  destruct (ContainsByte ":" e) eqn:E; [done|].
  by rewrite (headerPair_malformed _ E).
Qed.

(** Entries without a colon do not contribute to the header loop. *)
Lemma omap_headerPair_filter (headers : list string) :
  omap headerPair (filter (fun e => ContainsByte ":" e = true) headers)
  = omap headerPair headers.
Proof.
  induction headers as [|e headers IH]; [done|].
  rewrite filter_cons. case_decide as He; cbn; rewrite IH; [done|].
  apply not_true_is_false in He. by rewrite (headerPair_malformed _ He).
Qed.

Lemma filter_isHeaderCall_headerCalls (headers : list string) :
  List.filter isHeaderCall (headerCalls headers) = headerCalls headers.
Proof.
  unfold headerCalls. induction (omap headerPair headers) as [|kv l IH];
    [done|]. cbn. by rewrite IH.
Qed.

(** The parameters of the dynamic response engine, for a request whose
    path does not begin with [/b64_body:] in any case of the letters: the
    query [status=404] gives the status 404; [body=X] gives the body [X];
    [b64_body=base64(X)] gives the body [X]; [header=K:V] gives the header
    [K] the value [V], entries without a colon add no header; and a [delay]
    that does not parse as an integer lets no time pass. *)
Theorem dynamic_parameters (req : Request) (st : State S) :
  HasPrefixI (Path req) "/b64_body:" = false ->
  let q := Query req in
  let out := serve (engine req) st in
  let r := reply (engine req) st in
  (Values_Get q "status" = "404" -> fst out = Ok tt /\ StatusCode r = 404)
  /\ (statusAccepted q = true ->
      (forall X, Values_Get q "body" = X ->
                 Values_Get q "b64_body" = EmptyString ->
                 fst out = Ok tt /\ RespBody r = X)
      /\ (forall X, Values_Get q "b64_body" = base64.EncodeToString X ->
                    Values_Get q "body" = EmptyString ->
                    fst out = Ok tt /\ RespBody r = X)
      /\ (forall K V, ContainsByte ":" K = false ->
                      K +:+ ":" +:+ V ∈ http.values q "header" ->
                      V ∈ http.values (RespHeader r) (CanonicalMIMEHeaderKey K))
      /\ (forall K V rest, ContainsByte ":" K = false ->
                           http.values q "header" = (K +:+ ":" +:+ V) :: rest ->
                           Header_Get (RespHeader r) K = V))
  /\ List.filter isHeaderCall (calls (W (snd out)))
     = headerCalls (filter (fun e => ContainsByte ":" e = true)
                      (http.values q "header"))
  /\ (forall e, snd (strconv.Atoi (Values_Get q "delay")) = Some e ->
                Clock (snd out) = Clock st).
Proof.
  intros Hp q out r. subst q out r. split; [|split; [|split]].
  - intros H404.
    apply (engine_status req st 404 Hp); [by rewrite H404|by rewrite H404|done].
  - intros Hok. destruct (engine_body req st Hp Hok) as [Hrun Hbody].
    split; [|split; [|split]].
    + intros X HX Hb. split; [done|].
      by rewrite Hbody, HX, Hb, DecodeString_empty, append_empty_r.
    + intros X HX Hb. split; [done|].
      by rewrite Hbody, HX, Hb, base64_roundtrip.
    + intros K V HK Hin.
      set (ck := CanonicalMIMEHeaderKey K).
      pose proof (values_addHeaderMap (http.values (Query req) "header") ∅ ck)
        as Hv.
      assert (HV : V ∈ http.values
                     (addHeaderMap (http.values (Query req) "header") ∅) ck).
      { rewrite Hv. apply elem_of_app. right.
        apply (list_elem_of_fmap_2' snd _ (K, V)); [|done].
        apply list_elem_of_filter. split; [done|].
        apply list_elem_of_omap. exists (K +:+ ":" +:+ V).
        split; [done|]. by apply headerPair_colon. }
      unfold http.values in HV |- *.
      destruct (addHeaderMap _ ∅ !! ck) as [vs|] eqn:E;
        [|by apply elem_of_nil in HV].
      by rewrite (engine_headers req st ck vs Hp Hok E).
    + intros K V rest HK Hhs.
      set (ck := CanonicalMIMEHeaderKey K).
      pose proof (values_addHeaderMap (http.values (Query req) "header") ∅ ck)
        as Hv.
      assert (Hpairs : omap headerPair (http.values (Query req) "header")
                       = (K, V) :: omap headerPair rest)
        by (rewrite Hhs; cbn [omap list_omap];
            by rewrite (headerPair_colon K V HK)).
      rewrite Hpairs, filter_cons in Hv.
      cbn [fst] in Hv. rewrite decide_True in Hv by done.
      unfold http.values in Hv. rewrite lookup_empty in Hv. cbn in Hv.
      destruct (addHeaderMap _ ∅ !! ck) as [vs|] eqn:E; [|discriminate].
      unfold Header_Get, http.values. fold ck.
      rewrite (engine_headers req st ck vs Hp Hok E). cbn in Hv |- *.
      by rewrite Hv.
  - rewrite (engine_calls req st Hp).
    rewrite !List.filter_app, filter_isHeaderCall_headerCalls.
    unfold headerCalls at 2. rewrite omap_headerPair_filter.
    fold (headerCalls (http.values (Query req) "header")).
    repeat match goal with
      | |- context [if ?b then _ else _] => destruct b; cbn
      end; by rewrite ?app_nil_r.
  - intros e He. rewrite (engine_clock req st Hp).
    destruct (String.eqb _ _); [lia|].
    rewrite (Atoi_error_no_sleep _ e He). lia.
Qed.

End EngineClaims.

Lemma dynamic_parameters_witness :
  let run q := reply (writeResponseFromDynamicRequest sniffPlain (dynamicGET q))
                 (initialState tt 0) in
  StatusCode (run {[ "status" := ["404"] ]}) = 404
  /\ RespBody (run {[ "body" := ["this is example body"] ]})
     = "this is example body"
  /\ RespBody (run {[ "b64_body" := ["dGhpcyBpcyBleGFtcGxlIGJvZHk="] ]})
     = "this is example body"
  /\ Header_Get (RespHeader (run {[ "header" := ["Key:value"; "Test:Another"] ]}))
       "Key" = "value"
  /\ "Another" ∈ http.values
       (RespHeader (run {[ "header" := ["Key:value"; "Test:Another"] ]})) "Test"
  /\ Clock (snd (serve (writeResponseFromDynamicRequest sniffPlain
                          (dynamicGET {[ "delay" := ["soon"] ]}))
                   (initialState tt 0))) = 0.
Proof.
  cbv zeta.
  pose proof (fun q => dynamic_parameters sniffPlain (dynamicGET q)
                         (initialState tt 0) eq_refl) as H.
  cbv zeta in H.
  split; [|split; [|split; [|split; [|split]]]].
  - exact (proj2 (proj1 (H {[ "status" := ["404"] ]}) eq_refl)).
  - exact (proj2 (proj1 (proj1 (proj2 (H {[ "body" := ["this is example body"] ]}))
                           eq_refl) _ eq_refl eq_refl)).
  - exact (proj2 (proj1 (proj2 (proj1 (proj2
             (H {[ "b64_body" := ["dGhpcyBpcyBleGFtcGxlIGJvZHk="] ]}))
             eq_refl)) "this is example body" eq_refl eq_refl)).
  - exact (proj2 (proj2 (proj2 (proj1 (proj2
             (H {[ "header" := ["Key:value"; "Test:Another"] ]})) eq_refl)))
             "Key" "value" ["Test:Another"] eq_refl eq_refl).
  - refine (proj1 (proj2 (proj2 (proj1 (proj2
             (H {[ "header" := ["Key:value"; "Test:Another"] ]})) eq_refl)))
             "Test" "Another" eq_refl _).
    apply list_elem_of_In. right. left. reflexivity.
  - exact (proj2 (proj2 (proj2 (H {[ "delay" := ["soon"] ]})))
             strconv.ErrSyntax eq_refl).
Defined.

(** C3 does not hold on the path prefix.  On
    [GET /b64_body:aGk=/?status=404&body=X&header=K:V] the engine writes the
    decoded path segment first; the [header] and [status] parameters are
    applied after it, when the header of the response is written already,
    and are lost.  The reply has the status 200, not 404; it has no header
    [K]; and its body is [hiX], not [X]. *)
Lemma dynamic_parameters_lost_after_path_body :
  let out := serve (writeResponseFromDynamicRequest sniffPlain prefixedQuery)
               (initialState tt 0) in
  let r := Result (W (snd out)) in
  HasPrefixI (Path prefixedQuery) "/b64_body:" = true
  /\ Values_Get (Query prefixedQuery) "status" = "404"
  /\ Values_Get (Query prefixedQuery) "body" = "X"
  /\ http.values (Query prefixedQuery) "header" = ["K:V"]
  /\ fst out = Ok tt
  /\ StatusCode r = 200
  /\ RespBody r = "hiX"
  /\ http.values (RespHeader r) "K" = []
  /\ Header_Get (RespHeader r) "K" = EmptyString.
Proof. vm_compute. repeat split. Qed.

(** ** C2: the order of the writes *)

Lemma nondecreasing_zeros (zs l : list nat) :
  Forall (fun z => z = 0%nat) zs ->
  nondecreasing (zs ++ l) = nondecreasing l.
Proof.
  induction 1 as [|z zs -> _ IH]; [done|].
  cbn [app]. destruct (zs ++ l) as [|x t] eqn:E.
  - destruct zs; [|done]. cbn in E. by subst l.
  - cbn [nondecreasing] in IH |- *. by rewrite <- IH.
Qed.

Lemma headerCalls_rank (headers : list string) :
  Forall (fun z => z = 0%nat) (rank <$> headerCalls headers).
Proof.
  unfold headerCalls. induction (omap headerPair headers) as [|kv l IH];
    cbn; by constructor.
Qed.

Section Order.

Context {S : Type}.
Variable DetectContentType : string -> string.

Local Abbreviation engine := (writeResponseFromDynamicRequest DetectContentType).

Lemma extends_ret {A} (a : A) : extends_calls (ret (S := S) a).
Proof. intros st. done. Qed.

Lemma extends_bind {A B} (m : Handler S A) (k : A -> Handler S B) :
  extends_calls m -> (forall a, extends_calls (k a)) ->
  extends_calls (bind m k).
Proof.
  intros Hm Hk st. unfold bind. specialize (Hm st).
  destruct (m st) as [[a|p] st1]; cbn in *; [|done].
  etrans; [exact Hm|apply Hk].
Qed.

Lemma extends_when (b : bool) (m : Handler S unit) :
  extends_calls m -> extends_calls (when b m).
Proof. intros Hm. destruct b; [done|apply extends_ret]. Qed.

Lemma extends_forM {A} (l : list A) (f : A -> Handler S unit) :
  (forall x, extends_calls (f x)) -> extends_calls (forM l f).
Proof.
  intros Hf. induction l as [|x l IH]; cbn [forM]; [apply extends_ret|].
  apply extends_bind; [apply Hf|done].
Qed.

Lemma extends_Sleep (d : Z) : extends_calls (Sleep (S := S) d).
Proof. intros st. done. Qed.

Lemma extends_w_Header_Add (k v : string) :
  extends_calls (w_Header_Add (S := S) k v).
Proof. intros st. cbn. by apply prefix_app_r. Qed.

Lemma extends_w_WriteHeader (code : Z) :
  extends_calls (w_WriteHeader (S := S) code).
Proof.
  intros st. unfold w_WriteHeader, rw_WriteHeader. cbn.
  destruct (wroteHeader (W st)); [by apply prefix_app_r|].
  destruct (checkWriteHeaderCode code); cbn; by apply prefix_app_r.
Qed.

Lemma extends_w_Write (data : string) :
  extends_calls (w_Write (S := S) DetectContentType data).
Proof.
  intros st. unfold w_Write, rw_implicit_header, rw_WriteHeader.
  cbn -[lookup Header_Set Header_Get bool_decide].
  repeat match goal with
    | |- context [if ?b then _ else _] =>
        destruct b; cbn -[lookup Header_Set Header_Get bool_decide]
    end; by apply prefix_app_r.
Qed.

Lemma extends_addDynamicHeader (x : string) :
  extends_calls (addDynamicHeader (S := S) x).
Proof.
  rewrite addDynamicHeader_headerPair.
  destruct (headerPair x) as [[k v]|];
    [apply extends_w_Header_Add|apply extends_ret].
Qed.

(** The steps of the engine after the path prefix only append calls. *)
Lemma extends_query_steps (q : Header) :
  extends_calls (S := S)
    (bind (dynamicHeaders q) (fun _ =>
     bind (dynamicDelay q) (fun _ =>
     bind (dynamicStatus q) (fun _ =>
     bind (dynamicBody DetectContentType q) (fun _ =>
     dynamicB64Body DetectContentType q))))).
Proof.
  repeat (apply extends_bind; [|intros _]).
  - apply extends_forM, extends_addDynamicHeader.
  - apply extends_when, extends_Sleep.
  - apply extends_when, extends_w_WriteHeader.
  - apply extends_when, extends_w_Write.
  - apply extends_when, extends_w_Write.
Qed.

(** The order of the writes without the path prefix.  On a path that does
    not begin with [/b64_body:], in any case of the letters, the engine
    writes the headers, then the status, then the body. *)
Theorem engine_write_order (req : Request) (st : State S) :
  HasPrefixI (Path req) "/b64_body:" = false ->
  headers_status_body (calls (W (snd (serve (engine req) st)))) = true.
Proof.
  intros Hp. rewrite (engine_calls DetectContentType req st Hp).
  unfold headers_status_body. rewrite fmap_app.
  rewrite nondecreasing_zeros by apply headerCalls_rank.
  repeat match goal with
    | |- context [if ?b then _ else _] => destruct b; cbn
    end; done.
Qed.

(** With the path prefix (and a later ['/']) the first call on the writer
    is the write of the decoded segment. *)
Lemma engine_prefix_writes_first (req : Request) (st : State S)
  (segment : string) :
  HasPrefixI (Path req) "/b64_body:" = true ->
  slice (Path req) (Index (Path req) "/b64_body:" + 10)
        (LastIndex (Path req) "/") = Some segment ->
  exists rest,
    calls (W (snd (serve (engine req) st)))
    = CallWrite (fst (base64.DecodeString segment)) :: rest.
Proof.
  intros Hp Hs. unfold serve, writeResponseFromDynamicRequest.
  unfold bind at 1. unfold dynamicPathBody. rewrite Hp.
  unfold bind at 1. unfold lift. rewrite Hs. cbn [of_option].
  set (d := fst (base64.DecodeString segment)).
  destruct (w_Write DetectContentType d (set_W NewRecorder st))
    as [[[]|p] st1] eqn:E.
  - assert (Hc : calls (W st1) = [CallWrite d]).
    { revert E. unfold w_Write, rw_implicit_header, rw_WriteHeader.
      cbn -[lookup Header_Set Header_Get bool_decide].
      destruct (_ && _); cbn -[lookup Header_Set Header_Get bool_decide];
        by intros [= <-]. }
    destruct (extends_query_steps (Query req) st1) as [rest Hrest].
    exists rest. by rewrite Hrest, Hc.
  - revert E. unfold w_Write, rw_implicit_header, rw_WriteHeader.
    cbn -[lookup Header_Set Header_Get bool_decide].
    by destruct (_ && _).
Qed.

End Order.

Lemma engine_write_order_witness :
  headers_status_body
    (calls (W (snd (serve (writeResponseFromDynamicRequest sniffPlain
                             (dynamicGET {[ "status" := ["500"];
                                            "body" := ["err"];
                                            "header" := ["K:V"] ]}))
                      (initialState tt 0))))) = true.
Proof.
  exact (engine_write_order sniffPlain
           (dynamicGET {[ "status" := ["500"]; "body" := ["err"];
                          "header" := ["K:V"] ]})
           (initialState tt 0) eq_refl).
Defined.

(** C2 does not hold on the path prefix.  On
    [GET /b64_body:aGk=/?status=404&header=K:V] the engine writes the body
    first; [Header().Add] and [WriteHeader(404)] are called after it, when
    they can act no more, and the reply has the status 200 without the
    header.  The headers are not written before the status, nor the status
    before the body. *)
Lemma engine_writes_body_first :
  let out := serve (writeResponseFromDynamicRequest sniffPlain prefixedGET)
               (initialState tt 0) in
  fst out = Ok tt
  /\ calls (W (snd out))
     = [CallWrite "hi"; CallHeaderAdd "K" "V"; CallWriteHeader 404]
  /\ headers_status_body (calls (W (snd out))) = false
  /\ StatusCode (Result (W (snd out))) = 200
  /\ http.values (RespHeader (Result (W (snd out)))) "K" = []
  /\ RespBody (Result (W (snd out))) = "hi".
Proof. vm_compute. repeat split. Qed.

(** ** C7: polling *)

Section Poll.

Context {S : Type} `{!Storage S}.
Variable DetectContentType : string -> string.
Variable jsonEncode : JSONValue -> string.

Local Abbreviation pollHandler' := (pollHandler DetectContentType jsonEncode).

Lemma drainDomains_spec (domains : list string) (acc : list string)
  (st : State S) :
  drainDomains domains acc st
  = (Ok (fst (drainStore domains acc (Store st))),
     set_Store (snd (drainStore domains acc (Store st))) st).
Proof.
  revert acc st. induction domains as [|d ds IH]; intros acc st.
  - cbn. by destruct st.
  - cbn [drainDomains drainStore]. unfold bind, storage_GetInteractionsWithId.
    destruct (GetInteractionsWithId d (Store st)) as [[r e] s'] eqn:E.
    rewrite IH. cbn. reflexivity.
Qed.

Lemma bind_ok {A B} (m : Handler S A) (k : A -> Handler S B)
  (st st' : State S) (a : A) :
  m st = (Ok a, st') -> bind m k st = k a st'.
Proof. intros H. unfold bind. by rewrite H. Qed.

(** The first write on a fresh writer gives the status 200 and the data as
    the body. *)
Lemma w_Write_fresh (data : string) (st : State S) :
  W st = NewRecorder ->
  exists rw,
    w_Write DetectContentType data st = (Ok tt, set_W rw st)
    /\ Code rw = 200 /\ Body rw = data.
Proof.
  intros HW. unfold w_Write, rw_implicit_header, rw_WriteHeader. rewrite HW.
  cbn -[lookup Header_Set Header_Get bool_decide].
  destruct (_ && _); cbn -[lookup Header_Set Header_Get bool_decide];
    eexists; (split; [reflexivity|]); by cbn.
Qed.

(** C7.  [GET /poll] answers 400 without an [id], without a [secret], or
    when the storage refuses to drain; otherwise 200 with the object
    [{data, extra, aes_key, tlddata}], where [tlddata] is drained from the
    channels of the configured domains only in root-TLD mode, and [extra]
    from the channel of the operator token only when a token is
    configured. *)
Theorem poll_responses (h : HTTPServer S) (req : Request) (st : State S) :
  let ID := Values_Get (Query req) "id" in
  let secret := Values_Get (Query req) "secret" in
  let r := reply (pollHandler' h req) st in
  (ID = EmptyString -> StatusCode r = 400)
  /\ (secret = EmptyString -> StatusCode r = 400)
  /\ (ID <> EmptyString -> secret <> EmptyString ->
      forall data aesKey err s1,
        GetInteractions ID secret (Store st) = ((data, aesKey, err), s1) ->
        (forall e, err = Some e ->
           StatusCode r = 400
           /\ RespBody r
              = jsonEncode (JSONMap "error" ("could not get interactions: " +:+ e)))
        /\ (err = None ->
            let tld := if RootTLD (options h)
                       then drainStore (Domains (options h)) [] s1
                       else ([], s1) in
            let extra := if String.eqb (Token (options h)) EmptyString
                         then []
                         else fst (fst (GetInteractionsWithId
                                          (Token (options h)) (snd tld))) in
            StatusCode r = 200
            /\ RespBody r
               = jsonEncode (JSONPollResponse
                   {| Data := data; Extra := extra; AESKey := aesKey;
                      TLDData := fst tld |})
            /\ (RootTLD (options h) = false -> fst tld = [])
            /\ (Token (options h) = EmptyString -> extra = []))).
Proof.
  cbv zeta. unfold reply, serve, pollHandler.
  split; [|split].
  - intros ->. cbn [String.eqb]. unfold jsonError.
    by destruct (jsonBody_serve DetectContentType jsonEncode "error"
                   "no id specified for poll" StatusBadRequest st eq_refl)
      as (_ & ? & _).
  - intros ->. cbn [String.eqb]. unfold jsonError.
    destruct (String.eqb (Values_Get (Query req) "id") EmptyString).
    + by destruct (jsonBody_serve DetectContentType jsonEncode "error"
                   "no id specified for poll" StatusBadRequest st eq_refl)
      as (_ & ? & _).
    + by destruct (jsonBody_serve DetectContentType jsonEncode "error"
                   "no secret specified for poll" StatusBadRequest st eq_refl)
      as (_ & ? & _).
  - intros Hid Hsecret data aesKey err s1 Hget.
    apply String.eqb_neq in Hid, Hsecret. rewrite Hid, Hsecret.
    assert (Hrun : storage_GetInteractions (Values_Get (Query req) "id")
                     (Values_Get (Query req) "secret") (set_W NewRecorder st)
                   = (Ok (data, aesKey, err), set_Store s1 (set_W NewRecorder st))).
    { unfold storage_GetInteractions. cbn [Store set_W]. by rewrite Hget. }
    rewrite (bind_ok _ _ _ _ _ Hrun). split.
    + intros e ->. unfold jsonError.
      destruct (jsonBody_serve DetectContentType jsonEncode "error"
                  ("could not get interactions: " +:+ e) StatusBadRequest
                  (set_Store s1 st) eq_refl)
        as (_ & Hs & Hb & _).
      split; [exact Hs|exact Hb].
    + intros ->.
      set (tld := if RootTLD (options h)
                  then drainStore (Domains (options h)) [] s1 else ([], s1)).
      assert (Htld : (if RootTLD (options h)
                      then drainDomains (Domains (options h)) []
                      else ret []) (set_Store s1 (set_W NewRecorder st))
                     = (Ok (fst tld),
                        set_Store (snd tld) (set_W NewRecorder st))).
      { subst tld. destruct (RootTLD (options h)); [|done].
        by rewrite drainDomains_spec. }
      rewrite (bind_ok _ _ _ _ _ Htld).
      set (extra := if String.eqb (Token (options h)) EmptyString then []
                    else fst (fst (GetInteractionsWithId (Token (options h))
                                     (snd tld)))).
      assert (Hextra : exists s3,
                (if negb (String.eqb (Token (options h)) EmptyString)
                 then bind (storage_GetInteractionsWithId (Token (options h)))
                        (fun r' => ret (fst r'))
                 else ret []) (set_Store (snd tld) (set_W NewRecorder st))
                = (Ok extra, set_Store s3 (set_W NewRecorder st))).
      { subst extra. destruct (String.eqb (Token (options h)) EmptyString);
          cbn [negb]; [by exists (snd tld)|].
        unfold bind, storage_GetInteractionsWithId. cbn [Store set_Store set_W].
        destruct (GetInteractionsWithId (Token (options h)) (snd tld))
          as [[ex e] s3]. by exists s3. }
      destruct Hextra as [s3 Hextra]. rewrite (bind_ok _ _ _ _ _ Hextra).
      match goal with |- context [w_Write _ ?d ?s] =>
        destruct (w_Write_fresh d s eq_refl) as (rw & -> & Hc & Hb) end.
      cbn [snd W set_W Result StatusCode RespBody]. rewrite Hc, Hb.
      repeat split.
      * subst tld. by intros ->.
      * subst extra. by intros ->.
Qed.

End Poll.

(** Scenario 2 of the spec on the store of the spec: after one recorded
    interaction a poll with a wrong secret is refused with 400 and drains
    nothing; the poll with the secret returns the interaction, and the
    next poll returns none. *)
Example poll_scenario :
  let poll secret :=
    pollHandler (Storage0 := MemStorage tagWithKey) sniffPlain showJSON
      testServer
      (GET "interactsh.com" "/poll"
         {[ "id" := ["c6rj61aciaeutn2ae680"]; "secret" := [secret] ]}) in
  let blob :=
    tagWithKey "k"
      (showJSON (JSONInteraction
         (httpInteraction testToken testToken "" "" "192.0.2.1" 7))) in
  let st0 := snd (serve (route_default (Storage0 := MemStorage tagWithKey)
                           sniffPlain showJSON showResponse onlyTestToken
                           testServer (GET tokenHost "/" ∅))
                    (initialState registeredStore 7)) in
  let st1 := snd (serve (poll "guess") st0) in
  let st2 := snd (serve (poll "s3cret") st1) in
  StatusCode (reply (poll "guess") st0) = 400
  /\ Store st1 = Store st0
  /\ StatusCode (reply (poll "s3cret") st1) = 200
  /\ RespBody (reply (poll "s3cret") st1)
     = showJSON (JSONPollResponse
         {| Data := [blob]; Extra := []; AESKey := "wrapped-k";
            TLDData := [] |})
  /\ RespBody (reply (poll "s3cret") st2)
     = showJSON (JSONPollResponse
         {| Data := []; Extra := []; AESKey := "wrapped-k"; TLDData := [] |}).
Proof. vm_compute. repeat split. Qed.

(** ** C6: url-only scanning *)

Lemma sane_GetIdLength (isCorrelationID : Options -> string -> bool)
  (o : Options) :
  sane isCorrelationID o ->
  GetIdLength o = CorrelationIdLength o + CorrelationIdNonceLength o.
Proof.
  intros (H1 & H2 & H3 & _). unfold GetIdLength, wrap64.
  rewrite Z.mod_small; lia.
Qed.

Lemma slice_prefix (s : string) (n : Z) :
  0 <= n <= len s ->
  slice s 0 n = Some (String.substring 0 (Z.to_nat n) s).
Proof.
  intros H. unfold slice.
  assert (E : (0 <=? 0) && (0 <=? n) && (n <=? len s) = true) by lia.
  rewrite E. by rewrite Z.sub_0_r.
Qed.


Section Scan.

Context {S : Type} `{!Storage S}.
Variable jsonEncode : JSONValue -> string.
Variable isCorrelationID : Options -> string -> bool.

Local Abbreviation handleInteraction' := (handleInteraction jsonEncode).
Local Abbreviation scanChunk' := (scanChunk jsonEncode isCorrelationID).
Local Abbreviation scanURL' := (scanURL jsonEncode isCorrelationID).

Lemma handleInteraction_run (h : HTTPServer S)
  (uid fid reqS respS host : string) (st : State S) :
  sane isCorrelationID (options h) ->
  isCorrelationID (options h) uid = true ->
  handleInteraction' h uid fid reqS respS host st
  = (Ok tt,
     set_Store (storeHits jsonEncode (options h) reqS respS host (Clock st)
                  [(uid, fid)] (Store st)) st).
Proof.
  intros Hsane Hm. pose proof (sane_GetIdLength _ _ Hsane) as Hl.
  destruct Hsane as (H1 & H2 & H3 & Hlen). apply Hlen in Hm.
  unfold handleInteraction, bind, lift, Now.
  rewrite slice_prefix by lia. cbn [of_option].
  unfold storage_AddInteraction, storeHits, httpInteraction. cbn.
  by destruct (AddInteraction _ _ (Store st)).
Qed.

Lemma storeHits_app (o : Options) (reqS respS host : string) (now : Z)
  (a b : list (string * string)) (s : S) :
  storeHits jsonEncode o reqS respS host now (a ++ b) s
  = storeHits jsonEncode o reqS respS host now b
      (storeHits jsonEncode o reqS respS host now a s).
Proof. unfold storeHits. by rewrite fold_left_app. Qed.

(** The windows of one part: the accepted ones are stored in order. *)
Lemma scanChunk_run (h : HTTPServer S) (chunk fid reqS respS host : string)
  (st : State S) :
  sane isCorrelationID (options h) ->
  scanChunk' h chunk fid reqS respS host st
  = (Ok tt,
     set_Store
       (storeHits jsonEncode (options h) reqS respS host (Clock st)
          ((fun token => (token, fid))
           <$> partTokens isCorrelationID (options h) chunk)
          (Store st)) st).
Proof.
  intros Hsane. pose proof (sane_GetIdLength _ _ Hsane) as Hl.
  unfold scanChunk, partTokens.
  destruct (SlideWithLength_total chunk (GetIdLength (options h)))
    as [ws Hws]; [destruct Hsane as (? & ? & ? & _); lia|].
  rewrite Hws. unfold bind at 1. unfold lift. cbn [of_option].
  change (default [] (Some ws)) with ws.
  clear Hws. revert st. induction ws as [|w ws IH]; intros st.
  - cbn. by destruct st.
  - cbn [forM fmap list_fmap List.filter]. unfold bind, when.
    destruct (isCorrelationID (options h) (ToLower w)) eqn:Hm.
    + rewrite (handleInteraction_run _ _ _ _ _ _ _ Hsane Hm), IH.
      unfold storeHits.
      cbn [fold_left fmap list_fmap Clock Store set_Store fst snd].
      reflexivity.
    + cbn [ret]. by rewrite IH.
Qed.

(** The loop over the parts, from part number [k] on. *)
Lemma scanParts_run (h : HTTPServer S) (reqS respS host : string)
  (all : list string) (fullID : nat -> string -> string)
  (parts : list string) (k : nat) (st : State S) :
  sane isCorrelationID (options h) ->
  forM (imap (fun i part => (k + i, part)%nat) parts)
    (fun '(i, part) => scanChunk' h part (fullID i part) reqS respS host) st
  = (Ok tt,
     set_Store
       (storeHits jsonEncode (options h) reqS respS host (Clock st)
          (mjoin (imap (fun i part =>
                          (fun token => (token, fullID (k + i)%nat part))
                          <$> partTokens isCorrelationID (options h) part)
                       parts))
          (Store st)) st).
Proof.
  intros Hsane. revert k st.
  induction parts as [|p parts IH]; intros k st.
  - cbn. by destruct st.
  - cbn [imap forM mjoin list_join]. unfold bind.
    rewrite (scanChunk_run _ _ _ _ _ _ _ Hsane).
    rewrite Nat.add_0_r.
    rewrite (imap_ext _ (fun i part => (Datatypes.S k + i, part)%nat) parts)
      by (intros; cbn; f_equal; lia).
    rewrite IH. cbn [Clock set_Store Store].
    rewrite storeHits_app.
    change (set_Store ?a (set_Store ?b st)) with (set_Store a st).
    match goal with
    | |- (_, set_Store (storeHits _ _ _ _ _ _ ?a _) _)
         = (_, set_Store (storeHits _ _ _ _ _ _ ?b _) _) =>
        replace b with a; [reflexivity|]
    end.
    f_equal. apply imap_ext. intros i x _. cbn.
    by replace (k + Datatypes.S i)%nat with (Datatypes.S k + i)%nat by lia.
Qed.




End Scan.

Lemma sane_spec_defaults (allocated : string -> bool) :
  sane (isCorrelationID_spec allocated) defaultOptions.
Proof.
  repeat split; try done. apply isCorrelationID_spec_length.
Qed.


(** Scenario 1 of the spec: a request to a host whose first label is a
    registered token enqueues one interaction under the first 20
    characters of the token. *)
Example token_host_is_recorded :
  let out := serve (route_default (Storage0 := MemStorage tagWithKey)
                      sniffPlain showJSON showResponse onlyTestToken
                      testServer (GET tokenHost "/" ∅))
               (initialState registeredStore 7) in
  fst out = Ok tt
  /\ urlHits onlyTestToken defaultOptions
       (SplitAny (tokenHost +:+ "/") ("." +:+ newline +:+ tab +:+ "/"))
     = [(testToken, testToken)]
  /\ pending <$> (clients (Store (snd out)) !! "c6rj61aciaeutn2ae680")
     = Some [tagWithKey "k"
               (showJSON (JSONInteraction
                  (httpInteraction testToken testToken "" "" "192.0.2.1" 7)))]
  /\ RespBody (Result (W (snd out)))
     = "<html><head></head><body>nyyyyyobgu5gc086ea2ntueaica16jr6c</body></html>".
Proof. vm_compute. repeat split. Qed.

(** ** C8: the [.json] and [.xml] replies of the default handler *)

Lemma HasSuffix_last (s suf : string) (c : ascii) :
  HasSuffix s suf = true -> last_byte suf = Some c -> last_byte s = Some c.
Proof.
  intros Hs Hc. induction s as [|d s IH].
  - cbn [HasSuffix] in Hs. rewrite orb_false_r in Hs.
    apply String.eqb_eq in Hs. by subst suf.
  - cbn [HasSuffix] in Hs. apply orb_true_iff in Hs as [Hs|Hs].
    + apply String.eqb_eq in Hs. by subst suf.
    + cbn [last_byte]. by rewrite (IH Hs).
Qed.

Lemma HasSuffix_refl (s : string) : HasSuffix s s = true.
Proof. destruct s; cbn [HasSuffix]; by rewrite String.eqb_refl. Qed.

Lemma HasSuffix_ToLower (s suf : string) :
  HasSuffix s suf = true -> HasSuffixI s suf = true.
Proof.
  unfold HasSuffixI. induction s as [|d s IH]; intros Hs.
  - cbn [HasSuffix] in Hs. rewrite orb_false_r in Hs.
    apply String.eqb_eq in Hs. subst suf. reflexivity.
  - cbn [HasSuffix] in Hs. apply orb_true_iff in Hs as [Hs|Hs].
    + apply String.eqb_eq in Hs. subst suf. apply HasSuffix_refl.
    + cbn [ToLower HasSuffix]. rewrite (IH Hs). apply orb_true_r.
Qed.

(** A path with the suffix [.json] or [.xml] selects that branch of the
    default handler. *)
Lemma suffix_json_branch (path : string) :
  HasSuffixI path ".json" = true ->
  String.eqb path "/" = false
  /\ EqualFold path "/robots.txt" = false.
Proof.
  intros H. unfold HasSuffixI in H.
  pose proof (HasSuffix_last _ _ "n"%char H eq_refl) as Hl. split.
  - apply String.eqb_neq. intros ->. discriminate.
  - unfold EqualFold. apply String.eqb_neq. intros E. rewrite E in Hl.
    discriminate.
Qed.

Lemma suffix_xml_branch (path : string) :
  HasSuffixI path ".xml" = true ->
  String.eqb path "/" = false
  /\ EqualFold path "/robots.txt" = false
  /\ HasSuffixI path ".json" = false.
Proof.
  intros H. unfold HasSuffixI in H.
  pose proof (HasSuffix_last _ _ "l"%char H eq_refl) as Hl. split; [|split].
  - apply String.eqb_neq. intros ->. discriminate.
  - unfold EqualFold. apply String.eqb_neq. intros E. rewrite E in Hl.
    discriminate.
  - unfold HasSuffixI. destruct (HasSuffix _ (ToLower ".json")) eqn:E; [|done].
    pose proof (HasSuffix_last _ _ "n"%char E eq_refl) as Hn. congruence.
Qed.

Section StoresOnly.

Context {S : Type} `{!Storage S}.
Variable jsonEncode : JSONValue -> string.
Variable isCorrelationID : Options -> string -> bool.

Lemma stores_only_ret : stores_only (ret (S := S) tt).
Proof. intros st. exists (Store st). by destruct st. Qed.

Lemma stores_only_bind (m k : Handler S unit) :
  stores_only m -> stores_only k -> stores_only (bind m (fun _ => k)).
Proof.
  intros Hm Hk st. unfold bind. destruct (Hm st) as [s1 ->].
  destruct (Hk (set_Store s1 st)) as [s2 ->]. by exists s2.
Qed.

Lemma stores_only_when (b : bool) (m : Handler S unit) :
  stores_only m -> stores_only (when b m).
Proof. intros Hm. destruct b; [done|apply stores_only_ret]. Qed.

Lemma stores_only_forM {A} (l : list A) (f : A -> Handler S unit) :
  (forall x, stores_only (f x)) -> stores_only (forM l f).
Proof.
  intros Hf. induction l as [|x l IH]; cbn [forM]; [apply stores_only_ret|].
  by apply stores_only_bind.
Qed.

Lemma stores_only_scanChunk (h : HTTPServer S)
  (chunk fid reqS respS host : string) :
  sane isCorrelationID (options h) ->
  stores_only (scanChunk jsonEncode isCorrelationID h chunk fid reqS respS host).
Proof.
  intros Hsane st. eexists. by apply scanChunk_run.
Qed.

Lemma stores_only_storeRootTLD (h : HTTPServer S) (r : Request)
  (reqS respS : string) :
  stores_only (storeRootTLD jsonEncode h r reqS respS).
Proof.
  unfold storeRootTLD. apply stores_only_when, stores_only_forM.
  intros domain. apply stores_only_when. intros st.
  unfold bind, Now, storage_AddInteractionWithId.
  destruct (AddInteractionWithId _ _ (Store st)) as [e s']. by exists s'.
Qed.

(** Under a sane configuration neither scanning mode panics, and both
    change the storage only. *)
Lemma stores_only_scan (h : HTTPServer S) (r : Request)
  (reqS respS host : string) :
  sane isCorrelationID (options h) ->
  stores_only
    (if ScanEverywhere (options h)
     then scanEverywhere jsonEncode isCorrelationID h reqS respS host
     else scanURL jsonEncode isCorrelationID h r reqS respS host).
Proof.
  intros Hsane. destruct (ScanEverywhere (options h)).
  - apply stores_only_forM. intros chunk. by apply stores_only_scanChunk.
  - apply stores_only_forM. intros [i part]. by apply stores_only_scanChunk.
Qed.

End StoresOnly.

Section DefaultReplies.

Context {S : Type} `{!Storage S}.
Variable DetectContentType : string -> string.
Variable jsonEncode : JSONValue -> string.
Variable DumpResponse : Response -> string.
Variable isCorrelationID : Options -> string -> bool.

Local Abbreviation logger' :=
  (logger DetectContentType jsonEncode DumpResponse isCorrelationID).
Local Abbreviation defaultHandler' :=
  (defaultHandler DetectContentType isCorrelationID).

Lemma w_WriteHeader_run (code : Z) (st : State S) :
  wroteHeader (W st) = false -> checkWriteHeaderCode code = true ->
  w_WriteHeader code st
  = (Ok tt,
     set_W {| Code := code; HeaderMap := HeaderMap (W st); Body := Body (W st);
              wroteHeader := true; snapHeader := Some (HeaderMap (W st));
              calls := calls (W st) ++ [CallWriteHeader code] |} st).
Proof.
  intros Hw Hc. unfold w_WriteHeader, rw_WriteHeader. cbn [log_call wroteHeader].
  by rewrite Hw, Hc.
Qed.

Lemma w_Write_written (data : string) (st : State S) :
  wroteHeader (W st) = true ->
  w_Write DetectContentType data st
  = (Ok tt, set_W (append_body data (log_call (CallWrite data) (W st))) st).
Proof.
  intros Hw. unfold w_Write, rw_implicit_header.
  cbn [log_call wroteHeader]. by rewrite Hw.
Qed.

(** What [logger] sends to the client: the status and the body that the
    wrapped handler recorded, and the headers of the recorder as they are
    when the handler returns. *)
Lemma logger_reply (h : HTTPServer S) (handler : Request -> Handler S unit)
  (r : Request) (st st1 : State S) :
  sane isCorrelationID (options h) ->
  handler r (set_W NewRecorder st) = (Ok tt, st1) ->
  checkWriteHeaderCode (Code (W st1)) = true ->
  let out := serve (logger' h handler r) st in
  fst out = Ok tt
  /\ StatusCode (Result (W (snd out))) = Code (W st1)
  /\ RespBody (Result (W (snd out))) = Body (W st1)
  /\ RespHeader (Result (W (snd out))) = HeaderMap (W st1).
Proof.
  intros Hsane Hrun Hcode. cbv zeta. unfold serve, logger.
  cbn [W set_W].
  change (set_W NewRecorder (set_W NewRecorder st)) with (set_W NewRecorder st).
  rewrite Hrun. cbv beta iota zeta.
  assert (Hz : (Code (W st1) =? 0) = false)
    by (unfold checkWriteHeaderCode in Hcode; lia).
  assert (Hs : StatusCode (Result (W st1)) = Code (W st1))
    by (unfold Result; cbn [StatusCode]; by rewrite Hz).
  rewrite Hs.
  erewrite bind_ok; [|apply w_WriteHeader_run; [reflexivity|exact Hcode]].
  erewrite bind_ok; [|apply w_Write_written; reflexivity].
  match goal with
  | |- context [bind (storeRootTLD ?a ?b ?c ?d ?e) ?k ?s] =>
      assert (Hk : stores_only (bind (storeRootTLD a b c d e) k));
      [|destruct (Hk s) as [s' ->]]
  end.
  { apply stores_only_bind; [apply stores_only_storeRootTLD|].
    by apply stores_only_scan. }
  cbn -[union]. rewrite Hz.
  repeat split; try done. apply (right_id_L ∅ (∪)).
Qed.


Lemma w_Write_unwritten (data : string) (st : State S) :
  wroteHeader (W st) = false ->
  exists hm,
    w_Write DetectContentType data st
    = (Ok tt,
       set_W {| Code := 200; HeaderMap := hm; Body := Body (W st) +:+ data;
                wroteHeader := true; snapHeader := Some hm;
                calls := calls (W st) ++ [CallWrite data] |} st).
Proof.
  intros Hw. unfold w_Write, rw_implicit_header, rw_WriteHeader.
  cbn -[lookup Header_Set Header_Get bool_decide]. rewrite Hw.
  destruct (_ && _); cbn -[lookup Header_Set Header_Get bool_decide];
    rewrite ?Hw; eexists; reflexivity.
Qed.

Lemma Header_Set_lookup (hm : Header) (value : string) :
  Header_Set hm "Content-Type" value !! "Content-Type" = Some [value].
Proof.
  unfold Header_Set.
  change (CanonicalMIMEHeaderKey "Content-Type") with "Content-Type".
  apply lookup_insert_eq.
Qed.

(** The handler behind the route ["/"], on a request that reaches a branch
    which writes [body] and then sets the content type. *)
Lemma default_typed_reply (h : HTTPServer S) (req : Request) (st : State S)
  (reflection body ctype : string) :
  Method req <> MethodOptions ->
  URLReflection isCorrelationID (options h) (Host req) = Ok reflection ->
  staticBranch h req = None ->
  (forall domain,
     defaultResponse DetectContentType h req domain reflection
     = bind (w_Write DetectContentType body)
         (fun _ => w_Header_Set "Content-Type" ctype)) ->
  exists st1,
    corsMiddleware h (defaultHandler' h) req (set_W NewRecorder st)
    = (Ok tt, st1)
    /\ Code (W st1) = 200
    /\ Body (W st1) = body
    /\ HeaderMap (W st1) !! "Content-Type" = Some [ctype].
Proof.
  intros Hm Hrefl Hstatic Hbranch.
  unfold corsMiddleware. apply String.eqb_neq in Hm. rewrite Hm.
  unfold corsHeaders, defaultHandler. rewrite Hrefl, Hstatic.
  cbv zeta.
  repeat (erewrite bind_ok; [|reflexivity]).
  assert (Hver : forall st0 : State S,
    wroteHeader (W st0) = false -> Body (W st0) = EmptyString ->
    exists st0',
      when (negb (NoVersionHeader (options h)))
        (w_Header_Set "X-Interactsh-Version" (Version (options h))) st0
      = (Ok tt, st0')
      /\ wroteHeader (W st0') = false /\ Body (W st0') = EmptyString).
  { intros st0 Hw Hb. destruct (NoVersionHeader (options h)); cbn [negb when].
    - by exists st0.
    - eexists. split; [reflexivity|]. by cbn. }
  match goal with
  | |- context [bind (when ?b ?m) ?k ?s] =>
      destruct (Hver s eq_refl eq_refl) as (st0' & Hrun & Hw & Hb)
  end.
  erewrite bind_ok; [|exact Hrun].
  erewrite bind_ok; [|reflexivity].
  rewrite Hbranch.
  destruct (w_Write_unwritten body st0' Hw) as [hm Hwrite].
  erewrite bind_ok; [|exact Hwrite].
  eexists. split; [reflexivity|].
  cbn -[lookup Header_Set]. rewrite Hb.
  repeat split; try done. apply Header_Set_lookup.
Qed.


(** The [.json] and [.xml] replies.  A request that reaches the default
    handler through the route ["/"] (not a CORS preflight, not a static
    file) on a host with a dot, with a path ending in [.json] in any case of
    the letters, is answered with [{"data":"<reflection>"}] and the header
    [Content-Type: application/json]; with a path ending in [.xml] it is
    answered with [<data><reflection></data>] and
    [Content-Type: application/xml].  The branches of the banner and of
    [/robots.txt] cannot apply to such a path. *)
Theorem default_json_xml_replies (h : HTTPServer S) (req : Request)
  (st : State S) :
  sane isCorrelationID (options h) ->
  Method req <> MethodOptions ->
  ContainsByte "." (Host req) = true ->
  staticBranch h req = None ->
  let out := serve (route_default DetectContentType jsonEncode DumpResponse
                      isCorrelationID h req) st in
  let r := Result (W (snd out)) in
  exists reflection,
    URLReflection isCorrelationID (options h) (Host req) = Ok reflection
    /\ (HasSuffixI (Path req) ".json" = true ->
        fst out = Ok tt
        /\ StatusCode r = 200
        /\ RespBody r = jsonReflection reflection
        /\ RespHeader r !! "Content-Type" = Some ["application/json"]
        /\ Header_Get (RespHeader r) "Content-Type" = "application/json")
    /\ (HasSuffixI (Path req) ".xml" = true ->
        fst out = Ok tt
        /\ StatusCode r = 200
        /\ RespBody r = xmlReflection reflection
        /\ RespHeader r !! "Content-Type" = Some ["application/xml"]
        /\ Header_Get (RespHeader r) "Content-Type" = "application/xml").
Proof.
  intros Hsane Hm Hdot Hstatic. cbv zeta.
  assert (Hl : 0 <= GetIdLength (options h)).
  { rewrite (sane_GetIdLength _ _ Hsane).
    destruct Hsane as (? & ? & _). lia. }
  destruct (getURLIDComponent_with_dot isCorrelationID (options h) _ Hdot Hl)
    as [component Hc].
  exists (reverse component).
  assert (Hrefl : URLReflection isCorrelationID (options h) (Host req)
                  = Ok (reverse component))
    by (unfold URLReflection; by rewrite Hc).
  split; [done|].
  assert (Hreply : forall body ctype,
    (forall domain,
       defaultResponse DetectContentType h req domain (reverse component)
       = bind (w_Write DetectContentType body)
           (fun _ => w_Header_Set "Content-Type" ctype)) ->
    let out := serve (route_default DetectContentType jsonEncode DumpResponse
                        isCorrelationID h req) st in
    fst out = Ok tt
    /\ StatusCode (Result (W (snd out))) = 200
    /\ RespBody (Result (W (snd out))) = body
    /\ RespHeader (Result (W (snd out))) !! "Content-Type" = Some [ctype]
    /\ Header_Get (RespHeader (Result (W (snd out)))) "Content-Type" = ctype).
  { intros body ctype Hbranch.
    destruct (default_typed_reply h req st _ body ctype Hm Hrefl Hstatic Hbranch)
      as (st1 & Hrun & Hcode & Hbody & Hct).
    assert (Hvalid : checkWriteHeaderCode (Code (W st1)) = true)
      by (by rewrite Hcode).
    destruct (logger_reply h _ req st st1 Hsane Hrun Hvalid)
      as (Hok & Hs & Hb & Hh).
    unfold route_default. cbv zeta.
    rewrite Hs, Hb, Hh, Hcode, Hbody. repeat split; try done.
    unfold Header_Get, http.values.
    change (CanonicalMIMEHeaderKey "Content-Type") with "Content-Type".
    by rewrite Hct. }
  split.
  - intros Hjson.
    apply Hreply. intros domain. unfold defaultResponse.
    destruct (suffix_json_branch _ Hjson) as [-> ->].
    by rewrite Hjson.
  - intros Hxml.
    apply Hreply. intros domain. unfold defaultResponse.
    destruct (suffix_xml_branch _ Hxml) as (-> & -> & ->).
    by rewrite Hxml.
Qed.

End DefaultReplies.

Lemma default_json_xml_replies_witness :
  let reply path :=
    Result (W (snd (serve (route_default (Storage0 := MemStorage tagWithKey)
                             sniffPlain showJSON showResponse onlyTestToken
                             testServer (GET tokenHost path ∅))
                      (initialState registeredStore 7)))) in
  (RespBody (reply "/probe.JSON")
   = jsonReflection "nyyyyyobgu5gc086ea2ntueaica16jr6c"
   /\ Header_Get (RespHeader (reply "/probe.JSON")) "Content-Type"
      = "application/json")
  /\ (RespBody (reply "/probe.xml")
      = xmlReflection "nyyyyyobgu5gc086ea2ntueaica16jr6c"
      /\ Header_Get (RespHeader (reply "/probe.xml")) "Content-Type"
         = "application/xml").
Proof.
  cbv zeta. split.
  - destruct (default_json_xml_replies (Storage0 := MemStorage tagWithKey)
                sniffPlain showJSON showResponse onlyTestToken testServer
                (GET tokenHost "/probe.JSON" ∅) (initialState registeredStore 7)
                (sane_spec_defaults _) ltac:(discriminate) eq_refl eq_refl)
      as (reflection & Hr & Hjson & _).
    injection Hr as <-.
    destruct (Hjson eq_refl) as (_ & _ & Hb & _ & Hh). by split.
  - destruct (default_json_xml_replies (Storage0 := MemStorage tagWithKey)
                sniffPlain showJSON showResponse onlyTestToken testServer
                (GET tokenHost "/probe.xml" ∅) (initialState registeredStore 7)
                (sane_spec_defaults _) ltac:(discriminate) eq_refl eq_refl)
      as (reflection & Hr & _ & Hxml).
    injection Hr as <-.
    destruct (Hxml eq_refl) as (_ & _ & Hb & _ & Hh). by split.
Defined.

(** C8 does not hold for a host without a dot.  A request for
    [/probe.json] whose [Host] has no dot reaches the default handler and
    does not get the JSON reply:
    [URLReflection(req.Host)] panics on the slice of the host parts before
    any branch is chosen, and nothing is written. *)
Lemma dotless_host_json_request_panics :
  let req := GET "localhost" "/probe.json" ∅ in
  let out := serve (route_default (Storage0 := MemStorage tagWithKey)
                      sniffPlain showJSON showResponse onlyTestToken
                      testServer req)
               (initialState registeredStore 7) in
  HasSuffixI (Path req) ".json" = true
  /\ staticBranch testServer req = None
  /\ fst out = Panicked SliceBoundsOutOfRange
  /\ Body (W (snd out)) = EmptyString
  /\ wroteHeader (W (snd out)) = false.
Proof. vm_compute. repeat split. Qed.

(** * Further properties of [http_server.go] *)

(** Rewrites the canonical form of the header names that occur as
    literals. *)
Ltac canon :=
  repeat match goal with
    | |- context [CanonicalMIMEHeaderKey ?s] =>
        let v := eval vm_compute in (CanonicalMIMEHeaderKey s) in
        progress change (CanonicalMIMEHeaderKey s) with v
    end.

Lemma Header_Get_Set_eq (hm : Header) (k v : string) :
  Header_Get (Header_Set hm k v) k = v.
Proof. unfold Header_Get, Header_Set, http.values. by rewrite lookup_insert_eq. Qed.

Lemma Header_Get_Set_ne (hm : Header) (k k' v : string) :
  CanonicalMIMEHeaderKey k <> CanonicalMIMEHeaderKey k' ->
  Header_Get (Header_Set hm k' v) k = Header_Get hm k.
Proof.
  intros Hne. unfold Header_Get, Header_Set, http.values.
  by rewrite lookup_insert_ne.
Qed.

Lemma corsHeaderMap_Get (o : Options) (hm : Header) :
  Header_Get (corsHeaderMap o hm) "Access-Control-Allow-Origin" = OriginURL o
  /\ Header_Get (corsHeaderMap o hm) "Access-Control-Allow-Credentials" = "true"
  /\ Header_Get (corsHeaderMap o hm) "Access-Control-Allow-Headers"
     = "Content-Type, Authorization".
Proof.
  unfold corsHeaderMap. repeat split.
  - rewrite !Header_Get_Set_ne by (canon; discriminate).
    apply Header_Get_Set_eq.
  - rewrite Header_Get_Set_ne by (canon; discriminate).
    apply Header_Get_Set_eq.
  - apply Header_Get_Set_eq.
Qed.

(** ** The middlewares *)

Section Middleware.

Context {S : Type}.

Lemma corsHeaders_run (h : HTTPServer S) (st : State S) :
  corsHeaders h st
  = (Ok tt,
     set_W {| Code := Code (W st);
              HeaderMap := corsHeaderMap (options h) (HeaderMap (W st));
              Body := Body (W st); wroteHeader := wroteHeader (W st);
              snapHeader := snapHeader (W st);
              calls :=
                calls (W st)
                ++ [CallHeaderSet "Access-Control-Allow-Origin"
                      (OriginURL (options h));
                    CallHeaderSet "Access-Control-Allow-Credentials" "true";
                    CallHeaderSet "Access-Control-Allow-Headers"
                      "Content-Type, Authorization"] |} st).
Proof.
  unfold corsHeaders, bind, w_Header_Set, corsHeaderMap, log_call,
    set_header, set_W.
  cbn -[Header_Set]. by rewrite <- !app_assoc.
Qed.

(** A preflight request is answered by [corsMiddleware] itself: the status
    is 204, the body is empty, the three CORS headers are set, and the
    wrapped handler does not run, whatever it is: nothing but the response
    writer changes. *)
Theorem cors_preflight_short_circuits (h : HTTPServer S)
  (next : Request -> Handler S unit) (req : Request) (st : State S) :
  Method req = MethodOptions ->
  let out := serve (corsMiddleware h next req) st in
  let r := Result (W (snd out)) in
  fst out = Ok tt
  /\ StatusCode r = 204
  /\ RespBody r = EmptyString
  /\ RespHeader r = corsHeaderMap (options h) ∅
  /\ Header_Get (RespHeader r) "Access-Control-Allow-Origin"
     = OriginURL (options h)
  /\ Header_Get (RespHeader r) "Access-Control-Allow-Credentials" = "true"
  /\ Header_Get (RespHeader r) "Access-Control-Allow-Headers"
     = "Content-Type, Authorization"
  /\ snd out = set_W (W (snd out)) st.
Proof.
  intros Hm. cbv zeta. unfold serve, corsMiddleware. rewrite Hm.
  change (String.eqb MethodOptions MethodOptions) with true. cbv iota.
  erewrite bind_ok; [|apply corsHeaders_run].
  unfold w_WriteHeader, rw_WriteHeader. cbn -[corsHeaderMap Header_Get].
  destruct (corsHeaderMap_Get (options h) ∅) as (H1 & H2 & H3).
  by repeat split.
Qed.

(** The gate of [authMiddleware] behind [corsMiddleware], on a request that
    is not a preflight.  With authentication on and an [Authorization]
    header that differs from the token, the reply is the status 401 with an
    empty body and the CORS headers, and the wrapped handler does not run.
    With authentication off, or with a header equal to the token (a missing
    header counts as the empty string), the request goes to the wrapped
    handler as if there were no gate. *)
Theorem auth_gate (h : HTTPServer S) (next : Request -> Handler S unit)
  (req : Request) (st : State S) :
  Method req <> MethodOptions ->
  let gated := corsMiddleware h (authMiddleware h next) req in
  let out := serve gated st in
  let r := Result (W (snd out)) in
  (Auth (options h) = true ->
   Token (options h) <> Header_Get (ReqHeader req) "Authorization" ->
   fst out = Ok tt
   /\ StatusCode r = 401
   /\ RespBody r = EmptyString
   /\ RespHeader r = corsHeaderMap (options h) ∅
   /\ snd out = set_W (W (snd out)) st)
  /\ (Auth (options h) = false
      \/ Token (options h) = Header_Get (ReqHeader req) "Authorization" ->
      gated = corsMiddleware h next req).
Proof.
  intros Hm. cbv zeta. apply String.eqb_neq in Hm. split.
  - intros Hauth Htok. apply String.eqb_neq in Htok.
    unfold serve, corsMiddleware, authMiddleware, checkToken.
    rewrite Hm, Hauth, Htok. cbn [negb orb andb].
    erewrite bind_ok; [|apply corsHeaders_run].
    unfold w_WriteHeader, rw_WriteHeader. cbn -[corsHeaderMap].
    by repeat split.
  - intros Hok. unfold corsMiddleware, authMiddleware, checkToken.
    rewrite Hm.
    assert (E : negb (Auth (options h))
                || Auth (options h)
                   && String.eqb (Token (options h))
                        (Header_Get (ReqHeader req) "Authorization") = true).
    { destruct Hok as [->|Heq]; [done|].
      apply String.eqb_eq in Heq. rewrite Heq.
      by destruct (Auth (options h)). }
    by rewrite E.
Qed.

End Middleware.

Lemma cors_preflight_short_circuits_witness :
  let out := serve (route_poll (Storage0 := MemStorage tagWithKey)
                      sniffPlain showJSON authServer
                      (OPTIONS "interactsh.com" "/poll"))
               (initialState registeredStore 7) in
  StatusCode (Result (W (snd out))) = 204
  /\ Header_Get (RespHeader (Result (W (snd out))))
       "Access-Control-Allow-Origin" = "https://app.interactsh.com"
  /\ Store (snd out) = registeredStore.
Proof.
  pose proof (cors_preflight_short_circuits authServer
                (authMiddleware authServer
                   (pollHandler (Storage0 := MemStorage tagWithKey)
                      sniffPlain showJSON authServer))
                (OPTIONS "interactsh.com" "/poll")
                (initialState registeredStore 7) eq_refl) as H.
  cbv zeta in H. destruct H as (_ & Hs & _ & _ & Ho & _ & _ & Hst).
  split; [exact Hs|]. split; [exact Ho|].
  unfold route_poll. rewrite Hst. reflexivity.
Defined.

Lemma auth_gate_witness :
  let poll := GET "interactsh.com" "/poll"
                {[ "id" := ["c6rj61aciaeutn2ae680"]; "secret" := ["s3cret"] ]} in
  let out := serve (route_poll (Storage0 := MemStorage tagWithKey)
                      sniffPlain showJSON authServer
                      (withAuthorization "guess" poll))
               (initialState registeredStore 7) in
  StatusCode (Result (W (snd out))) = 401
  /\ Store (snd out) = registeredStore
  /\ route_poll (Storage0 := MemStorage tagWithKey) sniffPlain showJSON
       authServer (withAuthorization "t0ken" poll)
     = corsMiddleware authServer
         (pollHandler (Storage0 := MemStorage tagWithKey) sniffPlain showJSON
            authServer)
         (withAuthorization "t0ken" poll).
Proof.
  cbv zeta.
  set (poll := GET "interactsh.com" "/poll"
                 {[ "id" := ["c6rj61aciaeutn2ae680"]; "secret" := ["s3cret"] ]}).
  set (next := pollHandler (Storage0 := MemStorage tagWithKey) sniffPlain
                 showJSON authServer).
  destruct (auth_gate authServer next (withAuthorization "guess" poll)
              (initialState registeredStore 7) ltac:(discriminate))
    as [Hdeny _].
  destruct (Hdeny eq_refl ltac:(vm_compute; discriminate))
    as (_ & Hs & _ & _ & Hst).
  destruct (auth_gate authServer next (withAuthorization "t0ken" poll)
              (initialState registeredStore 7) ltac:(discriminate))
    as [_ Hpass].
  split; [exact Hs|]. split.
  - unfold route_poll. fold next. rewrite Hst. reflexivity.
  - apply Hpass. by right.
Defined.

(** ** The dynamic endpoint registry: errors and the round trip *)

Section RegistryReplies.

Context {S : Type}.
Variable DetectContentType : string -> string.
Variable jsonEncode : JSONValue -> string.

Local Abbreviation storeHandler' := (storeHandler DetectContentType jsonEncode).
Local Abbreviation apidocsHandler' := (apidocsHandler DetectContentType jsonEncode).
Local Abbreviation jsonBody' := (jsonBody DetectContentType jsonEncode).

(** A JSON reply on a fresh writer: the status, the encoded pair, the JSON
    content type, and no other change of the state. *)
Lemma jsonBody_reply (key value : string) (code : Z) (st : State S) :
  checkWriteHeaderCode code = true ->
  let out := serve (jsonBody' key value code) st in
  let r := Result (W (snd out)) in
  fst out = Ok tt
  /\ StatusCode r = code
  /\ RespBody r = jsonEncode (JSONMap key value)
  /\ Header_Get (RespHeader r) "Content-Type"
     = "application/json; charset=utf-8"
  /\ Header_Get (RespHeader r) "X-Content-Type-Options" = "nosniff"
  /\ snd out = set_W (W (snd out)) st.
Proof.
  intros Hc. cbv zeta. unfold serve, jsonBody, bind, w_Header_Set,
    w_WriteHeader, w_Write, rw_implicit_header, rw_WriteHeader.
  cbn -[Header_Set Header_Get]. rewrite Hc. cbn -[Header_Set Header_Get].
  assert (Hz : (code =? 0) = false)
    by (unfold checkWriteHeaderCode in Hc; lia).
  rewrite Hz. by repeat split.
Qed.

(** [storeHandler] accepts only [POST]: any other method is answered with
    405 and the JSON error [method not allowed], and the registry is left
    as it was. *)
Theorem storeHandler_method_not_allowed (h : HTTPServer S) (req : Request)
  (st : State S) :
  Method req <> MethodPost ->
  let out := serve (storeHandler' h req) st in
  let r := Result (W (snd out)) in
  fst out = Ok tt
  /\ StatusCode r = 405
  /\ RespBody r = jsonEncode (JSONMap "error" "method not allowed")
  /\ Header_Get (RespHeader r) "Content-Type"
     = "application/json; charset=utf-8"
  /\ dynamicEndpoints (snd out) = dynamicEndpoints st.
Proof.
  intros Hm. cbv zeta. apply String.eqb_neq in Hm.
  unfold storeHandler. rewrite Hm. cbn [negb]. unfold jsonError.
  destruct (jsonBody_reply "error" "method not allowed"
              StatusMethodNotAllowed st eq_refl)
    as (H1 & H2 & H3 & H4 & _ & H6).
  repeat split; try done; by rewrite H6.
Qed.

(** [apidocsHandler] without an endpoint to serve: an empty suburl and a
    suburl that was never stored are both answered with 404 and a JSON
    error, [no suburl provided] for the first and [not found] for the
    second. *)
Theorem apidocsHandler_not_found (h : HTTPServer S) (req : Request)
  (st : State S) (suburl : string) :
  Path req = "/apidocs/" +:+ suburl ->
  let out := serve (apidocsHandler' h req) st in
  let r := Result (W (snd out)) in
  (suburl = EmptyString ->
   fst out = Ok tt
   /\ StatusCode r = 404
   /\ RespBody r = jsonEncode (JSONMap "error" "no suburl provided"))
  /\ (suburl <> EmptyString ->
      dynamicEndpoints st !! suburl = None ->
      fst out = Ok tt
      /\ StatusCode r = 404
      /\ RespBody r = jsonEncode (JSONMap "error" "not found"))
  /\ (suburl = EmptyString \/ dynamicEndpoints st !! suburl = None ->
      Header_Get (RespHeader r) "Content-Type"
      = "application/json; charset=utf-8"
      /\ snd out = set_W (W (snd out)) st).
Proof.
  intros Hp. cbv zeta. unfold apidocsHandler.
  rewrite Hp, TrimPrefix_append. unfold jsonError, serve.
  pose proof (jsonBody_reply "error" "no suburl provided" StatusNotFound st
                eq_refl) as He.
  pose proof (jsonBody_reply "error" "not found" StatusNotFound st eq_refl)
    as Hn.
  cbv zeta in He, Hn. unfold serve in He, Hn.
  destruct He as (E1 & E2 & E3 & E4 & _ & E6).
  destruct Hn as (N1 & N2 & N3 & N4 & _ & N6).
  split; [|split].
  - intros ->. cbn [String.eqb]. exact (conj E1 (conj E2 E3)).
  - intros Hne Hnone. apply String.eqb_neq in Hne. rewrite Hne.
    cbn [dynamicEndpoints set_W]. rewrite Hnone.
    exact (conj N1 (conj N2 N3)).
  - intros Hcase. destruct (String.eqb suburl EmptyString) eqn:Hs;
      [exact (conj E4 E6)|].
    destruct Hcase as [->|Hnone]; [discriminate|].
    cbn [dynamicEndpoints set_W]. rewrite Hnone.
    exact (conj N4 N6).
Qed.

Lemma apidocsHandler_served (h : HTTPServer S) (get : Request) (st : State S)
  (suburl : string) (de : dynamicEndpoint) :
  Path get = "/apidocs/" +:+ suburl -> suburl <> EmptyString ->
  dynamicEndpoints st !! suburl = Some de ->
  let r := reply (apidocsHandler' h get) st in
  StatusCode r = 200
  /\ RespBody r = EndpointBody de
  /\ Header_Get (RespHeader r) "Content-Type" = ContentType de
  /\ fst (serve (apidocsHandler' h get) st) = Ok tt.
Proof.
  intros Hp Hne Hde. cbv zeta. unfold reply, serve, apidocsHandler.
  rewrite Hp, TrimPrefix_append.
  apply String.eqb_neq in Hne. rewrite Hne.
  cbn [dynamicEndpoints set_W]. rewrite Hde.
  destruct (String.eqb (ContentType de) EmptyString) eqn:Hct.
  - apply String.eqb_eq in Hct. rewrite Hct. by cbn.
  - unfold when, bind, w_Header_Set, w_WriteHeader, w_Write,
      rw_implicit_header, rw_WriteHeader.
    cbn -[Header_Set Header_Get]. by repeat split.
Qed.

(** What one request to [apidocsHandler] answers depends on the registry
    only through the entry of the suburl it asks for. *)
Lemma apidocsHandler_reply_local (h : HTTPServer S) (get : Request)
  (st st' : State S) :
  dynamicEndpoints st' !! TrimPrefix (Path get) "/apidocs/"
  = dynamicEndpoints st !! TrimPrefix (Path get) "/apidocs/" ->
  reply (apidocsHandler' h get) st' = reply (apidocsHandler' h get) st.
Proof.
  intros Hsame. unfold reply, serve, apidocsHandler.
  destruct (String.eqb (TrimPrefix (Path get) "/apidocs/") EmptyString).
  - unfold jsonError, jsonBody, bind, w_Header_Set, w_WriteHeader, w_Write,
      rw_implicit_header, rw_WriteHeader.
    by cbn -[Header_Set].
  - cbn [dynamicEndpoints set_W]. rewrite Hsame.
    destruct (dynamicEndpoints st !! _) as [de|].
    + unfold when, bind, ret, w_Header_Set, w_WriteHeader, w_Write,
        rw_implicit_header, rw_WriteHeader.
      destruct (String.eqb (ContentType de) EmptyString);
        by cbn -[Header_Set].
    + unfold jsonError, jsonBody, bind, w_Header_Set, w_WriteHeader, w_Write,
        rw_implicit_header, rw_WriteHeader.
      by cbn -[Header_Set].
Qed.

(** The round trip of the registry: after a [POST /storerequest] that
    stores a new suburl, [GET /apidocs/<suburl>] answers 200 with the
    stored body and the stored content type, and the replies for every
    other suburl are what they were before. *)
Theorem store_then_apidocs (h : HTTPServer S) (post get : Request)
  (sreq : storeReq) (st : State S) :
  Method post = MethodPost ->
  StoreBody post = Some sreq ->
  SubURL sreq <> EmptyString ->
  dynamicEndpoints st !! SubURL sreq = None ->
  Path get = "/apidocs/" +:+ SubURL sreq ->
  let st1 := snd (serve (storeHandler' h post) st) in
  let r := reply (apidocsHandler' h get) st1 in
  StatusCode (Result (W st1)) = 200
  /\ StatusCode r = 200
  /\ RespBody r = SReqBody sreq
  /\ Header_Get (RespHeader r) "Content-Type" = SReqContentType sreq
  /\ (forall other suburl,
        Path other = "/apidocs/" +:+ suburl -> suburl <> SubURL sreq ->
        reply (apidocsHandler' h other) st1
        = reply (apidocsHandler' h other) st).
Proof.
  intros Hm Hbody Hne Hnone Hp. cbv zeta.
  rewrite (storeHandler_serve DetectContentType jsonEncode h post st Hm).
  rewrite Hbody. pose proof Hne as Hneb. apply String.eqb_neq in Hneb.
  rewrite Hneb, Hnone. unfold jsonMsg.
  set (st' := set_dynamicEndpoints _ st).
  destruct (jsonBody_reply "message" "endpoint registered" StatusOK st' eq_refl)
    as (_ & Hs & _ & _ & _ & Hst).
  split; [exact Hs|].
  assert (Hreg : dynamicEndpoints (snd (serve (jsonBody' "message"
                     "endpoint registered" StatusOK) st'))
                 = <[SubURL sreq := storedEndpoint sreq (Clock st)]>
                     (dynamicEndpoints st))
    by (by rewrite Hst).
  destruct (apidocsHandler_served h get
              (snd (serve (jsonBody' "message" "endpoint registered"
                             StatusOK) st'))
              (SubURL sreq) (storedEndpoint sreq (Clock st)) Hp Hne)
    as (H1 & H2 & H3 & _).
  { rewrite Hreg. apply lookup_insert_eq. }
  split; [exact H1|]. split; [exact H2|]. split; [exact H3|].
  intros other suburl Hother Hdiff. apply apidocsHandler_reply_local.
  rewrite Hother, TrimPrefix_append, Hreg. by apply lookup_insert_ne.
Qed.

End RegistryReplies.

Lemma storeHandler_method_not_allowed_witness :
  StatusCode (reply (storeHandler sniffPlain showJSON testServer
                       (GET "oast.example.com" "/storerequest" ∅))
                stateWithFoo) = 405
  /\ dynamicEndpoints
       (snd (serve (storeHandler sniffPlain showJSON testServer
                      (GET "oast.example.com" "/storerequest" ∅))
               stateWithFoo))
     = dynamicEndpoints stateWithFoo.
Proof.
  destruct (storeHandler_method_not_allowed sniffPlain showJSON testServer
              (GET "oast.example.com" "/storerequest" ∅) stateWithFoo
              ltac:(discriminate))
    as (_ & Hs & _ & _ & Hd).
  by split.
Defined.

Lemma apidocsHandler_not_found_witness :
  StatusCode (reply (apidocsHandler sniffPlain showJSON testServer
                       (GET "oast.example.com" "/apidocs/notfound" ∅))
                stateWithFoo) = 404
  /\ RespBody (reply (apidocsHandler sniffPlain showJSON testServer
                        (GET "oast.example.com" "/apidocs/notfound" ∅))
                 stateWithFoo)
     = showJSON (JSONMap "error" "not found").
Proof.
  destruct (apidocsHandler_not_found sniffPlain showJSON testServer
              (GET "oast.example.com" "/apidocs/notfound" ∅) stateWithFoo
              "notfound" eq_refl)
    as (_ & Hmissing & _).
  destruct (Hmissing ltac:(discriminate) eq_refl) as (_ & Hs & Hb).
  by split.
Defined.

Lemma store_then_apidocs_witness :
  let st1 := snd (serve (storeHandler sniffPlain showJSON testServer
                           (POST_store (Some helloFoo)))
                    (initialState emptyStore 0)) in
  let r := reply (apidocsHandler sniffPlain showJSON testServer
                    (GET "oast.example.com" "/apidocs/foo" ∅)) st1 in
  StatusCode r = 200
  /\ RespBody r = "hello"
  /\ Header_Get (RespHeader r) "Content-Type" = "text/plain".
Proof.
  destruct (store_then_apidocs sniffPlain showJSON testServer
              (POST_store (Some helloFoo))
              (GET "oast.example.com" "/apidocs/foo" ∅) helloFoo
              (initialState emptyStore 0)
              eq_refl eq_refl ltac:(discriminate) eq_refl eq_refl)
    as (_ & Hs & Hb & Hc & _).
  by repeat split.
Defined.

(** ** The dynamic response engine: panics, delay, and the path prefix *)

Lemma Atoi_empty : strconv.Atoi EmptyString = (0, Some strconv.ErrSyntax).
Proof. reflexivity. Qed.

Lemma Seconds_small (n : Z) :
  - 9223372036 <= n <= 9223372036 -> time.Seconds n = n * time.Second.
Proof.
  intros Hn. unfold time.Seconds, time.Second, wrap64.
  rewrite Z.mod_small; lia.
Qed.

Section EngineEdges.

Context {S : Type}.
Variable DetectContentType : string -> string.

Local Abbreviation engine := (writeResponseFromDynamicRequest DetectContentType).

(** Without the path prefix, a [status] parameter whose value is no
    three-digit code makes [WriteHeader] panic: this holds for every value
    outside 100..999 and for every value that does not parse as an integer.
    Nothing has been written to the body by then. *)
Theorem engine_invalid_status_panics (req : Request) (st : State S) :
  HasPrefixI (Path req) "/b64_body:" = false ->
  Values_Get (Query req) "status" <> EmptyString ->
  let code := fst (strconv.Atoi (Values_Get (Query req) "status")) in
  let out := serve (engine req) st in
  (checkWriteHeaderCode code = false ->
   fst out = Panicked (InvalidWriteHeaderCode code)
   /\ Body (W (snd out)) = EmptyString
   /\ wroteHeader (W (snd out)) = false)
  /\ (forall e, snd (strconv.Atoi (Values_Get (Query req) "status")) = Some e ->
                checkWriteHeaderCode code = false).
Proof.
  intros Hp Hne. cbv zeta. split.
  - intros Hc. unfold serve. rewrite (engine_no_prefix _ _ _ Hp).
    unfold dynamicDelay, dynamicStatus.
    apply String.eqb_neq in Hne. rewrite Hne.
    unfold bind, when, Sleep, w_WriteHeader, rw_WriteHeader.
    destruct (String.eqb (Values_Get (Query req) "delay") EmptyString);
      cbn -[lookup insert Header_Set Header_Get checkWriteHeaderCode
            strconv.Atoi time.Seconds Z.max headerCalls addHeaderMap];
      rewrite Hc;
      cbn -[lookup insert Header_Set Header_Get checkWriteHeaderCode
            strconv.Atoi time.Seconds Z.max headerCalls addHeaderMap];
      done.
  - intros e He.
    destruct (Atoi_error_value _ e He) as [->|[->| ->]]; reflexivity.
Qed.

(** The [delay] parameter: a value that parses as the integer [n] lets
    [n] seconds pass for [0 <= n <= 9223372036] and no time at all for
    [-9223372036 <= n <= 0].  In general the time that passes is the 64-bit
    product [n * time.Second] when it is positive; beyond these bounds the
    product wraps around, so that a negative [n] can make the engine
    sleep. *)
Theorem engine_delay (req : Request) (st : State S) (n : Z) :
  HasPrefixI (Path req) "/b64_body:" = false ->
  strconv.Atoi (Values_Get (Query req) "delay") = (n, None) ->
  let after := Clock (snd (serve (engine req) st)) in
  after = Clock st + Z.max 0 (time.Seconds n)
  /\ (0 <= n <= 9223372036 -> after = Clock st + n * time.Second)
  /\ (- 9223372036 <= n <= 0 -> after = Clock st).
Proof.
  intros Hp Hn. cbv zeta.
  assert (Hclock : Clock (snd (serve (engine req) st))
                   = Clock st + Z.max 0 (time.Seconds n)).
  { rewrite (engine_clock _ _ _ Hp).
    destruct (String.eqb (Values_Get (Query req) "delay") EmptyString) eqn:E.
    - apply String.eqb_eq in E. rewrite E, Atoi_empty in Hn. discriminate.
    - by rewrite Hn. }
  split; [exact Hclock|]. split; intros Hr; rewrite Hclock.
  - rewrite Seconds_small by lia. unfold time.Second. lia.
  - rewrite Seconds_small by lia. unfold time.Second. lia.
Qed.

(** The first write on the writer of a fresh request: the content type is
    sniffed from the data and the status 200 is recorded. *)
Lemma w_Write_first (data : string) (st : State S) :
  w_Write DetectContentType data (set_W NewRecorder st)
  = (Ok tt,
     set_W {| Code := 200;
              HeaderMap := Header_Set ∅ "Content-Type" (DetectContentType data);
              Body := data; wroteHeader := true;
              snapHeader :=
                Some (Header_Set ∅ "Content-Type" (DetectContentType data));
              calls := [CallWrite data] |} st).
Proof. reflexivity. Qed.

(** The steps of the engine that read the query, on a writer whose header
    is written: headers are added to the live map only, the status is
    ignored, and the two bodies are appended. *)
Lemma query_steps_written (req : Request) (st : State S) :
  wroteHeader (W st) = true ->
  exists st',
    bind (dynamicHeaders (Query req)) (fun _ =>
    bind (dynamicDelay (Query req)) (fun _ =>
    bind (dynamicStatus (Query req)) (fun _ =>
    bind (dynamicBody DetectContentType (Query req)) (fun _ =>
    dynamicB64Body DetectContentType (Query req))))) st
    = (Ok tt, st')
    /\ Code (W st') = Code (W st)
    /\ snapHeader (W st') = snapHeader (W st)
    /\ Body (W st')
       = Body (W st) +:+ Values_Get (Query req) "body"
         +:+ fst (base64.DecodeString (Values_Get (Query req) "b64_body")).
Proof.
  intros Hw. unfold dynamicHeaders.
  erewrite bind_ok; [|apply forM_addDynamicHeader].
  engine_cases req; rewrite ?Hw; ecbn; rewrite ?Hw; ecbn;
    eexists; (split; [reflexivity|]); ecbn;
    repeat match goal with
      | H : String.eqb _ EmptyString = true |- _ =>
          apply String.eqb_eq in H; rewrite H
      end;
    rewrite ?DecodeString_empty; cbn [fst];
    rewrite ?append_empty_r, ?append_assoc; done.
Qed.

(** With the path prefix [/b64_body:] (and a later ['/']) the decoded
    segment is written first, which sends the status 200 and the headers as
    they are then.  So the reply has the status 200 whatever [status] says
    (it cannot panic), it carries only the sniffed content type and none of
    the [header] parameters, and its body is the decoded segment followed
    by [body] and the decoded [b64_body]. *)
Theorem path_prefix_reply (req : Request) (st : State S) (segment : string) :
  HasPrefixI (Path req) "/b64_body:" = true ->
  slice (Path req) (Index (Path req) "/b64_body:" + 10)
        (LastIndex (Path req) "/") = Some segment ->
  let decoded := fst (base64.DecodeString segment) in
  let out := serve (engine req) st in
  let r := Result (W (snd out)) in
  fst out = Ok tt
  /\ StatusCode r = 200
  /\ RespHeader r = Header_Set ∅ "Content-Type" (DetectContentType decoded)
  /\ RespBody r
     = decoded +:+ Values_Get (Query req) "body"
       +:+ fst (base64.DecodeString (Values_Get (Query req) "b64_body")).
Proof.
  intros Hp Hs. cbv zeta. unfold serve, writeResponseFromDynamicRequest.
  unfold dynamicPathBody. rewrite Hp.
  erewrite bind_ok; cycle 1.
  { erewrite bind_ok; [|unfold lift; rewrite Hs; reflexivity].
    apply w_Write_first. }
  match goal with
  | |- context [bind _ _ ?s] =>
      destruct (query_steps_written req s eq_refl)
        as (st' & Hrun & Hcode & Hsnap & Hbody)
  end.
  cbv zeta. rewrite Hrun. unfold Result. cbn [fst snd StatusCode RespHeader RespBody].
  rewrite Hcode, Hsnap, Hbody. by cbn.
Qed.

(** The reply of the engine without the path prefix, for a [status] that
    is absent or a three-digit code: the status is that code, or 200
    without one; the body is [body] followed by the decoded [b64_body],
    and what [b64_body] holds from its first invalid character on is
    dropped without an error. *)
Theorem engine_reply (req : Request) (st : State S) :
  HasPrefixI (Path req) "/b64_body:" = false ->
  statusAccepted (Query req) = true ->
  let status := Values_Get (Query req) "status" in
  let r := reply (engine req) st in
  fst (serve (engine req) st) = Ok tt
  /\ StatusCode r
     = (if String.eqb status EmptyString then 200
        else fst (strconv.Atoi status))
  /\ RespBody r
     = Values_Get (Query req) "body"
       +:+ fst (base64.DecodeString (Values_Get (Query req) "b64_body")).
Proof.
  intros Hp Hok. cbv zeta.
  destruct (engine_body DetectContentType req st Hp Hok) as [Hrun Hbody].
  split; [exact Hrun|]. split; [|exact Hbody].
  destruct (String.eqb (Values_Get (Query req) "status") EmptyString) eqn:Hs.
  - unfold reply, serve. rewrite (engine_no_prefix _ _ _ Hp).
    unfold dynamicDelay, dynamicStatus, dynamicBody, dynamicB64Body.
    rewrite Hs.
    unfold bind, when, Sleep, w_Write, rw_WriteHeader, rw_implicit_header.
    destruct (String.eqb (Values_Get (Query req) "delay") EmptyString),
      (String.eqb (Values_Get (Query req) "body") EmptyString),
      (String.eqb (Values_Get (Query req) "b64_body") EmptyString);
      ecbn; recorder_cases; reflexivity.
  - unfold statusAccepted in Hok. rewrite Hs in Hok. cbn [orb] in Hok.
    apply (engine_status DetectContentType req st _ Hp);
      [by apply String.eqb_neq|reflexivity|exact Hok].
Qed.

End EngineEdges.

Lemma engine_invalid_status_panics_witness :
  fst (serve (writeResponseFromDynamicRequest sniffPlain
                (dynamicGET {[ "status" := ["teapot"] ]}))
         (initialState tt 0))
  = Panicked (InvalidWriteHeaderCode 0).
Proof.
  assert (Hne : Values_Get (Query (dynamicGET {[ "status" := ["teapot"] ]}))
                  "status" <> EmptyString)
    by (intros E; vm_compute in E; discriminate E).
  destruct (engine_invalid_status_panics sniffPlain
              (dynamicGET {[ "status" := ["teapot"] ]}) (initialState tt 0)
              eq_refl Hne)
    as [Hpanic _].
  exact (proj1 (Hpanic eq_refl)).
Defined.

Lemma engine_delay_witness :
  Clock (snd (serve (writeResponseFromDynamicRequest sniffPlain
                       (dynamicGET {[ "delay" := ["1"] ]}))
                (initialState tt 5)))
  = 5 + 1 * time.Second.
Proof.
  assert (Hn : strconv.Atoi
                 (Values_Get (Query (dynamicGET {[ "delay" := ["1"] ]}))
                    "delay") = (1, None))
    by (by vm_compute).
  pose proof (engine_delay sniffPlain (dynamicGET {[ "delay" := ["1"] ]})
                (initialState tt 5) 1 eq_refl Hn) as H.
  cbv zeta in H. destruct H as (_ & Hpos & _).
  apply Hpos. lia.
Defined.

Lemma path_prefix_reply_witness :
  let out := serve (writeResponseFromDynamicRequest sniffPlain
                      prefixedBadStatus) (initialState tt 0) in
  fst out = Ok tt
  /\ StatusCode (Result (W (snd out))) = 200
  /\ Header_Get (RespHeader (Result (W (snd out)))) "K" = EmptyString
  /\ RespBody (Result (W (snd out))) = "hi!".
Proof.
  destruct (path_prefix_reply sniffPlain prefixedBadStatus (initialState tt 0)
              "aGk=" eq_refl eq_refl)
    as (Hok & Hs & Hh & Hb).
  split; [exact Hok|]. split; [exact Hs|]. split.
  - rewrite Hh. reflexivity.
  - rewrite Hb. reflexivity.
Defined.

Lemma engine_reply_witness :
  let req := dynamicGET {[ "body" := ["this is "];
                           "b64_body" := ["ZXhhbXBs!"];
                           "status" := ["418"] ]} in
  StatusCode (reply (writeResponseFromDynamicRequest sniffPlain req)
                (initialState tt 0)) = 418
  /\ RespBody (reply (writeResponseFromDynamicRequest sniffPlain req)
                 (initialState tt 0))
     = "this is exampl".
Proof.
  cbv zeta.
  set (req := dynamicGET {[ "body" := ["this is "];
                            "b64_body" := ["ZXhhbXBs!"];
                            "status" := ["418"] ]}).
  assert (Hs : statusAccepted (Query req) = true) by (by vm_compute).
  pose proof (engine_reply sniffPlain req (initialState tt 0) eq_refl Hs) as H.
  cbv zeta in H. destruct H as (_ & Hcode & Hbody).
  split.
  - rewrite Hcode. clear. by vm_compute.
  - rewrite Hbody. clear. by vm_compute.
Defined.

(** ** The default handler: the [Server] header and the pages *)

(** [extractServerDomain]: the configured [HeaderServer] when there is one;
    otherwise, for an ASCII host and ASCII domains, the first configured
    domain that is a suffix of the host, case-insensitively (the first
    domain of the list when that match is the empty string), and the first
    domain of the list, or the empty string when no domain is configured,
    when no domain matches. *)
Theorem extractServerDomain_first_match {S : Type} (h : HTTPServer S)
  (req : Request) :
  let o := options h in
  let d := extractServerDomain h req in
  (HeaderServer o <> EmptyString -> d = HeaderServer o)
  /\ (HeaderServer o = EmptyString -> asciiNames o req ->
      (forall pre dom post,
         Domains o = pre ++ dom :: post ->
         Forall (fun x => HasSuffixI (Host req) x = false) pre ->
         HasSuffixI (Host req) dom = true ->
         d = if String.eqb dom EmptyString then List.hd EmptyString (Domains o)
             else dom)
      /\ (Forall (fun x => HasSuffixI (Host req) x = false) (Domains o) ->
          d = List.hd EmptyString (Domains o))).
Proof.
  cbv zeta. unfold extractServerDomain. split.
  - intros Hne. apply String.eqb_neq in Hne. by rewrite Hne.
  - intros -> _. cbn [String.eqb negb]. split.
    + intros pre dom post Hd Hpre Hdom.
      assert (Hfind : List.find (fun x => HasSuffixI (Host req) x)
                        (Domains (options h)) = Some dom).
      { rewrite Hd. clear Hd.
        induction Hpre as [|x pre Hx _ IH]; cbn [app List.find].
        - by rewrite Hdom.
        - by rewrite Hx. }
      rewrite Hfind.
      destruct (Domains (options h)) as [|first l]; [by destruct pre|].
      reflexivity.
    + intros Hall.
      assert (Hfind : List.find (fun x => HasSuffixI (Host req) x)
                        (Domains (options h)) = None).
      { induction Hall as [|x l Hx _ IH]; cbn [List.find]; [done|].
        by rewrite Hx. }
      rewrite Hfind. by destruct (Domains (options h)).
Qed.

Lemma defaultHeaderMap_Get {S : Type} (h : HTTPServer S) (req : Request) :
  defaultHeaderMap h req !! "Content-Type" = None
  /\ Header_Get (defaultHeaderMap h req) "Transfer-Encoding" = EmptyString
  /\ (forall v,
        Header_Get (Header_Set (defaultHeaderMap h req) "Content-Type" v)
          "Server" = extractServerDomain h req
        /\ Header_Get (Header_Set (defaultHeaderMap h req) "Content-Type" v)
             "X-Interactsh-Version"
           = (if NoVersionHeader (options h) then EmptyString
              else Version (options h))).
Proof.
  unfold defaultHeaderMap, corsHeaderMap.
  destruct (NoVersionHeader (options h)); (split; [|split]).
  - unfold Header_Set. canon. by rewrite !lookup_insert_ne.
  - rewrite !Header_Get_Set_ne by (canon; discriminate). reflexivity.
  - intros v. split.
    + rewrite Header_Get_Set_ne by (canon; discriminate).
      apply Header_Get_Set_eq.
    + rewrite !Header_Get_Set_ne by (canon; discriminate). reflexivity.
  - unfold Header_Set. canon. by rewrite !lookup_insert_ne.
  - rewrite !Header_Get_Set_ne by (canon; discriminate). reflexivity.
  - intros v. split.
    + rewrite !Header_Get_Set_ne by (canon; discriminate).
      apply Header_Get_Set_eq.
    + rewrite Header_Get_Set_ne by (canon; discriminate).
      apply Header_Get_Set_eq.
Qed.

Section DefaultPages.

Context {S : Type} `{!Storage S}.
Variable DetectContentType : string -> string.
Variable jsonEncode : JSONValue -> string.
Variable DumpResponse : Response -> string.
Variable isCorrelationID : Options -> string -> bool.

Local Abbreviation logger' :=
  (logger DetectContentType jsonEncode DumpResponse isCorrelationID).
Local Abbreviation defaultHandler' :=
  (defaultHandler DetectContentType isCorrelationID).

(** The first write of a handler that has set neither a content type nor a
    transfer encoding: the content type is sniffed, and the headers are
    snapshot with it. *)
Lemma w_Write_sniffs (data : string) (st : State S) :
  wroteHeader (W st) = false ->
  HeaderMap (W st) !! "Content-Type" = None ->
  Header_Get (HeaderMap (W st)) "Transfer-Encoding" = EmptyString ->
  w_Write DetectContentType data st
  = (Ok tt,
     set_W {| Code := 200;
              HeaderMap := Header_Set (HeaderMap (W st)) "Content-Type"
                             (DetectContentType data);
              Body := Body (W st) +:+ data;
              wroteHeader := true;
              snapHeader := Some (Header_Set (HeaderMap (W st)) "Content-Type"
                                    (DetectContentType data));
              calls := calls (W st) ++ [CallWrite data] |} st).
Proof.
  intros Hw Hct Hte. unfold w_Write, rw_implicit_header, rw_WriteHeader.
  cbn -[lookup Header_Set Header_Get bool_decide]. rewrite Hw, Hct, Hte.
  rewrite bool_decide_eq_false_2 by (by intros [? ?]).
  cbn -[lookup Header_Set Header_Get bool_decide]. by rewrite Hw.
Qed.

(** What [corsMiddleware] and [defaultHandler] do before the branch is
    chosen, on a request that is no preflight and no static file. *)
Lemma defaultHandler_prelude (h : HTTPServer S) (req : Request)
  (st : State S) (reflection : string) :
  Method req <> MethodOptions ->
  URLReflection isCorrelationID (options h) (Host req) = Ok reflection ->
  staticBranch h req = None ->
  exists st0,
    corsMiddleware h (defaultHandler' h) req (set_W NewRecorder st)
    = defaultResponse DetectContentType h req (extractServerDomain h req)
        reflection st0
    /\ HeaderMap (W st0) = defaultHeaderMap h req
    /\ wroteHeader (W st0) = false
    /\ Body (W st0) = EmptyString
    /\ Code (W st0) = 200
    /\ snapHeader (W st0) = None
    /\ st0 = set_W (W st0)
               (set_StatsHttp ((StatsHttp st + 1) mod 2 ^ 64) st).
Proof.
  intros Hm Hrefl Hstatic.
  unfold corsMiddleware. apply String.eqb_neq in Hm. rewrite Hm.
  erewrite bind_ok; [|apply corsHeaders_run].
  unfold defaultHandler. rewrite Hrefl, Hstatic. cbv zeta.
  repeat (erewrite bind_ok; [|reflexivity]).
  unfold defaultHeaderMap.
  destruct (NoVersionHeader (options h)); cbn [negb when].
  - repeat (erewrite bind_ok; [|reflexivity]).
    eexists. split; [reflexivity|]. by cbn -[Header_Set corsHeaderMap].
  - repeat (erewrite bind_ok; [|reflexivity]).
    eexists. split; [reflexivity|]. by cbn -[Header_Set corsHeaderMap].
Qed.

(** The reply of the route ["/"] when the branch of [defaultHandler] is one
    write of [body]. *)
Lemma default_page (h : HTTPServer S) (req : Request) (st : State S)
  (reflection body : string) :
  sane isCorrelationID (options h) ->
  Method req <> MethodOptions ->
  URLReflection isCorrelationID (options h) (Host req) = Ok reflection ->
  staticBranch h req = None ->
  defaultResponse DetectContentType h req (extractServerDomain h req) reflection
  = w_Write DetectContentType body ->
  servedPage DetectContentType h req st
    (serve (route_default DetectContentType jsonEncode DumpResponse
              isCorrelationID h req) st) body.
Proof.
  intros Hsane Hm Hrefl Hstatic Hbranch.
  destruct (defaultHandler_prelude h req st reflection Hm Hrefl Hstatic)
    as (st0 & Hrun & Hhm & Hw & Hb & Hc & Hsnap & Hst0).
  rewrite Hbranch in Hrun.
  destruct (defaultHeaderMap_Get h req) as (Hct & Hte & Hget).
  rewrite (w_Write_sniffs body st0 Hw) in Hrun
    by (rewrite Hhm; first [exact Hct|exact Hte]).
  rewrite Hhm, Hb in Hrun.
  match type of Hrun with
  | _ = (Ok tt, ?s) =>
      destruct (logger_reply DetectContentType jsonEncode DumpResponse
                  isCorrelationID h
                  (corsMiddleware h (defaultHandler' h)) req st s Hsane Hrun
                  eq_refl)
        as (Hok & Hs & Hbody & Hh)
  end.
  assert (Hstats :
    StatsHttp (snd (serve (logger' h (corsMiddleware h (defaultHandler' h)) req)
                      st))
    = (StatsHttp st + 1) mod 2 ^ 64).
  { unfold serve, logger. cbn [W set_W].
    change (set_W NewRecorder (set_W NewRecorder st))
      with (set_W NewRecorder st).
    rewrite Hrun. cbv beta iota zeta.
    match goal with
    | |- context [bind (w_WriteHeader ?c) ?k ?s] =>
        erewrite (bind_ok (w_WriteHeader c) k s);
          [|apply w_WriteHeader_run; reflexivity]
    end.
    erewrite bind_ok; [|apply w_Write_written; reflexivity].
    match goal with
    | |- context [bind (storeRootTLD ?a ?b ?c ?d ?e) ?k ?s] =>
        assert (Hk : stores_only (bind (storeRootTLD a b c d e) k));
        [|destruct (Hk s) as [s' ->]]
    end.
    { apply stores_only_bind; [apply stores_only_storeRootTLD|].
      by apply stores_only_scan. }
    cbn [snd StatsHttp set_Store set_W]. rewrite Hst0. reflexivity. }
  unfold servedPage, route_default. cbv zeta.
  cbn [W set_W Code Body HeaderMap] in Hs, Hbody, Hh.
  rewrite Hs, Hbody, Hh.
  destruct (Hget (DetectContentType body)) as [Hserver Hversion].
  repeat split; try done.
  apply Header_Get_Set_eq.
Qed.

(** The pages of the default handler, for a request that is no preflight
    and no static file and whose host has a dot, where the host, the path
    and the configured domains are ASCII text.  For the path ["/"] on a
    host without a token the reply is the banner for the server's domain,
    or the custom banner with [{DOMAIN}] replaced; for [/robots.txt], in
    any case of the letters, the robots file with the reflection in a
    comment; and for a request that selects no other branch, the reflection
    in an HTML body.  Each reply has the status 200 and the [Server] and
    version headers, and is counted once. *)
Theorem default_pages (h : HTTPServer S) (req : Request) (st : State S) :
  sane isCorrelationID (options h) ->
  Method req <> MethodOptions ->
  ContainsByte "." (Host req) = true ->
  staticBranch h req = None ->
  asciiNames (options h) req ->
  is_ascii (Path req) = true ->
  let out := serve (route_default DetectContentType jsonEncode DumpResponse
                      isCorrelationID h req) st in
  let domain := extractServerDomain h req in
  let page := servedPage DetectContentType h req st out in
  exists reflection,
    URLReflection isCorrelationID (options h) (Host req) = Ok reflection
    /\ (Path req = "/" -> reflection = EmptyString ->
        page (if String.eqb (customBanner h) EmptyString then banner domain
              else ReplaceAll (customBanner h) "{DOMAIN}" domain))
    /\ (EqualFold (Path req) "/robots.txt" = true ->
        page ("User-agent: *" +:+ newline +:+ "Disallow: / # " +:+ reflection))
    /\ (plainRequest h req reflection ->
        page ("<html><head></head><body>" +:+ reflection +:+ "</body></html>")).
Proof.
  intros Hsane Hm Hdot Hstatic _ _. cbv zeta.
  assert (Hl : 0 <= GetIdLength (options h)).
  { rewrite (sane_GetIdLength _ _ Hsane).
    destruct Hsane as (? & ? & _). lia. }
  destruct (getURLIDComponent_with_dot isCorrelationID (options h) _ Hdot Hl)
    as [component Hc].
  exists (reverse component).
  assert (Hrefl : URLReflection isCorrelationID (options h) (Host req)
                  = Ok (reverse component))
    by (unfold URLReflection; by rewrite Hc).
  split; [done|]. split; [|split].
  - intros Hpath Hempty.
    apply (default_page h req st (reverse component)); try done.
    unfold defaultResponse. rewrite Hpath, Hempty. cbn [String.eqb andb].
    change (String.eqb "/" "/") with true. cbn [andb].
    by destruct (String.eqb (customBanner h) EmptyString).
  - intros Hrobots.
    apply (default_page h req st (reverse component)); try done.
    unfold defaultResponse. rewrite Hrobots.
    destruct (String.eqb (Path req) "/") eqn:Hroot; [|done].
    apply String.eqb_eq in Hroot. rewrite Hroot in Hrobots. discriminate.
  - intros (Hfirst & Hrobots & Hjson & Hxml & Hdyn).
    apply (default_page h req st (reverse component)); try done.
    unfold defaultResponse. rewrite Hrobots, Hjson, Hxml.
    assert (E1 : String.eqb (Path req) "/"
                 && String.eqb (reverse component) EmptyString = false).
    { destruct Hfirst as [Hp|Hr].
      - apply String.eqb_neq in Hp. by rewrite Hp.
      - apply String.eqb_neq in Hr. rewrite Hr. apply andb_false_r. }
    assert (E2 : DynamicResp (options h)
                 && (nonempty (Query req)
                     || HasPrefixI (Path req) "/b64_body:") = false).
    { destruct Hdyn as [->|[Hq Hp]]; [done|].
      rewrite Hp. unfold nonempty. rewrite Hq.
      rewrite bool_decide_eq_false_2 by (by intros ?).
      apply andb_false_r. }
    by rewrite E1, E2.
Qed.

End DefaultPages.

Lemma extractServerDomain_first_match_witness :
  extractServerDomain twoDomainServer
    (GET "c6rj61aciaeutn2ae680cg5ugboyyyyyn.INTERACTSH.com" "/" ∅)
  = "interactsh.com"
  /\ extractServerDomain twoDomainServer (GET "203.0.113.9" "/" ∅)
     = "oast.pro".
Proof.
  destruct (extractServerDomain_first_match twoDomainServer
              (GET "c6rj61aciaeutn2ae680cg5ugboyyyyyn.INTERACTSH.com" "/" ∅))
    as [_ Hmatch].
  destruct (Hmatch eq_refl) as [Hfirst _];
    [split; [reflexivity|by repeat constructor]|].
  destruct (extractServerDomain_first_match twoDomainServer
              (GET "203.0.113.9" "/" ∅))
    as [_ Hnone].
  destruct (Hnone eq_refl) as [_ Hfallback];
    [split; [reflexivity|by repeat constructor]|].
  split.
  - apply (Hfirst ["oast.pro"] "interactsh.com" []); [reflexivity| |reflexivity].
    by repeat constructor.
  - apply Hfallback. by repeat constructor.
Defined.

Lemma default_pages_witness :
  let out := serve (route_default (Storage0 := MemStorage tagWithKey)
                      sniffPlain showJSON showResponse onlyTestToken
                      testServer (GET "www.interactsh.com" "/ROBOTS.txt" ∅))
               (initialState registeredStore 7) in
  RespBody (Result (W (snd out)))
  = "User-agent: *" +:+ newline +:+ "Disallow: / # "
  /\ Header_Get (RespHeader (Result (W (snd out)))) "Server"
     = "interactsh.com"
  /\ Header_Get (RespHeader (Result (W (snd out)))) "X-Interactsh-Version"
     = "1.0.0".
Proof.
  assert (Hnames : asciiNames (options testServer)
                     (GET "www.interactsh.com" "/ROBOTS.txt" ∅))
    by (split; [reflexivity|repeat constructor]).
  assert (Hpath : is_ascii (Path (GET "www.interactsh.com" "/ROBOTS.txt" ∅))
                  = true) by reflexivity.
  pose proof (default_pages (Storage0 := MemStorage tagWithKey)
                sniffPlain showJSON showResponse onlyTestToken testServer
                (GET "www.interactsh.com" "/ROBOTS.txt" ∅)
                (initialState registeredStore 7)
                (sane_spec_defaults _) ltac:(discriminate) eq_refl eq_refl
                Hnames Hpath)
    as H.
  cbv zeta in H. destruct H as (reflection & Hr & _ & Hrobots & _).
  injection Hr as <-.
  destruct (Hrobots eq_refl) as (_ & _ & Hb & _ & Hs & Hv & _).
  split; [exact Hb|]. split; [exact Hs|exact Hv].
Defined.

(** ** What [logger] stores *)

Section LoggerStores.

Context {S : Type} `{!Storage S}.
Variable DetectContentType : string -> string.
Variable jsonEncode : JSONValue -> string.
Variable DumpResponse : Response -> string.
Variable isCorrelationID : Options -> string -> bool.

Local Abbreviation logger' :=
  (logger DetectContentType jsonEncode DumpResponse isCorrelationID).

Lemma storeRoot_step (domain : string) (blob : Z -> string) (st : State S) :
  bind Now (fun now =>
    bind (storage_AddInteractionWithId domain (blob now))
      (fun _ => ret tt)) st
  = (Ok tt,
     set_Store (snd (AddInteractionWithId domain (blob (Clock st)) (Store st)))
       st).
Proof.
  unfold bind, Now, storage_AddInteractionWithId, ret.
  by destruct (AddInteractionWithId domain _ (Store st)).
Qed.

Lemma storeRoot_loop (h : HTTPServer S) (r : Request)
  (reqS respS : string) (domains : list string) (st : State S) :
  forM domains (fun domain =>
    when (true && HasSuffixI (Host r) domain)
      (bind Now (fun now =>
       bind (storage_AddInteractionWithId domain
               (jsonEncode (JSONInteraction
                  {| Protocol := "http"; UniqueID := Host r; FullId := Host r;
                     RawRequest := reqS; RawResponse := respS;
                     RemoteAddress := RemoteHost r; Timestamp := now |})))
         (fun _ => ret tt)))) st
  = (Ok tt,
     set_Store
       (storeRoot jsonEncode r reqS respS (Clock st)
          (List.filter (fun domain => HasSuffixI (Host r) domain) domains)
          (Store st)) st).
Proof.
  revert st.
  induction domains as [|d domains IH]; intros st.
  - cbn. by destruct st.
  - cbn [forM List.filter]. cbn [andb].
    destruct (HasSuffixI (Host r) d); cbn [when].
    + erewrite bind_ok;
        [|apply (storeRoot_step d (fun now =>
            jsonEncode (JSONInteraction
              {| Protocol := "http"; UniqueID := Host r; FullId := Host r;
                 RawRequest := reqS; RawResponse := respS;
                 RemoteAddress := RemoteHost r; Timestamp := now |})))].
      rewrite IH. unfold storeRoot, httpInteraction.
      by cbn [fold_left Clock Store set_Store].
    + erewrite bind_ok; [|reflexivity]. apply IH.
Qed.

Lemma storeRootTLD_run (h : HTTPServer S) (r : Request)
  (reqS respS : string) (st : State S) :
  storeRootTLD jsonEncode h r reqS respS st
  = (Ok tt,
     set_Store
       (if RootTLD (options h)
        then storeRoot jsonEncode r reqS respS (Clock st)
               (matchingDomains (options h) r) (Store st)
        else Store st) st).
Proof.
  unfold storeRootTLD. destruct (RootTLD (options h)) eqn:Hroot; cbn [when].
  - apply (storeRoot_loop h).
  - cbn. by destruct st.
Qed.

(** The root-TLD channel of [logger].  With root-TLD mode on, for an ASCII
    host and ASCII domains, one interaction is appended for every
    configured domain that is a suffix of the request host,
    case-insensitively, under the key of that domain; its
    unique id and full id are the request host and its remote address is
    the host of [r.RemoteAddr].  With the mode off nothing is stored.  The
    step never panics and changes nothing but the storage. *)
Theorem rootTLD_interactions (h : HTTPServer S) (r : Request)
  (reqS respS : string) (st : State S) :
  let out := storeRootTLD jsonEncode h r reqS respS st in
  fst out = Ok tt
  /\ snd out = set_Store (Store (snd out)) st
  /\ (RootTLD (options h) = false -> Store (snd out) = Store st)
  /\ (RootTLD (options h) = true -> asciiNames (options h) r ->
      Store (snd out)
      = fold_left
          (fun s domain =>
             snd (AddInteractionWithId domain
                    (jsonEncode (JSONInteraction
                       {| Protocol := "http"; UniqueID := Host r;
                          FullId := Host r; RawRequest := reqS;
                          RawResponse := respS;
                          RemoteAddress := RemoteHost r;
                          Timestamp := Clock st |}))
                    s))
          (List.filter (fun domain => HasSuffixI (Host r) domain)
             (Domains (options h)))
          (Store st)).
Proof.
  cbv zeta. rewrite storeRootTLD_run. cbn [fst snd Store set_Store].
  repeat split.
  - by intros ->.
  - by intros -> _.
Qed.

Lemma scanEverywhere_loop (h : HTTPServer S) (reqS respS host : string)
  (chunks : list string) (st : State S) :
  sane isCorrelationID (options h) ->
  forM chunks (fun chunk =>
    scanChunk jsonEncode isCorrelationID h chunk chunk reqS respS host) st
  = (Ok tt,
     set_Store
       (storeHits jsonEncode (options h) reqS respS host (Clock st)
          (mjoin ((fun chunk =>
                     (fun token => (token, chunk))
                     <$> partTokens isCorrelationID (options h) chunk)
                  <$> chunks))
          (Store st)) st).
Proof.
  intros Hsane. revert st.
  induction chunks as [|c chunks IH]; intros st.
  - cbn. by destruct st.
  - cbn [forM fmap list_fmap mjoin list_join]. unfold bind.
    rewrite (scanChunk_run jsonEncode isCorrelationID _ _ _ _ _ _ _ Hsane).
    rewrite IH. cbn [Clock set_Store Store]. by rewrite storeHits_app.
Qed.

Lemma scanEverywhere_run (h : HTTPServer S) (reqS respS host : string)
  (st : State S) :
  sane isCorrelationID (options h) ->
  scanEverywhere jsonEncode isCorrelationID h reqS respS host st
  = (Ok tt,
     set_Store
       (storeHits jsonEncode (options h) reqS respS host (Clock st)
          (everywhereHits isCorrelationID (options h) reqS) (Store st)) st).
Proof. intros Hsane. by apply scanEverywhere_loop. Qed.


Lemma scanURL_run (h : HTTPServer S) (r : Request)
  (reqS respS host : string) (st : State S) :
  sane isCorrelationID (options h) ->
  scanURL jsonEncode isCorrelationID h r reqS respS host st
  = (Ok tt,
     set_Store
       (storeHits jsonEncode (options h) reqS respS host (Clock st)
          (urlHits isCorrelationID (options h) (urlParts r)) (Store st)) st).
Proof.
  intros Hsane. unfold scanURL, urlParts.
  set (parts := SplitAny (Host r +:+ URLString r)
                  ("." +:+ newline +:+ tab +:+ "/")).
  pose proof (scanParts_run jsonEncode isCorrelationID h reqS respS host
    parts
    (fun i part =>
       if Z.of_nat i + 1 <=? Z.of_nat (length parts)
       then Join (take (i + 1) parts) "." else part)
    parts 0 st Hsane) as Hrun.
  cbn [Nat.add] in Hrun.
  etrans; [exact Hrun|].
  do 3 f_equal. unfold urlHits. f_equal.
  apply imap_ext. intros i x Hx. apply lookup_lt_Some in Hx.
  assert (E : (Z.of_nat i + 1 <=? Z.of_nat (length parts)) = true) by lia.
  by rewrite E.
Qed.

Lemma logger_run (h : HTTPServer S) (handler : Request -> Handler S unit)
  (r : Request) (st st1 : State S) :
  sane isCorrelationID (options h) ->
  handler r (set_W NewRecorder st) = (Ok tt, st1) ->
  checkWriteHeaderCode (Code (W st1)) = true ->
  let out := serve (logger' h handler r) st in
  fst out = Ok tt
  /\ Store (snd out)
     = loggedStore jsonEncode isCorrelationID (options h) r
         (DumpResponse (Result (W st1))) (Clock st1) (Store st1)
  /\ snd out = set_Store (Store (snd out)) (set_W (W (snd out)) st1).
Proof.
  intros Hsane Hrun Hcode. cbv zeta. unfold serve, logger.
  cbn [W set_W].
  change (set_W NewRecorder (set_W NewRecorder st)) with (set_W NewRecorder st).
  rewrite Hrun. cbv beta iota zeta.
  assert (Hz : (Code (W st1) =? 0) = false)
    by (unfold checkWriteHeaderCode in Hcode; lia).
  assert (Hs : StatusCode (Result (W st1)) = Code (W st1))
    by (unfold Result; cbn [StatusCode]; by rewrite Hz).
  rewrite Hs.
  erewrite bind_ok; [|apply w_WriteHeader_run; [reflexivity|exact Hcode]].
  erewrite bind_ok; [|apply w_Write_written; reflexivity].
  erewrite bind_ok; [|apply storeRootTLD_run].
  fold (clientHost (options h) r).
  unfold loggedStore.
  destruct (ScanEverywhere (options h)).
  - rewrite scanEverywhere_run by exact Hsane. by cbn.
  - rewrite scanURL_run by exact Hsane. by cbn.
Qed.

(** What one request leaves in the storage when it went through [logger]
    and the wrapped handler returned.  The root-TLD interactions come
    first, then one interaction per match of the scan; they carry the dump
    of the request and the dump of the response that the handler recorded
    (the root-TLD part is stated for an ASCII host and ASCII domains).
    The remote address of a match is the value of the header named by
    [OriginIPHeader] when the request has a non-empty one, else the host of
    [r.RemoteAddr]; the root-TLD interactions always carry the latter.
    Besides the storage and the response writer, [logger] changes nothing
    that the handler left. *)
Theorem logger_stores (h : HTTPServer S) (handler : Request -> Handler S unit)
  (r : Request) (st st1 : State S) :
  sane isCorrelationID (options h) ->
  handler r (set_W NewRecorder st) = (Ok tt, st1) ->
  checkWriteHeaderCode (Code (W st1)) = true ->
  let out := serve (logger' h handler r) st in
  fst out = Ok tt
  /\ (asciiNames (options h) r ->
      Store (snd out)
      = loggedStore jsonEncode isCorrelationID (options h) r
          (DumpResponse (Result (W st1))) (Clock st1) (Store st1))
  /\ snd out = set_Store (Store (snd out)) (set_W (W (snd out)) st1).
Proof.
  intros Hsane Hrun Hcode. cbv zeta.
  destruct (logger_run h handler r st st1 Hsane Hrun Hcode)
    as (Hok & Hstore & Hrest).
  split; [exact Hok|]. split; [intros _; exact Hstore|exact Hrest].
Qed.

(** The handler behind the route ["/"] on a request whose branch writes
    [body] and then sets the content type [ctype]: the recorder has
    snapshot the sniffed content type with the first write, and [ctype] is
    only in its live header map. *)
Lemma default_typed_inner (h : HTTPServer S) (req : Request) (st : State S)
  (reflection body ctype : string) :
  Method req <> MethodOptions ->
  URLReflection isCorrelationID (options h) (Host req) = Ok reflection ->
  staticBranch h req = None ->
  defaultResponse DetectContentType h req (extractServerDomain h req) reflection
  = bind (w_Write DetectContentType body)
      (fun _ => w_Header_Set "Content-Type" ctype) ->
  exists st1,
    corsMiddleware h (defaultHandler DetectContentType isCorrelationID h) req
      (set_W NewRecorder st)
    = (Ok tt, st1)
    /\ Code (W st1) = 200
    /\ Body (W st1) = body
    /\ snapHeader (W st1)
       = Some (Header_Set (defaultHeaderMap h req) "Content-Type"
                 (DetectContentType body))
    /\ Header_Get (HeaderMap (W st1)) "Content-Type" = ctype
    /\ Store st1 = Store st /\ Clock st1 = Clock st.
Proof.
  intros Hm Hrefl Hstatic Hbranch.
  destruct (defaultHandler_prelude DetectContentType isCorrelationID h req st
              reflection Hm Hrefl Hstatic)
    as (st0 & Hrun & Hhm & Hw & Hb & Hc & Hsnap & Hst0).
  rewrite Hbranch in Hrun.
  destruct (defaultHeaderMap_Get h req) as (Hct & Hte & _).
  erewrite bind_ok in Hrun; cycle 1.
  { apply w_Write_sniffs; [exact Hw|by rewrite Hhm|by rewrite Hhm]. }
  rewrite Hhm, Hb in Hrun.
  eexists. split; [exact Hrun|].
  cbn -[Header_Set Header_Get defaultHeaderMap].
  rewrite Hst0. repeat split. apply Header_Get_Set_eq.
Qed.

(** The response that [logger] records for a request whose path ends in
    [.json] or [.xml], in any case of the letters, is not the one the client
    gets.  The recorded response, whose dump goes
    into every interaction stored for the request, has the content type
    sniffed from the body, because the handler sets
    [application/json] (or [application/xml]) after it has written the
    body; the client gets the header that the handler set. *)
Theorem typed_reply_recorded_with_sniffed_type (h : HTTPServer S)
  (req : Request) (st : State S) (body ctype : string) :
  sane isCorrelationID (options h) ->
  Method req <> MethodOptions ->
  staticBranch h req = None ->
  forall reflection,
    URLReflection isCorrelationID (options h) (Host req) = Ok reflection ->
    (HasSuffixI (Path req) ".json" = true
     /\ body = jsonReflection reflection /\ ctype = "application/json")
    \/ (HasSuffixI (Path req) ".xml" = true
        /\ body = xmlReflection reflection /\ ctype = "application/xml") ->
    let out := serve (route_default DetectContentType jsonEncode DumpResponse
                        isCorrelationID h req) st in
    exists recorded,
      StatusCode recorded = 200
      /\ RespBody recorded = body
      /\ Header_Get (RespHeader recorded) "Content-Type"
         = DetectContentType body
      /\ (asciiNames (options h) req ->
          Store (snd out)
          = loggedStore jsonEncode isCorrelationID (options h) req
              (DumpResponse recorded) (Clock st) (Store st))
      /\ RespBody (Result (W (snd out))) = body
      /\ Header_Get (RespHeader (Result (W (snd out)))) "Content-Type"
         = ctype.
Proof.
  intros Hsane Hm Hstatic reflection Hrefl Hcase. cbv zeta.
  assert (Hbranch :
    defaultResponse DetectContentType h req (extractServerDomain h req)
      reflection
    = bind (w_Write DetectContentType body)
        (fun _ => w_Header_Set "Content-Type" ctype)).
  { unfold defaultResponse.
    destruct Hcase as [(Hs & -> & ->)|(Hs & -> & ->)].
    - destruct (suffix_json_branch _ Hs) as [-> ->]. by rewrite Hs.
    - destruct (suffix_xml_branch _ Hs) as (-> & -> & ->). by rewrite Hs. }
  destruct (default_typed_inner h req st reflection body ctype Hm Hrefl
              Hstatic Hbranch)
    as (st1 & Hrun & Hcode & Hbody & Hsnap & Hlive & Hstore & Hclock).
  assert (Hvalid : checkWriteHeaderCode (Code (W st1)) = true)
    by (by rewrite Hcode).
  destruct (logger_run h _ req st st1 Hsane Hrun Hvalid)
    as (_ & Hlogged & _).
  destruct (logger_reply DetectContentType jsonEncode DumpResponse
              isCorrelationID h _ req st st1 Hsane Hrun Hvalid)
    as (_ & _ & Hb & Hh).
  exists (Result (W st1)). unfold route_default.
  rewrite Hlogged, Hb, Hh, Hstore, Hclock, Hlive.
  unfold Result. cbn [StatusCode RespBody RespHeader].
  rewrite Hcode, Hbody, Hsnap. cbn [default].
  repeat split. apply Header_Get_Set_eq.
Qed.

End LoggerStores.


Lemma logger_stores_witness :
  let out := serve (route_default (Storage0 := MemStorage tagWithKey)
                      sniffPlain showJSON showResponse onlyTestToken
                      proxiedServer proxiedGET)
               (initialState registeredStore 7) in
  let page := "<html><head></head><body></body></html>" in
  pending <$> (clients (Store (snd out)) !! "c6rj61aciaeutn2ae680")
  = Some [tagWithKey "k"
            (showJSON (JSONInteraction
               (httpInteraction testToken
                  "c6rj61aciaeutn2ae680cg5ugboyyyyyn HTTP" (Dump proxiedGET)
                  page "198.51.100.7" 7)))]
  /\ channels (Store (snd out)) !! "interactsh.com"
     = Some [showJSON (JSONInteraction
               (httpInteraction "www.interactsh.com" "www.interactsh.com"
                  (Dump proxiedGET) page "10.0.0.1" 7))].
Proof.
  cbv zeta.
  assert (Hinner :
    corsMiddleware proxiedServer
      (defaultHandler sniffPlain onlyTestToken proxiedServer) proxiedGET
      (set_W NewRecorder (initialState registeredStore 7))
    = (Ok tt,
       snd (corsMiddleware proxiedServer
              (defaultHandler sniffPlain onlyTestToken proxiedServer)
              proxiedGET
              (set_W NewRecorder (initialState registeredStore 7)))))
    by (by vm_compute).
  pose proof (logger_stores (Storage0 := MemStorage tagWithKey)
                sniffPlain showJSON showResponse onlyTestToken proxiedServer
                (corsMiddleware proxiedServer
                   (defaultHandler sniffPlain onlyTestToken proxiedServer))
                proxiedGET (initialState registeredStore 7) _
                (sane_spec_defaults _) Hinner ltac:(by vm_compute)) as H.
  cbv zeta in H. destruct H as (_ & Hstore & _).
  assert (Hnames : asciiNames (options proxiedServer) proxiedGET)
    by (split; [reflexivity|repeat constructor]).
  unfold route_default. rewrite (Hstore Hnames). clear.
  vm_compute. split; reflexivity.
Defined.

Lemma typed_reply_recorded_with_sniffed_type_witness :
  let out := serve (route_default (Storage0 := MemStorage tagWithKey)
                      sniffPlain showJSON showResponse onlyTestToken
                      testServer (GET tokenHost "/probe.json" ∅))
               (initialState registeredStore 7) in
  exists recorded,
    Header_Get (RespHeader recorded) "Content-Type"
    = "text/plain; charset=utf-8"
    /\ Store (snd out)
       = loggedStore (Storage0 := MemStorage tagWithKey) showJSON
           onlyTestToken defaultOptions (GET tokenHost "/probe.json" ∅)
           (showResponse recorded) 7 registeredStore
    /\ Header_Get (RespHeader (Result (W (snd out)))) "Content-Type"
       = "application/json".
Proof.
  pose proof (typed_reply_recorded_with_sniffed_type
                (Storage0 := MemStorage tagWithKey)
                sniffPlain showJSON showResponse onlyTestToken testServer
                (GET tokenHost "/probe.json" ∅)
                (initialState registeredStore 7)
                (jsonReflection "nyyyyyobgu5gc086ea2ntueaica16jr6c")
                "application/json"
                (sane_spec_defaults _) ltac:(discriminate) eq_refl
                "nyyyyyobgu5gc086ea2ntueaica16jr6c" eq_refl
                (or_introl (conj eq_refl (conj eq_refl eq_refl)))) as H.
  cbv zeta in H.
  destruct H as (recorded & _ & _ & Hsniffed & Hstore & _ & Hclient).
  exists recorded. split; [exact Hsniffed|].
  split; [|exact Hclient].
  apply Hstore. split; [reflexivity|repeat constructor].
Defined.

(** ** Registration and the session counter *)

Section SessionCounter.

Context {S : Type} `{!SessionStorage S}.
Variable DetectContentType : string -> string.
Variable jsonEncode : JSONValue -> string.

Local Abbreviation registerHandler' :=
  (registerHandler DetectContentType jsonEncode).
Local Abbreviation deregisterHandler' :=
  (deregisterHandler DetectContentType jsonEncode).

(** A JSON reply followed by the return of the counter. *)
Lemma jsonBody_then_ret (key value : string) (code n : Z) (st : State S) :
  checkWriteHeaderCode code = true ->
  let out := bind (jsonBody DetectContentType jsonEncode key value code)
               (fun _ => ret n) (set_W NewRecorder st) in
  fst out = Ok n
  /\ StatusCode (Result (W (snd out))) = code
  /\ RespBody (Result (W (snd out))) = jsonEncode (JSONMap key value)
  /\ Store (snd out) = Store st.
Proof.
  intros Hc. cbv zeta.
  pose proof (jsonBody_reply DetectContentType jsonEncode key value code st Hc)
    as H.
  cbv zeta in H. unfold serve in H.
  destruct H as (Hok & Hs & Hb & _ & _ & Hst).
  unfold bind.
  destruct (jsonBody DetectContentType jsonEncode key value code
              (set_W NewRecorder st)) as [[[]|p] st'] eqn:E;
    cbn [fst snd] in *; [|discriminate].
  unfold ret. cbn [fst snd]. repeat split; try done. by rewrite Hst.
Qed.

(** [registerHandler] and the session counter.  A body that does not
    decode is answered with 400 and the counter is left alone; once the
    body has decoded the counter is one higher, whether the storage accepts
    the registration (200) or refuses it (400). *)
Theorem register_counts_decoded_requests (h : HTTPServer S)
  (decoded : string + RegisterRequest) (sessions : Z) (st : State S) :
  let run := registerHandler' h decoded sessions (set_W NewRecorder st) in
  let r := Result (W (snd run)) in
  (forall err, decoded = inl err ->
     fst run = Ok sessions
     /\ StatusCode r = 400
     /\ RespBody r
        = jsonEncode (JSONMap "error" ("could not decode json body: " +:+ err))
     /\ Store (snd run) = Store st)
  /\ (forall req e s1,
        decoded = inr req ->
        SetIDPublicKey (CorrelationID req) (SecretKey req) (PublicKey req)
          (Store st) = (e, s1) ->
        fst run = Ok (wrap64 (sessions + 1))
        /\ Store (snd run) = s1
        /\ (forall msg, e = Some msg ->
              StatusCode r = 400
              /\ RespBody r
                 = jsonEncode (JSONMap "error"
                     ("could not set id and public key: " +:+ msg)))
        /\ (e = None ->
            StatusCode r = 200
            /\ RespBody r
               = jsonEncode (JSONMap "message" "registration successful"))).
Proof.
  cbv zeta. split.
  - intros err ->. unfold registerHandler, jsonError.
    exact (jsonBody_then_ret "error" ("could not decode json body: " +:+ err)
             StatusBadRequest sessions st eq_refl).
  - intros req e s1 -> Hset. unfold registerHandler.
    assert (Hrun : storage_SetIDPublicKey (CorrelationID req) (SecretKey req)
                     (PublicKey req) (set_W NewRecorder st)
                   = (Ok e, set_Store s1 (set_W NewRecorder st))).
    { unfold storage_SetIDPublicKey. cbn [Store set_W]. by rewrite Hset. }
    rewrite (bind_ok _ _ _ _ _ Hrun).
    change (set_Store s1 (set_W NewRecorder st))
      with (set_W NewRecorder (set_Store s1 st)).
    destruct e as [msg|]; unfold jsonError, jsonMsg.
    + destruct (jsonBody_then_ret "error"
                  ("could not set id and public key: " +:+ msg)
                  StatusBadRequest (wrap64 (sessions + 1))
                  (set_Store s1 st) eq_refl)
        as (Hok & Hs & Hb & Hst).
      split; [exact Hok|]. split; [exact Hst|]. split; [|discriminate].
      intros msg' [= <-]. by split.
    + destruct (jsonBody_then_ret "message" "registration successful"
                  StatusOK (wrap64 (sessions + 1)) (set_Store s1 st) eq_refl)
        as (Hok & Hs & Hb & Hst).
      split; [exact Hok|]. split; [exact Hst|]. split; [discriminate|].
      intros _. by split.
Qed.

(** [deregisterHandler] and the session counter.  The counter is one lower
    after every request: after a removal that the storage accepts (200),
    after one that it refuses (400), and also after a body that does not
    decode (400), which does not reach the storage. *)
Theorem deregister_always_decrements (h : HTTPServer S)
  (decoded : string + DeregisterRequest) (sessions : Z) (st : State S) :
  let run := deregisterHandler' h decoded sessions (set_W NewRecorder st) in
  let r := Result (W (snd run)) in
  fst run = Ok (wrap64 (sessions - 1))
  /\ (forall err, decoded = inl err ->
        StatusCode r = 400
        /\ RespBody r
           = jsonEncode (JSONMap "error"
               ("could not decode json body: " +:+ err))
        /\ Store (snd run) = Store st)
  /\ (forall req e s1,
        decoded = inr req ->
        RemoveID (DeregisterCorrelationID req) (DeregisterSecretKey req)
          (Store st) = (e, s1) ->
        Store (snd run) = s1
        /\ (forall msg, e = Some msg ->
              StatusCode r = 400
              /\ RespBody r
                 = jsonEncode (JSONMap "error"
                     ("could not remove id: " +:+ msg)))
        /\ (e = None ->
            StatusCode r = 200
            /\ RespBody r
               = jsonEncode (JSONMap "message" "deregistration successful"))).
Proof.
  cbv zeta. unfold deregisterHandler. cbv zeta.
  destruct decoded as [err|req].
  - unfold jsonError.
    destruct (jsonBody_then_ret "error"
                ("could not decode json body: " +:+ err) StatusBadRequest
                (wrap64 (sessions - 1)) st eq_refl)
      as (Hok & Hs & Hb & Hst).
    split; [exact Hok|]. split; [|by intros ? ? ? ?].
    intros err' [= <-]. by repeat split.
  - destruct (RemoveID (DeregisterCorrelationID req)
                (DeregisterSecretKey req) (Store st)) as [e s1] eqn:Hrem.
    assert (Hrun : storage_RemoveID (DeregisterCorrelationID req)
                     (DeregisterSecretKey req) (set_W NewRecorder st)
                   = (Ok e, set_Store s1 (set_W NewRecorder st))).
    { unfold storage_RemoveID. cbn [Store set_W]. by rewrite Hrem. }
    rewrite (bind_ok _ _ _ _ _ Hrun).
    change (set_Store s1 (set_W NewRecorder st))
      with (set_W NewRecorder (set_Store s1 st)).
    destruct e as [msg|]; unfold jsonError, jsonMsg.
    + destruct (jsonBody_then_ret "error" ("could not remove id: " +:+ msg)
                  StatusBadRequest (wrap64 (sessions - 1))
                  (set_Store s1 st) eq_refl)
        as (Hok & Hs & Hb & Hst).
      split; [exact Hok|]. split; [by intros ? ?|].
      intros req' e' s1' [= <-] Hrem'. rewrite Hrem in Hrem'.
      injection Hrem' as <- <-.
      split; [exact Hst|]. split; [|discriminate].
      intros msg' [= <-]. by split.
    + destruct (jsonBody_then_ret "message" "deregistration successful"
                  StatusOK (wrap64 (sessions - 1)) (set_Store s1 st) eq_refl)
        as (Hok & Hs & Hb & Hst).
      split; [exact Hok|]. split; [by intros ? ?|].
      intros req' e' s1' [= <-] Hrem'. rewrite Hrem in Hrem'.
      injection Hrem' as <- <-.
      split; [exact Hst|]. split; [discriminate|].
      intros _. by split.
Qed.

End SessionCounter.

Lemma register_counts_decoded_requests_witness :
  let register body :=
    registerHandler (SessionStorage0 := MemSessions) sniffPlain showJSON
      testServer body 0 (set_W NewRecorder (initialState registeredStore 7)) in
  fst (register (inl "unexpected end of input")) = Ok 0
  /\ fst (register
           (inr {| PublicKey := "pub"; SecretKey := "s";
                   CorrelationID := "c6rj61aciaeutn2ae680" |})) = Ok 1
  /\ StatusCode
       (Result (W (snd (register
          (inr {| PublicKey := "pub"; SecretKey := "s";
                  CorrelationID := "c6rj61aciaeutn2ae680" |}))))) = 400.
Proof.
  cbv zeta.
  set (req := {| PublicKey := "pub"; SecretKey := "s";
                 CorrelationID := "c6rj61aciaeutn2ae680" |}).
  destruct (register_counts_decoded_requests (SessionStorage0 := MemSessions)
              sniffPlain showJSON testServer
              (inl "unexpected end of input") 0
              (initialState registeredStore 7))
    as [Hbad _].
  destruct (Hbad _ eq_refl) as (Hsame & _).
  destruct (register_counts_decoded_requests (SessionStorage0 := MemSessions)
              sniffPlain showJSON testServer (inr req) 0
              (initialState registeredStore 7))
    as [_ Hdecoded].
  destruct (Hdecoded req (Some "duplicate") registeredStore eq_refl eq_refl)
    as (Hup & _ & Hrefused & _).
  split; [exact Hsame|]. split; [exact Hup|].
  exact (proj1 (Hrefused "duplicate" eq_refl)).
Defined.

Lemma deregister_always_decrements_witness :
  fst (deregisterHandler (SessionStorage0 := MemSessions) sniffPlain showJSON
         testServer (inl "unexpected end of input") 0
         (set_W NewRecorder (initialState registeredStore 7)))
  = Ok (-1).
Proof.
  exact (proj1 (deregister_always_decrements (SessionStorage0 := MemSessions)
                  sniffPlain showJSON testServer
                  (inl "unexpected end of input") 0
                  (initialState registeredStore 7))).
Defined.

(** ** Polling and the storage *)

Section PollStorage.

Context {S : Type} `{!Storage S}.
Variable DetectContentType : string -> string.
Variable jsonEncode : JSONValue -> string.

Local Abbreviation pollHandler' := (pollHandler DetectContentType jsonEncode).

(** What [pollHandler] does to the storage.  A poll without an id or
    without a secret does not reach the storage.  A poll that
    [GetInteractions] refuses leaves the storage as that call left it: the
    channels of the domains and of the token are drained only for a client
    that has authenticated, the domains first (in root-TLD mode), then the
    token (when one is configured).  The handler never panics. *)
Theorem poll_storage_effects (h : HTTPServer S) (req : Request)
  (st : State S) :
  let ID := Values_Get (Query req) "id" in
  let secret := Values_Get (Query req) "secret" in
  let out := serve (pollHandler' h req) st in
  (ID = EmptyString \/ secret = EmptyString ->
   fst out = Ok tt /\ snd out = set_W (W (snd out)) st)
  /\ (ID <> EmptyString -> secret <> EmptyString ->
      forall data aesKey err s1,
        GetInteractions ID secret (Store st) = ((data, aesKey, err), s1) ->
        fst out = Ok tt
        /\ snd out = set_Store (Store (snd out)) (set_W (W (snd out)) st)
        /\ (err <> None -> Store (snd out) = s1)
        /\ (err = None ->
            let tld := if RootTLD (options h)
                       then drainStore (Domains (options h)) [] s1
                       else ([], s1) in
            Store (snd out)
            = if String.eqb (Token (options h)) EmptyString then snd tld
              else snd (GetInteractionsWithId (Token (options h)) (snd tld)))).
Proof.
  cbv zeta. unfold serve, pollHandler. split.
  - intros Hmissing. unfold jsonError.
    pose proof (jsonBody_reply DetectContentType jsonEncode "error"
                  "no id specified for poll" StatusBadRequest st eq_refl)
      as Hid.
    pose proof (jsonBody_reply DetectContentType jsonEncode "error"
                  "no secret specified for poll" StatusBadRequest st eq_refl)
      as Hsec.
    cbv zeta in Hid, Hsec. unfold serve in Hid, Hsec.
    destruct Hid as (I1 & _ & _ & _ & _ & I2).
    destruct Hsec as (S1 & _ & _ & _ & _ & S2).
    destruct (String.eqb (Values_Get (Query req) "id") EmptyString) eqn:Eid;
      [exact (conj I1 I2)|].
    destruct Hmissing as [Hm|Hm].
    + rewrite Hm in Eid. discriminate.
    + rewrite Hm. cbn [String.eqb]. exact (conj S1 S2).
  - intros Hid Hsecret data aesKey err s1 Hget.
    apply String.eqb_neq in Hid, Hsecret. rewrite Hid, Hsecret.
    assert (Hrun : storage_GetInteractions (Values_Get (Query req) "id")
                     (Values_Get (Query req) "secret") (set_W NewRecorder st)
                   = (Ok (data, aesKey, err), set_Store s1 (set_W NewRecorder st))).
    { unfold storage_GetInteractions. cbn [Store set_W]. by rewrite Hget. }
    rewrite (bind_ok _ _ _ _ _ Hrun).
    destruct err as [e|].
    + unfold jsonError.
      pose proof (jsonBody_reply DetectContentType jsonEncode "error"
                    ("could not get interactions: " +:+ e) StatusBadRequest
                    (set_Store s1 st) eq_refl) as H.
      cbv zeta in H. unfold serve in H.
      destruct H as (Hok & _ & _ & _ & _ & Hst).
      change (set_Store s1 (set_W NewRecorder st))
        with (set_W NewRecorder (set_Store s1 st)).
      split; [exact Hok|]. rewrite Hst. cbn [Store set_W set_Store W].
      by repeat split.
    + set (tld := if RootTLD (options h)
                  then drainStore (Domains (options h)) [] s1 else ([], s1)).
      assert (Htld : (if RootTLD (options h)
                      then drainDomains (Domains (options h)) []
                      else ret []) (set_Store s1 (set_W NewRecorder st))
                     = (Ok (fst tld),
                        set_Store (snd tld) (set_W NewRecorder st))).
      { subst tld. destruct (RootTLD (options h)); [|done].
        by rewrite drainDomains_spec. }
      rewrite (bind_ok _ _ _ _ _ Htld).
      set (s3 := if String.eqb (Token (options h)) EmptyString then snd tld
                 else snd (GetInteractionsWithId (Token (options h))
                             (snd tld))).
      assert (Hextra : exists extra,
                (if negb (String.eqb (Token (options h)) EmptyString)
                 then bind (storage_GetInteractionsWithId (Token (options h)))
                        (fun r' => ret (fst r'))
                 else ret []) (set_Store (snd tld) (set_W NewRecorder st))
                = (Ok extra, set_Store s3 (set_W NewRecorder st))).
      { subst s3. destruct (String.eqb (Token (options h)) EmptyString);
          cbn [negb]; [by exists []|].
        unfold bind, storage_GetInteractionsWithId. cbn [Store set_Store set_W].
        destruct (GetInteractionsWithId (Token (options h)) (snd tld))
          as [[ex e] s4]. by exists ex. }
      destruct Hextra as [extra Hextra]. rewrite (bind_ok _ _ _ _ _ Hextra).
      match goal with |- context [w_Write _ ?d ?s] =>
        destruct (w_Write_fresh DetectContentType d s eq_refl)
          as (rw & -> & _ & _) end.
      cbn [fst snd W Store set_W set_Store]. by repeat split.
Qed.

End PollStorage.

Lemma poll_storage_effects_witness :
  let poll := GET "interactsh.com" "/poll"
                {[ "id" := ["c6rj61aciaeutn2ae680"]; "secret" := ["guess"] ]} in
  Store (snd (serve (pollHandler (Storage0 := MemStorage tagWithKey)
                       sniffPlain showJSON testServer poll)
                (initialState registeredStore 7)))
  = registeredStore.
Proof.
  cbv zeta.
  set (poll := GET "interactsh.com" "/poll"
                 {[ "id" := ["c6rj61aciaeutn2ae680"]; "secret" := ["guess"] ]}).
  assert (Hid : Values_Get (Query poll) "id" <> EmptyString)
    by (intros E; vm_compute in E; discriminate E).
  assert (Hsecret : Values_Get (Query poll) "secret" <> EmptyString)
    by (intros E; vm_compute in E; discriminate E).
  assert (Hget : GetInteractions (Storage := MemStorage tagWithKey)
                   (Values_Get (Query poll) "id")
                   (Values_Get (Query poll) "secret")
                   (Store (initialState registeredStore 7))
                 = (([], EmptyString, Some "wrong_secret"), registeredStore))
    by (by vm_compute).
  pose proof (poll_storage_effects (Storage0 := MemStorage tagWithKey)
                sniffPlain showJSON testServer poll
                (initialState registeredStore 7)) as H.
  cbv zeta in H. destruct H as [_ H].
  destruct (H Hid Hsecret _ _ _ _ Hget) as (_ & _ & Hrefused & _).
  apply Hrefused. discriminate.
Defined.

(** ** Static files *)

Lemma TrimPrefix_no_prefix (s pre : string) :
  HasPrefix s pre = false -> TrimPrefix s pre = s.
Proof.
  unfold HasPrefix, TrimPrefix. intros H.
  assert (E : TrimPrefix_aux s pre = None).
  { revert s H. induction pre as [|p pre IH]; intros s H.
    - by destruct s.
    - destruct s as [|c s]; [done|]. cbn [TrimPrefix_aux].
      cbn [String.prefix] in H.
      destruct (ascii_dec p c) as [->|Hne].
      + rewrite Ascii.eqb_refl. by apply IH.
      + apply Ascii.eqb_neq in Hne. by rewrite Hne. }
  by rewrite E.
Qed.

Section StaticChain.

Context {S : Type}.
Variable NotFound : Request -> Handler S unit.
Variable RawPath : Request -> string.
Variable fileServer : Request -> Handler S unit.

Local Abbreviation static := (newStaticHandler NotFound RawPath fileServer).

(** The static handler of [NewHTTPServer] lists no directory.  A path
    that does not begin with [/s/], in this very case of the letters, is not
    found, although [defaultHandler] sends every path that begins with
    [/s/] in any case to this handler.  Below [/s/] (for a request whose
    path needed no escaping) the empty path and every path that ends in
    ['/'] are not found, and any other path goes to the file server with
    the prefix removed. *)
Theorem static_handler_lists_no_directory (r : Request) :
  (HasPrefix (Path r) "/s/" = false -> static r = NotFound r)
  /\ (forall p,
        Path r = "/s/" +:+ p -> RawPath r = EmptyString ->
        (p = EmptyString \/ HasSuffix p "/" = true ->
         static r = NotFound (set_Path p r))
        /\ (p <> EmptyString -> HasSuffix p "/" = false ->
            static r = fileServer (set_Path p r))).
Proof.
  unfold newStaticHandler, StripPrefix.
  change (String.eqb "/s/" EmptyString) with false. cbv iota zeta. split.
  - intros Hp. rewrite (TrimPrefix_no_prefix _ _ Hp).
    by rewrite Z.ltb_irrefl.
  - intros p Hpath Hraw. rewrite Hpath, TrimPrefix_append, Hraw.
    assert (Hlen : (len p <? len ("/s/" +:+ p)) = true).
    { apply Z.ltb_lt. unfold len. rewrite length_append.
      change (String.length "/s/") with 3%nat. lia. }
    rewrite Hlen. cbn [String.eqb andb orb].
    unfold disableDirectoryListing. cbn [Path set_Path]. split.
    + intros [->|Hs]; [done|]. by rewrite Hs.
    + intros Hne Hs. apply String.eqb_neq in Hne. by rewrite Hs, Hne.
Qed.

End StaticChain.

Section StaticParameters.

Context {S : Type}.

(** The dynamic parameters in front of a static file.  The well-formed
    [header] parameters are added.  A [status] that is empty or does not
    parse as an integer is skipped: nothing is written and nothing panics,
    unlike in the dynamic response engine.  A [status] that parses is
    written when it is a three-digit code, and panics otherwise.  A
    [delay] lets time pass only when it parses. *)
Theorem static_dynamic_parameters (req : Request) (st : State S) :
  wroteHeader (W st) = false ->
  let q := Query req in
  let status := Values_Get q "status" in
  let out := applyDynamicToStatic req st in
  let headers := addHeaderMap (http.values q "header") (HeaderMap (W st)) in
  (status = EmptyString \/ (exists e, snd (strconv.Atoi status) = Some e) ->
   fst out = Ok tt
   /\ wroteHeader (W (snd out)) = false
   /\ HeaderMap (W (snd out)) = headers)
  /\ (forall n,
        strconv.Atoi status = (n, None) ->
        (checkWriteHeaderCode n = true ->
         fst out = Ok tt
         /\ Code (W (snd out)) = n
         /\ snapHeader (W (snd out)) = Some headers)
        /\ (checkWriteHeaderCode n = false ->
            fst out = Panicked (InvalidWriteHeaderCode n)))
  /\ Clock (snd out)
     = Clock st
       + match strconv.Atoi (Values_Get q "delay") with
         | (n, None) => Z.max 0 (time.Seconds n)
         | _ => 0
         end.
Proof.
  intros Hw. cbv zeta. unfold applyDynamicToStatic. cbv zeta.
  erewrite bind_ok; [|apply forM_addDynamicHeader].
  set (st1 := set_W (afterHeaders (http.values (Query req) "header") (W st)) st).
  assert (Hdelay : exists st2,
    when (negb (String.eqb (Values_Get (Query req) "delay") EmptyString))
      (match strconv.Atoi (Values_Get (Query req) "delay") with
       | (parsed, None) => Sleep (time.Seconds parsed)
       | _ => ret tt
       end) st1 = (Ok tt, st2)
    /\ W st2 = W st1
    /\ Clock st2
       = Clock st
         + match strconv.Atoi (Values_Get (Query req) "delay") with
           | (n, None) => Z.max 0 (time.Seconds n)
           | _ => 0
           end).
  { destruct (String.eqb (Values_Get (Query req) "delay") EmptyString) eqn:E;
      cbn [negb when].
    - apply String.eqb_eq in E. rewrite E, Atoi_empty.
      exists st1. repeat split. subst st1. cbn. lia.
    - destruct (strconv.Atoi (Values_Get (Query req) "delay")) as [n [e|]].
      + exists st1. repeat split. subst st1. cbn. lia.
      + eexists. split; [reflexivity|]. by subst st1. }
  destruct Hdelay as (st2 & Hrun & HW & Hclock).
  erewrite bind_ok; [|exact Hrun].
  assert (Hw2 : wroteHeader (W st2) = false) by (by rewrite HW; subst st1).
  assert (Hh2 : HeaderMap (W st2)
                = addHeaderMap (http.values (Query req) "header")
                    (HeaderMap (W st))) by (by rewrite HW; subst st1).
  split; [|split].
  - intros [Hempty|[e He]].
    + rewrite Hempty. cbn [String.eqb negb when ret fst snd].
      by repeat split.
    + destruct (String.eqb (Values_Get (Query req) "status") EmptyString);
        cbn [negb when ret fst snd]; [by repeat split|].
      destruct (strconv.Atoi (Values_Get (Query req) "status")) as [n o].
      cbn [snd] in He. subst o. by cbn [ret fst snd].
  - intros n Hn.
    destruct (String.eqb (Values_Get (Query req) "status") EmptyString) eqn:E.
    { apply String.eqb_eq in E. rewrite E, Atoi_empty in Hn. discriminate. }
    rewrite Hn. cbn [negb when]. split.
    + intros Hc. rewrite (w_WriteHeader_run n st2 Hw2 Hc).
      cbn [fst snd W set_W Code snapHeader]. by rewrite Hh2.
    + intros Hc. unfold w_WriteHeader, rw_WriteHeader.
      cbn [log_call wroteHeader]. by rewrite Hw2, Hc.
  - destruct (String.eqb (Values_Get (Query req) "status") EmptyString);
      cbn [negb when ret snd]; [exact Hclock|].
    destruct (strconv.Atoi (Values_Get (Query req) "status")) as [n [e|]];
      cbn [ret snd]; [exact Hclock|].
    unfold w_WriteHeader, rw_WriteHeader. cbn [log_call wroteHeader].
    rewrite Hw2. by destruct (negb (checkWriteHeaderCode n)).
Qed.

End StaticParameters.

Lemma static_handler_lists_no_directory_witness :
  let static := newStaticHandler (S := MemStore) notFoundPage
                  (fun _ => EmptyString) echoFileServer in
  static (GET "www.interactsh.com" "/s/docs/" ∅)
  = notFoundPage (set_Path "docs/" (GET "www.interactsh.com" "/s/docs/" ∅))
  /\ static (GET "www.interactsh.com" "/s/logo.png" ∅)
     = echoFileServer
         (set_Path "logo.png" (GET "www.interactsh.com" "/s/logo.png" ∅))
  /\ static (GET "www.interactsh.com" "/S/logo.png" ∅)
     = notFoundPage (GET "www.interactsh.com" "/S/logo.png" ∅).
Proof.
  cbv zeta.
  destruct (static_handler_lists_no_directory (S := MemStore) notFoundPage
              (fun _ => EmptyString) echoFileServer
              (GET "www.interactsh.com" "/s/docs/" ∅))
    as [_ Hdir].
  destruct (Hdir "docs/" eq_refl eq_refl) as [Hlisting _].
  destruct (static_handler_lists_no_directory (S := MemStore) notFoundPage
              (fun _ => EmptyString) echoFileServer
              (GET "www.interactsh.com" "/s/logo.png" ∅))
    as [_ Hfile].
  destruct (Hfile "logo.png" eq_refl eq_refl) as [_ Hserved].
  destruct (static_handler_lists_no_directory (S := MemStore) notFoundPage
              (fun _ => EmptyString) echoFileServer
              (GET "www.interactsh.com" "/S/logo.png" ∅))
    as [Hcase _].
  split; [apply Hlisting; by right|].
  split; [apply Hserved; [discriminate|reflexivity]|].
  apply Hcase. reflexivity.
Defined.

Lemma static_dynamic_parameters_witness :
  let out := applyDynamicToStatic (S := MemStore) staticGET
               (set_W NewRecorder (initialState emptyStore 0)) in
  fst out = Ok tt
  /\ wroteHeader (W (snd out)) = false
  /\ Header_Get (HeaderMap (W (snd out))) "Cache-Control" = "no-store".
Proof.
  pose proof (static_dynamic_parameters (S := MemStore) staticGET
                (set_W NewRecorder (initialState emptyStore 0)) eq_refl) as H.
  cbv zeta in H. destruct H as (Hskip & _ & _).
  assert (Herr : exists e,
            snd (strconv.Atoi (Values_Get (Query staticGET) "status"))
            = Some e)
    by (exists strconv.ErrSyntax; by vm_compute).
  destruct (Hskip (or_intror Herr)) as (Hok & Hw & Hh).
  split; [exact Hok|]. split; [exact Hw|]. rewrite Hh. clear. by vm_compute.
Defined.

(** ** Preflight requests on the data plane *)

Section Preflight.

Context {S : Type} `{!Storage S}.
Variable DetectContentType : string -> string.
Variable jsonEncode : JSONValue -> string.
Variable DumpResponse : Response -> string.
Variable isCorrelationID : Options -> string -> bool.

(** A preflight request on the route ["/"] does not reach [defaultHandler]:
    it is answered with 204, it is not counted, and no reflection is
    computed, so it cannot panic, whatever its host.  [logger] records it
    all the same: the storage gets the interactions of the request, with
    the dump of the 204 response (stated for an ASCII host and ASCII
    domains, on which the root-TLD match is what Go computes). *)
Theorem preflight_is_recorded_not_counted (h : HTTPServer S) (req : Request)
  (st : State S) :
  sane isCorrelationID (options h) ->
  Method req = MethodOptions ->
  let out := serve (route_default DetectContentType jsonEncode DumpResponse
                      isCorrelationID h req) st in
  let r := Result (W (snd out)) in
  fst out = Ok tt
  /\ StatusCode r = 204
  /\ RespBody r = EmptyString
  /\ RespHeader r = corsHeaderMap (options h) ∅
  /\ StatsHttp (snd out) = StatsHttp st
  /\ (asciiNames (options h) req ->
      Store (snd out)
      = loggedStore jsonEncode isCorrelationID (options h) req
          (DumpResponse {| StatusCode := 204;
                           RespHeader := corsHeaderMap (options h) ∅;
                           RespBody := EmptyString |})
          (Clock st) (Store st)).
Proof.
  intros Hsane Hm. cbv zeta. unfold route_default.
  set (inner := corsMiddleware h
                  (defaultHandler DetectContentType isCorrelationID h)).
  assert (Hinner : exists st1,
    inner req (set_W NewRecorder st) = (Ok tt, st1)
    /\ Code (W st1) = 204
    /\ Body (W st1) = EmptyString
    /\ HeaderMap (W st1) = corsHeaderMap (options h) ∅
    /\ Result (W st1)
       = {| StatusCode := 204; RespHeader := corsHeaderMap (options h) ∅;
            RespBody := EmptyString |}
    /\ st1 = set_W (W st1) st).
  { subst inner. unfold corsMiddleware. rewrite Hm.
    change (String.eqb MethodOptions MethodOptions) with true. cbv iota.
    erewrite bind_ok; [|apply corsHeaders_run].
    unfold w_WriteHeader, rw_WriteHeader. cbn -[corsHeaderMap].
    eexists. split; [reflexivity|]. by cbn -[corsHeaderMap]. }
  destruct Hinner as (st1 & Hrun & Hcode & Hbody & Hhm & Hres & Hst1).
  assert (Hvalid : checkWriteHeaderCode (Code (W st1)) = true)
    by (by rewrite Hcode).
  destruct (logger_run DetectContentType jsonEncode DumpResponse
              isCorrelationID h inner req st st1 Hsane Hrun Hvalid)
    as (Hok & Hstore & Hrest).
  destruct (logger_reply DetectContentType jsonEncode DumpResponse
              isCorrelationID h inner req st st1 Hsane Hrun Hvalid)
    as (_ & Hs & Hb & Hh).
  rewrite Hs, Hb, Hh, Hcode, Hbody, Hhm, Hstore, Hres.
  split; [exact Hok|]. do 3 (split; [reflexivity|]).
  rewrite Hrest, Hst1. split; [by cbn|]. intros _. by cbn.
Qed.

End Preflight.

Lemma preflight_is_recorded_not_counted_witness :
  let out := serve (route_default (Storage0 := MemStorage tagWithKey)
                      sniffPlain showJSON showResponse onlyTestToken
                      testServer (OPTIONS "localhost" "/"))
               (initialState registeredStore 7) in
  fst out = Ok tt
  /\ StatusCode (Result (W (snd out))) = 204
  /\ StatsHttp (snd out) = 0.
Proof.
  pose proof (preflight_is_recorded_not_counted
                (Storage0 := MemStorage tagWithKey)
                sniffPlain showJSON showResponse onlyTestToken testServer
                (OPTIONS "localhost" "/") (initialState registeredStore 7)
                (sane_spec_defaults _) eq_refl) as H.
  cbv zeta in H. destruct H as (Hok & Hs & _ & _ & Hstats & _).
  split; [exact Hok|]. split; [exact Hs|exact Hstats].
Defined.

(** ** Bounds and panics on the way to the storage *)

Section Bounds.

Context {S : Type} `{!Storage S}.
Variable DetectContentType : string -> string.
Variable jsonEncode : JSONValue -> string.
Variable DumpResponse : Response -> string.
Variable isCorrelationID : Options -> string -> bool.

(** [handleInteraction] slices the key off the unique id.  When the unique
    id has at least [CorrelationIdLength] characters the interaction is
    appended under the first [CorrelationIdLength] of them, whatever the
    storage answers; when it is shorter, or the length is negative, the
    slice panics and nothing is stored. *)
Theorem handleInteraction_bounds (h : HTTPServer S)
  (uid fid reqS respS host : string) (st : State S) :
  let n := CorrelationIdLength (options h) in
  let out := handleInteraction jsonEncode h uid fid reqS respS host st in
  (0 <= n <= len uid ->
   out = (Ok tt,
          set_Store
            (snd (AddInteraction (String.substring 0 (Z.to_nat n) uid)
                    (jsonEncode (JSONInteraction
                       (httpInteraction uid fid reqS respS host (Clock st))))
                    (Store st))) st))
  /\ (n < 0 \/ len uid < n -> out = (Panicked SliceBoundsOutOfRange, st)).
Proof.
  cbv zeta. unfold handleInteraction, bind, lift, Now. split.
  - intros Hn. rewrite slice_prefix by lia. cbn [of_option].
    unfold storage_AddInteraction, httpInteraction, ret.
    by destruct (AddInteraction _ _ (Store st)).
  - intros Hn. unfold slice.
    assert (E : (0 <=? 0) && (0 <=? CorrelationIdLength (options h))
                && (CorrelationIdLength (options h) <=? len uid) = false).
    { destruct Hn; [|apply andb_false_iff; right; lia].
      apply andb_false_iff. left. cbn. lia. }
    by rewrite E.
Qed.

(** The dynamic response engine on a writer that has not written its
    header, for a request without the path prefix whose [status] is no
    three-digit code. *)
Lemma engine_invalid_status_run (req : Request) (st : State S) :
  wroteHeader (W st) = false ->
  HasPrefixI (Path req) "/b64_body:" = false ->
  Values_Get (Query req) "status" <> EmptyString ->
  checkWriteHeaderCode (fst (strconv.Atoi (Values_Get (Query req) "status")))
  = false ->
  exists st',
    writeResponseFromDynamicRequest DetectContentType req st
    = (Panicked (InvalidWriteHeaderCode
                   (fst (strconv.Atoi (Values_Get (Query req) "status")))),
       st')
    /\ Store st' = Store st
    /\ StatsHttp st' = StatsHttp st.
Proof.
  intros Hw Hp Hne Hc. rewrite (engine_no_prefix _ _ _ Hp).
  unfold dynamicDelay, dynamicStatus.
  apply String.eqb_neq in Hne. rewrite Hne.
  unfold bind, when, Sleep, w_WriteHeader, rw_WriteHeader.
  destruct (String.eqb (Values_Get (Query req) "delay") EmptyString);
    cbn -[lookup insert Header_Set Header_Get checkWriteHeaderCode
          strconv.Atoi time.Seconds Z.max headerCalls addHeaderMap];
    rewrite Hw, Hc;
    cbn -[lookup insert Header_Set Header_Get checkWriteHeaderCode
          strconv.Atoi time.Seconds Z.max headerCalls addHeaderMap];
    eexists; (split; [reflexivity|]); by cbn.
Qed.

(** A request that makes its handler panic leaves no trace.  On the route
    ["/"], a request with an ASCII path that reaches the dynamic response
    engine with a
    [status] that is no three-digit code (and without the path prefix)
    panics in [WriteHeader]; the panic passes through [logger], which then
    neither answers nor scans: the storage is what it was, even when the
    host carries a registered token.  The request has been counted. *)
Theorem invalid_status_request_is_not_recorded (h : HTTPServer S)
  (req : Request) (st : State S) (reflection : string) :
  Method req <> MethodOptions ->
  URLReflection isCorrelationID (options h) (Host req) = Ok reflection ->
  staticBranch h req = None ->
  is_ascii (Path req) = true ->
  dynamicRequest h req reflection ->
  HasPrefixI (Path req) "/b64_body:" = false ->
  Values_Get (Query req) "status" <> EmptyString ->
  let code := fst (strconv.Atoi (Values_Get (Query req) "status")) in
  checkWriteHeaderCode code = false ->
  let out := serve (route_default DetectContentType jsonEncode DumpResponse
                      isCorrelationID h req) st in
  fst out = Panicked (InvalidWriteHeaderCode code)
  /\ Store (snd out) = Store st
  /\ W (snd out) = NewRecorder
  /\ StatsHttp (snd out) = (StatsHttp st + 1) mod 2 ^ 64.
Proof.
  intros Hm Hrefl Hstatic _
    (Hfirst & Hrobots & Hjson & Hxml & Hdyn & Hq) Hp Hne.
  cbv zeta. intros Hc.
  destruct (defaultHandler_prelude DetectContentType isCorrelationID h req st
              reflection Hm Hrefl Hstatic)
    as (st0 & Hrun & _ & Hw & _ & _ & _ & Hst0).
  assert (Hbranch :
    defaultResponse DetectContentType h req (extractServerDomain h req)
      reflection
    = writeResponseFromDynamicRequest DetectContentType req).
  { unfold defaultResponse. rewrite Hrobots, Hjson, Hxml, Hdyn, Hp.
    assert (E1 : String.eqb (Path req) "/"
                 && String.eqb reflection EmptyString = false).
    { destruct Hfirst as [Hpath|Hr].
      - apply String.eqb_neq in Hpath. by rewrite Hpath.
      - apply String.eqb_neq in Hr. rewrite Hr. apply andb_false_r. }
    assert (E2 : nonempty (Query req) = true).
    { destruct Hq as [Hq|Hq]; [|congruence].
      unfold nonempty. by apply bool_decide_eq_true_2. }
    by rewrite E1, E2. }
  rewrite Hbranch in Hrun.
  destruct (engine_invalid_status_run req st0 Hw Hp Hne Hc)
    as (st' & Hengine & Hstore & Hstats).
  rewrite Hengine in Hrun.
  unfold route_default, serve, logger. cbn [W set_W].
  change (set_W NewRecorder (set_W NewRecorder st)) with (set_W NewRecorder st).
  rewrite Hrun. cbn [fst snd Store set_W W StatsHttp].
  rewrite Hstore, Hstats, Hst0. by cbn.
Qed.

End Bounds.

Lemma handleInteraction_bounds_witness :
  handleInteraction (Storage0 := MemStorage tagWithKey) showJSON testServer
    "ugboyyyyyn" "ugboyyyyyn.interactsh.com" "request" "response" "192.0.2.1"
    (initialState registeredStore 7)
  = (Panicked SliceBoundsOutOfRange, initialState registeredStore 7).
Proof.
  pose proof (handleInteraction_bounds (Storage0 := MemStorage tagWithKey)
                showJSON testServer "ugboyyyyyn" "ugboyyyyyn.interactsh.com"
                "request" "response" "192.0.2.1"
                (initialState registeredStore 7)) as H.
  cbv zeta in H. destruct H as [_ Hshort].
  apply Hshort. right. by vm_compute.
Defined.

Lemma invalid_status_request_is_not_recorded_witness :
  let out := serve (route_default (Storage0 := MemStorage tagWithKey)
                      sniffPlain showJSON showResponse onlyTestToken
                      testServer
                      (GET tokenHost "/" {[ "status" := ["teapot"] ]}))
               (initialState registeredStore 7) in
  fst out = Panicked (InvalidWriteHeaderCode 0)
  /\ Store (snd out) = registeredStore.
Proof.
  set (req := GET tokenHost "/" {[ "status" := ["teapot"] ]}).
  assert (Hdyn : dynamicRequest testServer req
                   "nyyyyyobgu5gc086ea2ntueaica16jr6c").
  { repeat split; try reflexivity.
    - right. discriminate.
    - left. intros E. apply (f_equal (fun m => m !! "status")) in E.
      vm_compute in E. discriminate E. }
  assert (Hne : Values_Get (Query req) "status" <> EmptyString)
    by (intros E; vm_compute in E; discriminate E).
  assert (Hc : checkWriteHeaderCode
                 (fst (strconv.Atoi (Values_Get (Query req) "status")))
               = false) by (by vm_compute).
  pose proof (invalid_status_request_is_not_recorded
                (Storage0 := MemStorage tagWithKey)
                sniffPlain showJSON showResponse onlyTestToken testServer
                req (initialState registeredStore 7)
                "nyyyyyobgu5gc086ea2ntueaica16jr6c"
                ltac:(discriminate) eq_refl eq_refl eq_refl Hdyn eq_refl Hne
                Hc) as H.
  cbv zeta in H. destruct H as (Hpanic & Hstore & _).
  split; [exact Hpanic|exact Hstore].
Defined.

Lemma rootTLD_interactions_witness :
  channels (Store (snd (storeRootTLD (Storage0 := MemStorage tagWithKey)
                          showJSON proxiedServer proxiedGET "request"
                          "response" (initialState registeredStore 7))))
  !! "interactsh.com"
  = Some [showJSON (JSONInteraction
            (httpInteraction "www.interactsh.com" "www.interactsh.com"
               "request" "response" "10.0.0.1" 7))].
Proof.
  pose proof (rootTLD_interactions (Storage0 := MemStorage tagWithKey)
                showJSON proxiedServer proxiedGET "request" "response"
                (initialState registeredStore 7)) as H.
  cbv zeta in H. destruct H as (_ & _ & _ & Hon).
  assert (Hnames : asciiNames (options proxiedServer) proxiedGET)
    by (split; [reflexivity|repeat constructor]).
  rewrite (Hon eq_refl Hnames). clear. by vm_compute.
Defined.
